(** * AstraLLM decision and risk-control engine: a shallow embedding

    The development follows the Python sources file by file:

    - [core/risk_manager.py]      -> module [risk_manager]
    - [core/market_regime.py]     -> module [market_regime]
    - [core/strategy_selector.py] -> module [strategy_selector]
    - [bot/trading_bot.py]        -> module [trading_bot]

    Python [float] is IEEE 754 binary64 with round-to-nearest-even, which is
    exactly Rocq's primitive [float]; Python [int] is [Z].  Methods that mutate
    [self] are functions from the object's state to its new state paired with
    what the call returned or raised.  Wall-clock readings ([datetime.now()])
    are an explicit argument, in microseconds. *)

From Stdlib Require Import ZArith List String Bool Lia Floats.
Import ListNotations.

Set Warnings "-inexact-float".

(** ** Python values: exceptions, floats, ints *)

Module Py.

Local Open Scope Z_scope.

(** The exceptions the modelled code can raise.  [RequestError] stands for
    whatever the exchange client raises on a failed call. *)
Inductive exn : Set :=
| ZeroDivisionError
| OverflowError
| KeyError
| RequestError.

Inductive result (A : Type) : Type :=
| Ok (a : A)
| Raise (e : exn).

Arguments Ok {A} a.
Arguments Raise {A} e.

Definition bind {A B : Type} (m : result A) (k : A -> result B) : result B :=
  match m with
  | Ok a => k a
  | Raise e => Raise e
  end.

(** [x >= y] and [x > y] on floats are the IEEE comparisons with the
    operands swapped; every comparison with a NaN is [false]. *)
Definition geb (x y : float) : bool := PrimFloat.leb y x.
Definition gtb (x y : float) : bool := PrimFloat.ltb y x.

(** [x != y] on floats. *)
Definition neb (x y : float) : bool := negb (PrimFloat.eqb x y).

(** An integer as an exact (unrounded) binary number with exponent 0. *)
Definition int_sf (z : Z) : spec_float :=
  match z with
  | Z0 => S754_zero false
  | Zpos p => S754_finite false p 0
  | Zneg p => S754_finite true p 0
  end.

(** The least magnitude that round-to-nearest-even sends to infinity:
    [2^1024 - 2^970], half an ulp above the largest finite double. *)
Definition overflow_threshold : Z := 2 ^ 1024 - 2 ^ 970.

(** [float(z)] rounded to nearest even, without the overflow test. *)
Definition int_to_float (z : Z) : float :=
  SF2Prim (binary_normalize prec emax z 0 false).

(** [float(z)]: raises [OverflowError] when [z] is too large for a double. *)
Definition float_of_int (z : Z) : result float :=
  if overflow_threshold <=? Z.abs z then Raise OverflowError
  else Ok (int_to_float z).

(** The correctly rounded quotient of two integers (the divisor nonzero). *)
Definition truediv_value (a b : Z) : float :=
  SF2Prim (SFdiv prec emax (int_sf a) (int_sf b)).

(** [a / b] on two ints (true division): the exact quotient rounded once;
    [ZeroDivisionError] for [b = 0], [OverflowError] when the quotient is
    too large for a double. *)
Definition int_truediv (a b : Z) : result float :=
  if b =? 0 then Raise ZeroDivisionError
  else if Z.abs b * overflow_threshold <=? Z.abs a then Raise OverflowError
  else Ok (truediv_value a b).

(** [x / y] on two floats: raises on a zero divisor of either sign. *)
Definition float_div (x y : float) : result float :=
  if PrimFloat.eqb y 0%float then Raise ZeroDivisionError
  else Ok (x / y)%float.

(** The built-in [min(a, b)]: the first argument is kept unless the second
    compares strictly below it. *)
Definition py_min (a b : float) : float := if PrimFloat.ltb b a then b else a.

(** The built-in [sum] over floats: CPython adds left to right from 0.
    (Release 3.12 carries a correction term besides; it is zero whenever
    every partial sum is exact.) *)
Definition py_sum (xs : list float) : float :=
  fold_left PrimFloat.add xs 0%float.

(** [max(items, key=lambda x: x[1])]: the scan keeps the first item and
    replaces it only by a later one whose value is strictly greater; on an
    empty sequence Python raises, here [None]. *)
Fixpoint max_from {K : Type} (best : K * float) (items : list (K * float)) : K * float :=
  match items with
  | [] => best
  | x :: rest => max_from (if gtb (snd x) (snd best) then x else best) rest
  end.

Definition max_by_value {K : Type} (items : list (K * float)) : option (K * float) :=
  match items with
  | [] => None
  | x :: rest => Some (max_from x rest)
  end.

(** [xs[-n:]] for [n > 0]: the last [n] elements. *)
Definition last_n {A : Type} (n : nat) (xs : list A) : list A :=
  skipn (List.length xs - n) xs.

(** [xs.index(x)] on a list of strings, [None] when [x not in xs]. *)
Fixpoint index_of (x : string) (xs : list string) : option nat :=
  match xs with
  | [] => None
  | y :: ys =>
      if String.eqb x y then Some O
      else match index_of x ys with
           | Some i => Some (S i)
           | None => None
           end
  end.

(** The built-in [max(a, b)]: the first argument is kept unless the second
    compares strictly above it. *)
Definition py_max (a b : float) : float := if gtb b a then b else a.

(** [bool(x)] of a float: every value but the two zeros is truthy. *)
Definition float_truthy (x : float) : bool := neb x 0%float.

(** A float as an object.  Besides the built-in [float] the code meets
    [numpy.float64], a subclass of it that pandas and numpy hand out.  The
    two compute the same binary64 values, and an operation with a numpy
    operand is numpy's and gives a [numpy.float64]; an [int] operand leaves
    the kind of the other as it is.  They differ in a division by zero:
    the built-in raises, numpy answers an infinity or a NaN (and warns). *)
Record number : Type := mkNumber {
  num_value : float;
  is_numpy : bool
}.

Definition builtin (x : float) : number := {| num_value := x; is_numpy := false |}.
Definition float64 (x : float) : number := {| num_value := x; is_numpy := true |}.

Definition num_sub (a b : number) : number :=
  {| num_value := (num_value a - num_value b)%float;
     is_numpy := is_numpy a || is_numpy b |}.

Definition num_mul (a b : number) : number :=
  {| num_value := (num_value a * num_value b)%float;
     is_numpy := is_numpy a || is_numpy b |}.

Definition num_abs (a : number) : number :=
  {| num_value := abs (num_value a); is_numpy := is_numpy a |}.

Definition num_div (a b : number) : result number :=
  if is_numpy a || is_numpy b
  then Ok (float64 (num_value a / num_value b)%float)
  else bind (float_div (num_value a) (num_value b)) (fun q => Ok (builtin q)).

(** [max(a, b)] answers one of its two arguments, the object itself. *)
Definition num_max (a b : number) : number :=
  if gtb (num_value b) (num_value a) then b else a.

End Py.

Notation "x <- m ;; k" := (Py.bind m (fun x => k))
  (at level 61, m at next level, right associativity).

(** ** Python dictionaries with string keys

    A [dict] keeps its keys in insertion order, and the code iterates over
    them, so a dictionary is the list of its items in that order.  The
    representation invariant is [wf]: no key occurs twice. *)

Module PyDict.

Section Dict.

Variable V : Type.

Definition t : Type := list (string * V).

Definition empty : t := [].

(** [d.get(k)] *)
Fixpoint get (k : string) (d : t) : option V :=
  match d with
  | [] => None
  | (k', v) :: r => if String.eqb k k' then Some v else get k r
  end.

(** [k in d] *)
Definition mem (k : string) (d : t) : bool :=
  match get k d with
  | Some _ => true
  | None => false
  end.

(** [d[k] = v]: an existing key keeps its place, a new one goes last. *)
Fixpoint set (k : string) (v : V) (d : t) : t :=
  match d with
  | [] => [(k, v)]
  | (k', v') :: r =>
      if String.eqb k k' then (k, v) :: r else (k', v') :: set k v r
  end.

(** [del d[k]] for a key of [d] (the callers test membership first). *)
Definition del (k : string) (d : t) : t :=
  filter (fun kv => negb (String.eqb k (fst kv))) d.

(** [list(d.keys())], [list(d.values())], [len(d)] *)
Definition keys (d : t) : list string := map fst d.
Definition values (d : t) : list V := map snd d.
Definition len (d : t) : Z := Z.of_nat (List.length d).

Definition wf (d : t) : Prop := NoDup (keys d).

End Dict.

Arguments empty {V}.
Arguments get {V} k d.
Arguments mem {V} k d.
Arguments set {V} k v d.
Arguments del {V} k d.
Arguments keys {V} d.
Arguments values {V} d.
Arguments len {V} d.
Arguments wf {V} d.

End PyDict.

(** ** core/risk_manager.py *)

Module risk_manager.

Import Py.
Local Open Scope float_scope.

(** A [datetime], in microseconds; [timedelta(days=1)]. *)
Definition datetime : Type := Z.
Bind Scope Z_scope with datetime.
Definition one_day : Z := 86400000000%Z.

(** [class Position] (a dataclass).  [entry_time] is filled in by
    [__post_init__] with the clock reading of the moment of creation. *)
Module Position.
Record t : Type := mk {
  symbol : string;
  side : string;
  entry_price : float;
  quantity : float;
  leverage : Z;
  stop_loss : option float;
  take_profit : option float;
  unrealized_pnl : float;
  liquidation_price : option float;
  entry_time : datetime;
  strategy : string;
  sl_order_id : option string;
  tp_order_id : option string
}.

Definition set_unrealized_pnl (p : t) (x : float) : t :=
  mk (symbol p) (side p) (entry_price p) (quantity p) (leverage p)
     (stop_loss p) (take_profit p) x (liquidation_price p) (entry_time p)
     (strategy p) (sl_order_id p) (tp_order_id p).
End Position.

(** [class Trade] (a dataclass). *)
Module Trade.
Record t : Type := mk {
  symbol : string;
  side : string;
  entry_price : float;
  exit_price : float;
  quantity : float;
  leverage : Z;
  pnl : float;
  pnl_percentage : float;
  entry_time : datetime;
  exit_time : datetime;
  strategy : string
}.
End Trade.

(** The attributes of a [RiskManager] instance.  [db_manager] is the
    persistent store: [close_position] writes to it inside a [try] whose
    handler only logs, so it never changes what is modelled here. *)
Record RiskManager : Type := mkRiskManager {
  initial_capital : float;
  current_capital : float;
  max_leverage : Z;
  risk_per_trade : float;
  max_daily_loss : float;
  max_open_positions : Z;
  min_risk_reward : float;
  positions : PyDict.t Position.t;
  trades : list Trade.t;
  daily_pnl : float;
  daily_trades : Z;
  last_reset : datetime
}.

(** [RiskManager.__init__] *)
Definition init (now : datetime) (initial_capital_ : float)
    (max_leverage_ : Z) (risk_per_trade_ max_daily_loss_ : float)
    (max_open_positions_ : Z) (min_risk_reward_ : float) : RiskManager :=
  {| initial_capital := initial_capital_;
     current_capital := initial_capital_;
     max_leverage := max_leverage_;
     risk_per_trade := risk_per_trade_;
     max_daily_loss := max_daily_loss_;
     max_open_positions := max_open_positions_;
     min_risk_reward := min_risk_reward_;
     positions := PyDict.empty;
     trades := [];
     daily_pnl := 0;
     daily_trades := 0%Z;
     last_reset := now |}.

(** The keyword defaults of [__init__]. *)
Definition init_default (now : datetime) (initial_capital_ : float) : RiskManager :=
  init now initial_capital_ 50%Z 0.02 0.10 5%Z 1.5.

Definition set_positions (rm : RiskManager) (d : PyDict.t Position.t) : RiskManager :=
  {| initial_capital := initial_capital rm;
     current_capital := current_capital rm;
     max_leverage := max_leverage rm;
     risk_per_trade := risk_per_trade rm;
     max_daily_loss := max_daily_loss rm;
     max_open_positions := max_open_positions rm;
     min_risk_reward := min_risk_reward rm;
     positions := d;
     trades := trades rm;
     daily_pnl := daily_pnl rm;
     daily_trades := daily_trades rm;
     last_reset := last_reset rm |}.

(** [reset_daily_stats] *)
Definition reset_daily_stats (now : datetime) (rm : RiskManager) : RiskManager :=
  if (one_day <? now - last_reset rm)%Z then
    {| initial_capital := initial_capital rm;
       current_capital := current_capital rm;
       max_leverage := max_leverage rm;
       risk_per_trade := risk_per_trade rm;
       max_daily_loss := max_daily_loss rm;
       max_open_positions := max_open_positions rm;
       min_risk_reward := min_risk_reward rm;
       positions := positions rm;
       trades := trades rm;
       daily_pnl := 0;
       daily_trades := 0%Z;
       last_reset := now |}
  else rm.

(** [can_open_position]: the four gates, after the daily reset. *)
Definition can_open_position (now : datetime) (symbol : string)
    (rm : RiskManager) : RiskManager * bool :=
  let rm := reset_daily_stats now rm in
  if daily_pnl rm <? - (initial_capital rm * max_daily_loss rm) then (rm, false)
  else if (max_open_positions rm <=? PyDict.len (positions rm))%Z then (rm, false)
  else if PyDict.mem symbol (positions rm) then (rm, false)
  else if current_capital rm <=? initial_capital rm * 0.5 then (rm, false)
  else (rm, true).

(** The default [maintenance_margin_rate]. *)
Definition default_maintenance_margin_rate : float := 0.005.

(** [calculate_liquidation_price]: any [side] other than ["LONG"] takes the
    SHORT branch.  [1/leverage] divides two ints. *)
Definition calculate_liquidation_price (entry_price : float) (leverage : Z)
    (side : string) (maintenance_margin_rate : float) : result float :=
  if String.eqb side "LONG" then
    q <- int_truediv 1 leverage ;;
    Ok (entry_price * (1 - q + maintenance_margin_rate))
  else
    q <- int_truediv 1 leverage ;;
    Ok (entry_price * (1 + q - maintenance_margin_rate)).

(** The safety check of [open_position]: the stop is at or beyond the
    liquidation price on the loss side. *)
Definition stop_beyond_liquidation (side : string) (stop_loss liquidation_price : float) : bool :=
  if String.eqb side "LONG" then stop_loss <=? liquidation_price
  else geb stop_loss liquidation_price.

(** [Position(...)] as [open_position] calls it: the fields it does not
    pass take their dataclass defaults, [entry_time] the clock reading. *)
Definition new_position (now : datetime) (symbol side : string)
    (entry_price quantity : float) (leverage : Z) (stop_loss : float)
    (take_profit : option float) (strategy : string)
    (liquidation_price : float) : Position.t :=
  {| Position.symbol := symbol;
     Position.side := side;
     Position.entry_price := entry_price;
     Position.quantity := quantity;
     Position.leverage := leverage;
     Position.stop_loss := Some stop_loss;
     Position.take_profit := take_profit;
     Position.unrealized_pnl := 0;
     Position.liquidation_price := Some liquidation_price;
     Position.entry_time := now;
     Position.strategy := strategy;
     Position.sl_order_id := None;
     Position.tp_order_id := None |}.

(** [open_position].  The result is [Ok None] for a refusal, [Ok (Some p)]
    for the position created, [Raise] when the liquidation price cannot be
    computed (leverage 0). *)
Definition open_position (now : datetime) (symbol side : string)
    (entry_price quantity : float) (leverage : Z) (stop_loss : float)
    (take_profit : option float) (strategy : string)
    (rm : RiskManager) : RiskManager * result (option Position.t) :=
  let (rm, allowed) := can_open_position now symbol rm in
  if negb allowed then (rm, Ok None)
  else
    match calculate_liquidation_price entry_price leverage side
            default_maintenance_margin_rate with
    | Raise e => (rm, Raise e)
    | Ok liquidation_price =>
        if stop_beyond_liquidation side stop_loss liquidation_price
        then (rm, Ok None)
        else
          let position :=
            new_position now symbol side entry_price quantity leverage
              stop_loss take_profit strategy liquidation_price in
          ({| initial_capital := initial_capital rm;
              current_capital := current_capital rm;
              max_leverage := max_leverage rm;
              risk_per_trade := risk_per_trade rm;
              max_daily_loss := max_daily_loss rm;
              max_open_positions := max_open_positions rm;
              min_risk_reward := min_risk_reward rm;
              positions := PyDict.set symbol position (positions rm);
              trades := trades rm;
              daily_pnl := daily_pnl rm;
              daily_trades := (daily_trades rm + 1)%Z;
              last_reset := last_reset rm |},
           Ok (Some position))
    end.

(** The two ways [close_position] obtains [(pnl, pnl_percentage)]. *)
Definition realized_pnl_of (position : Position.t) (exit_price : float)
    (realized_pnl : option float) : result (float * float) :=
  match realized_pnl with
  | Some pnl =>
      r <- float_div pnl (Position.entry_price position * Position.quantity position) ;;
      Ok (pnl, r * 100)
  | None =>
      let pnl_per_unit :=
        if String.eqb (Position.side position) "LONG"
        then exit_price - Position.entry_price position
        else Position.entry_price position - exit_price in
      let pnl := pnl_per_unit * Position.quantity position in
      r <- float_div pnl_per_unit (Position.entry_price position) ;;
      Ok (pnl, r * 100)
  end.

(** [close_position] *)
Definition close_position (now : datetime) (symbol : string)
    (exit_price : float) (strategy : string) (realized_pnl : option float)
    (rm : RiskManager) : RiskManager * result (option Trade.t) :=
  match PyDict.get symbol (positions rm) with
  | None => (rm, Ok None)
  | Some position =>
      match realized_pnl_of position exit_price realized_pnl with
      | Raise e => (rm, Raise e)
      | Ok (pnl, pnl_percentage) =>
          let trade :=
            {| Trade.symbol := symbol;
               Trade.side := Position.side position;
               Trade.entry_price := Position.entry_price position;
               Trade.exit_price := exit_price;
               Trade.quantity := Position.quantity position;
               Trade.leverage := Position.leverage position;
               Trade.pnl := pnl;
               Trade.pnl_percentage := pnl_percentage;
               Trade.entry_time := Position.entry_time position;
               Trade.exit_time := now;
               Trade.strategy := strategy |} in
          ({| initial_capital := initial_capital rm;
              current_capital := current_capital rm + pnl;
              max_leverage := max_leverage rm;
              risk_per_trade := risk_per_trade rm;
              max_daily_loss := max_daily_loss rm;
              max_open_positions := max_open_positions rm;
              min_risk_reward := min_risk_reward rm;
              positions := PyDict.del symbol (positions rm);
              trades := trades rm ++ [trade];
              daily_pnl := daily_pnl rm + pnl;
              daily_trades := daily_trades rm;
              last_reset := last_reset rm |},
           Ok (Some trade))
      end
  end.

(** [update_position]: the position object is mutated in place, so its
    entry in the dictionary keeps its key and its rank. *)
Definition update_position (symbol : string) (current_price : float)
    (rm : RiskManager) : RiskManager :=
  match PyDict.get symbol (positions rm) with
  | None => rm
  | Some position =>
      let pnl_per_unit :=
        if String.eqb (Position.side position) "LONG"
        then current_price - Position.entry_price position
        else Position.entry_price position - current_price in
      set_positions rm
        (PyDict.set symbol
           (Position.set_unrealized_pnl position
              (pnl_per_unit * Position.quantity position))
           (positions rm))
  end.

(** Calls on the ledger, and the state a sequence of them leaves behind
    (a call that is refused or raises leaves whatever state it reached). *)
Inductive call : Type :=
| Open (now : datetime) (symbol side : string) (entry_price quantity : float)
       (leverage : Z) (stop_loss : float) (take_profit : option float)
       (strategy : string)
| UpdateMark (symbol : string) (current_price : float)
| Close (now : datetime) (symbol : string) (exit_price : float)
        (strategy : string) (realized_pnl : option float).

Definition step (rm : RiskManager) (c : call) : RiskManager :=
  match c with
  | Open now symbol side entry_price quantity leverage stop_loss take_profit strategy =>
      fst (open_position now symbol side entry_price quantity leverage
             stop_loss take_profit strategy rm)
  | UpdateMark symbol current_price => update_position symbol current_price rm
  | Close now symbol exit_price strategy realized_pnl =>
      fst (close_position now symbol exit_price strategy realized_pnl rm)
  end.

Definition run (rm : RiskManager) (calls : list call) : RiskManager :=
  fold_left step calls rm.

(** *** What the specification says of the ledger *)

(** A position is sized as the data model demands: positive quantity and
    leverage in (0, max_leverage]. *)
Definition sized (max_leverage_ : Z) (p : Position.t) : Prop :=
  (0 <? Position.quantity p) = true /\
  (0 < Position.leverage p <= max_leverage_)%Z.

(** The ledger invariant of the data model: one position per symbol, each
    filed under its own symbol, each sized. *)
Definition ledger_invariant (rm : RiskManager) : Prop :=
  PyDict.wf (positions rm) /\
  forall k p, PyDict.get k (positions rm) = Some p ->
              Position.symbol p = k /\ sized (max_leverage rm) p.

(** An [Open] call whose quantity and leverage are in range for a
    configured maximum; the other calls carry neither. *)
Definition well_sized_call (max_leverage_ : Z) (c : call) : Prop :=
  match c with
  | Open _ _ _ _ quantity leverage _ _ _ =>
      (0 <? quantity) = true /\ (0 < leverage <= max_leverage_)%Z
  | _ => True
  end.

(** *** The remaining calculations of the risk manager *)

(** The risk amount of [calculate_position_size].  [volatility] is
    optional and tested by truthiness ([None] and 0.0 skip the
    adjustment).  The capital and the risk fraction are built-in floats;
    the product is a [numpy.float64] when the multiplier is one, that is
    when the volatility is one and [max] answers its second argument. *)
Definition risk_amount_for (rm : RiskManager) (volatility : option number) : number :=
  let risk_amount := builtin (current_capital rm * risk_per_trade rm) in
  match volatility with
  | Some v =>
      if float_truthy (num_value v)
      then num_mul risk_amount
             (num_max (builtin 0.5) (num_sub (builtin 1) (num_mul v (builtin 2))))
      else risk_amount
  | None => risk_amount
  end.

(** [calculate_position_size].  The prices and the volatility come from
    the caller as built-in floats or as [numpy.float64] (the bot passes
    the volatility of a pandas series).  Each of the three divisions
    raises only between two built-in floats; [20 / leverage] divides two
    ints. *)
Definition calculate_position_size (rm : RiskManager) (symbol : string)
    (entry_price stop_loss : number) (leverage : Z)
    (volatility : option number) : result number :=
  let risk_amount := risk_amount_for rm volatility in
  stop_distance <- num_div (num_abs (num_sub entry_price stop_loss)) entry_price ;;
  position_value <- num_div risk_amount stop_distance ;;
  quantity <- num_div position_value entry_price ;;
  q <- int_truediv 20 leverage ;;
  let leverage_adjustment := py_min 1.0 q in
  Ok (num_mul quantity (builtin leverage_adjustment)).

(** [calculate_stop_loss].  [(leverage - 10) / 100] divides two ints,
    [risk_per_trade / leverage] converts the int first. *)
Definition calculate_stop_loss (rm : RiskManager) (entry_price : float)
    (side : string) (atr : float) (leverage : Z) (tight : bool) : result float :=
  let atr_multiplier := if tight then 1.0 else 1.5 in
  let stop_distance := atr * atr_multiplier in
  q <- int_truediv (leverage - 10) 100 ;;
  let leverage_factor := py_max 0.5 (1 - q) in
  let stop_distance := stop_distance * leverage_factor in
  let stop_price :=
    if String.eqb side "LONG" then entry_price - stop_distance
    else entry_price + stop_distance in
  l <- float_of_int leverage ;;
  r <- float_div (risk_per_trade rm) l ;;
  let max_stop_distance := entry_price * (r * 5) in
  if gtb (abs (entry_price - stop_price)) max_stop_distance then
    if String.eqb side "LONG" then Ok (entry_price - max_stop_distance)
    else Ok (entry_price + max_stop_distance)
  else Ok stop_price.

(** [calculate_take_profit] *)
Definition calculate_take_profit (entry_price stop_loss : float) (side : string)
    (risk_reward_ratio : float) : float :=
  let stop_distance := abs (entry_price - stop_loss) in
  let profit_distance := stop_distance * risk_reward_ratio in
  if String.eqb side "LONG" then entry_price + profit_distance
  else entry_price - profit_distance.

(** [check_stop_loss] *)
Definition check_stop_loss (symbol : string) (current_price : float)
    (rm : RiskManager) : bool :=
  match PyDict.get symbol (positions rm) with
  | None => false
  | Some position =>
      match Position.stop_loss position with
      | None => false
      | Some sl =>
          if String.eqb (Position.side position) "LONG"
          then current_price <=? sl
          else geb current_price sl
      end
  end.

(** [check_take_profit] *)
Definition check_take_profit (symbol : string) (current_price : float)
    (rm : RiskManager) : bool :=
  match PyDict.get symbol (positions rm) with
  | None => false
  | Some position =>
      match Position.take_profit position with
      | None => false
      | Some tp =>
          if String.eqb (Position.side position) "LONG"
          then geb current_price tp
          else current_price <=? tp
      end
  end.

(** The dictionary [get_statistics] returns.  The key [sharpe_ratio] is
    present only in the answer for an empty history.  Python's int 0 and
    float 0.0 are one value here. *)
Record Statistics : Type := mkStatistics {
  stat_total_trades : Z;
  stat_winning_trades : Z;
  stat_losing_trades : Z;
  stat_win_rate : float;
  stat_total_pnl : float;
  stat_avg_win : float;
  stat_avg_loss : float;
  stat_profit_factor : float;
  stat_sharpe_ratio : option float;
  stat_max_drawdown : float;
  stat_current_capital : float;
  stat_roi : float;
  stat_daily_pnl : float;
  stat_open_positions : Z
}.

(** [capital_curve]: the running capital after each trade, from the
    initial capital. *)
Fixpoint capital_curve_from (last : float) (pnls : list float) : list float :=
  match pnls with
  | [] => []
  | p :: rest => (last + p) :: capital_curve_from (last + p) rest
  end.

Definition capital_curve (rm : RiskManager) : list float :=
  initial_capital rm
  :: capital_curve_from (initial_capital rm) (map Trade.pnl (trades rm)).

(** The drawdown loop: [(peak, max_dd)] after the curve, or the division
    by a zero peak. *)
Fixpoint drawdown_loop (peak max_dd : float) (curve : list float)
    : result (float * float) :=
  match curve with
  | [] => Ok (peak, max_dd)
  | capital :: rest =>
      let peak := if gtb capital peak then capital else peak in
      dd <- float_div (peak - capital) peak ;;
      drawdown_loop peak (if gtb dd max_dd then dd else max_dd) rest
  end.

(** [get_statistics].  The averages and the win rate divide by the length
    of a list just tested non-empty, and the profit factor by a total just
    tested positive, so only the drawdown loop and the ROI can raise. *)
Definition get_statistics (rm : RiskManager) : result Statistics :=
  match trades rm with
  | [] =>
      Ok {| stat_total_trades := 0;
            stat_winning_trades := 0;
            stat_losing_trades := 0;
            stat_win_rate := 0.0;
            stat_total_pnl := 0.0;
            stat_avg_win := 0.0;
            stat_avg_loss := 0.0;
            stat_profit_factor := 0.0;
            stat_sharpe_ratio := Some 0.0;
            stat_max_drawdown := 0.0;
            stat_current_capital := current_capital rm;
            stat_roi := 0.0;
            stat_daily_pnl := daily_pnl rm;
            stat_open_positions := PyDict.len (positions rm) |}
  | _ :: _ =>
      let count := fun (l : list Trade.t) => Z.of_nat (List.length l) in
      let winning_trades := filter (fun t => gtb (Trade.pnl t) 0) (trades rm) in
      let losing_trades := filter (fun t => Trade.pnl t <=? 0) (trades rm) in
      let total_wins := py_sum (map Trade.pnl winning_trades) in
      let total_losses := abs (py_sum (map Trade.pnl losing_trades)) in
      let avg_win :=
        match winning_trades with
        | [] => 0
        | _ :: _ => total_wins / int_to_float (count winning_trades)
        end in
      let avg_loss :=
        match losing_trades with
        | [] => 0
        | _ :: _ => total_losses / int_to_float (count losing_trades)
        end in
      let profit_factor :=
        if gtb total_losses 0 then total_wins / total_losses else infinity in
      pm <- drawdown_loop (initial_capital rm) 0 (capital_curve rm) ;;
      r <- float_div (current_capital rm - initial_capital rm) (initial_capital rm) ;;
      Ok {| stat_total_trades := count (trades rm);
            stat_winning_trades := count winning_trades;
            stat_losing_trades := count losing_trades;
            stat_win_rate :=
              truediv_value (count winning_trades) (count (trades rm)) * 100;
            stat_total_pnl := py_sum (map Trade.pnl (trades rm));
            stat_avg_win := avg_win;
            stat_avg_loss := avg_loss;
            stat_profit_factor := profit_factor;
            stat_sharpe_ratio := None;
            stat_max_drawdown := snd pm * 100;
            stat_current_capital := current_capital rm;
            stat_roi := r * 100;
            stat_daily_pnl := daily_pnl rm;
            stat_open_positions := PyDict.len (positions rm) |}
  end.

(** *** Properties of held positions *)

(** A position carries a stop and the liquidation price of its own entry
    price, leverage and side, and the stop is inside it. *)
Definition bracket_safe (p : Position.t) : Prop :=
  exists sl liq,
    Position.stop_loss p = Some sl /\
    Position.liquidation_price p = Some liq /\
    calculate_liquidation_price (Position.entry_price p) (Position.leverage p)
      (Position.side p) default_maintenance_margin_rate = Ok liq /\
    stop_beyond_liquidation (Position.side p) sl liq = false.

(** Every held position is such. *)
Definition all_bracket_safe (rm : RiskManager) : Prop :=
  forall k p, PyDict.get k (positions rm) = Some p -> bracket_safe p.

End risk_manager.

(** ** core/market_regime.py *)

Module market_regime.

Import Py.
Local Open Scope float_scope.

(** [class MarketRegime(Enum)] *)
Inductive MarketRegime : Set :=
| HIGH_VOLATILITY_TRENDING
| LOW_VOLATILITY_RANGING
| MOMENTUM_EXHAUSTION
| MIXED
| UNKNOWN.

Definition regime_eqb (a b : MarketRegime) : bool :=
  match a, b with
  | HIGH_VOLATILITY_TRENDING, HIGH_VOLATILITY_TRENDING
  | LOW_VOLATILITY_RANGING, LOW_VOLATILITY_RANGING
  | MOMENTUM_EXHAUSTION, MOMENTUM_EXHAUSTION
  | MIXED, MIXED
  | UNKNOWN, UNKNOWN => true
  | _, _ => false
  end.

(** [class RegimeSignals] (a dataclass) *)
Record RegimeSignals : Type := mkRegimeSignals {
  volatility : float;
  trend_strength : float;
  volume_trend : float;
  orderbook_imbalance : float;
  funding_rate : float;
  funding_trend : float;
  rsi : float;
  price_momentum : float;
  liquidity_score : float;
  regime_persistence : float
}.

(** The mutable attributes of a [MarketRegimeDetector]. *)
Record MarketRegimeDetector : Type := mkDetector {
  current_regime : MarketRegime;
  regime_confidence : float;
  regime_history : list (Z * MarketRegime * float);
  regime_start_time : option Z
}.

(** The thresholds [__init__] sets; nothing assigns them afterwards. *)
Definition volatility_high : float := 0.03.
Definition volatility_low : float := 0.015.
Definition trend_strong : float := 40.
Definition momentum_extreme_rsi : float * float := (25, 75).

(** [MarketRegimeDetector.__init__] *)
Definition init : MarketRegimeDetector :=
  {| current_regime := UNKNOWN;
     regime_confidence := 0.0;
     regime_history := [];
     regime_start_time := None |}.

(** The [scores] dictionary of [detect_regime], in insertion order. *)
Definition scores_t : Type := list (MarketRegime * float).

Definition initial_scores : scores_t :=
  [ (HIGH_VOLATILITY_TRENDING, 0.0);
    (LOW_VOLATILITY_RANGING, 0.0);
    (MOMENTUM_EXHAUSTION, 0.0);
    (MIXED, 0.5) ].

(** [scores[r] += x] *)
Fixpoint add_score (r : MarketRegime) (x : float) (scores : scores_t) : scores_t :=
  match scores with
  | [] => []
  | (r', s) :: rest =>
      if regime_eqb r r' then (r', s + x) :: rest
      else (r', s) :: add_score r x rest
  end.

(** [if cond: scores[r] += x] *)
Definition score_if (cond : bool) (r : MarketRegime) (x : float)
    (scores : scores_t) : scores_t :=
  if cond then add_score r x scores else scores.

(** [detect_regime].  [scores] always holds its four items, so [max] has a
    result; the division is guarded by [total_score > 0], so it cannot
    raise. *)
Definition detect_regime (self : MarketRegimeDetector) (signals : RegimeSignals)
    : MarketRegime * float :=
  let scores := initial_scores in
  (* HIGH VOLATILITY TRENDING signals *)
  let scores := score_if (gtb (volatility signals) volatility_high)
                  HIGH_VOLATILITY_TRENDING 3.0 scores in
  let scores := score_if (gtb (trend_strength signals) trend_strong)
                  HIGH_VOLATILITY_TRENDING 2.5 scores in
  let scores := score_if (gtb (abs (price_momentum signals)) 0.5)
                  HIGH_VOLATILITY_TRENDING 2.0 scores in
  let scores := score_if (gtb (volume_trend signals) 0.3)
                  HIGH_VOLATILITY_TRENDING 1.5 scores in
  (* LOW VOLATILITY RANGING signals *)
  let scores := score_if (volatility signals <? volatility_low)
                  LOW_VOLATILITY_RANGING 3.0 scores in
  let scores := score_if (trend_strength signals <? 25)
                  LOW_VOLATILITY_RANGING 2.5 scores in
  let scores := score_if (abs (price_momentum signals) <? 0.2)
                  LOW_VOLATILITY_RANGING 2.0 scores in
  let scores := score_if (gtb (abs (funding_rate signals)) 0.001)
                  LOW_VOLATILITY_RANGING 1.5 scores in
  let scores := score_if (gtb (liquidity_score signals) 0.7)
                  LOW_VOLATILITY_RANGING 1.0 scores in
  (* MOMENTUM EXHAUSTION signals *)
  let scores := score_if ((rsi signals <? fst momentum_extreme_rsi)
                          || gtb (rsi signals) (snd momentum_extreme_rsi))
                  MOMENTUM_EXHAUSTION 3.0 scores in
  let scores := score_if (gtb (abs (price_momentum signals)) 0.4
                          && (volume_trend signals <? -0.2))
                  MOMENTUM_EXHAUSTION 2.5 scores in
  let scores := score_if (gtb (abs (funding_rate signals)) 0.002)
                  MOMENTUM_EXHAUSTION 2.0 scores in
  let scores := score_if (gtb (abs (orderbook_imbalance signals)) 0.6)
                  MOMENTUM_EXHAUSTION 1.5 scores in
  (* Find regime with highest score *)
  let best_regime :=
    match max_by_value scores with
    | Some item => item
    | None => (UNKNOWN, 0.0)
    end in
  let regime := fst best_regime in
  let total_score := py_sum (map snd scores) in
  let confidence := if gtb total_score 0 then snd best_regime / total_score else 0.5 in
  (* Boost confidence if regime persists *)
  let confidence :=
    if regime_eqb regime (current_regime self) && gtb (regime_persistence signals) 0.6
    then py_min 1.0 (confidence * 1.1)
    else confidence in
  (regime, confidence).

(** The part of [update_regime] after [extract_signals]: the signals are
    taken as computed (they come from pandas series of the candles).  A
    [timestamp] of [None] or [0] is falsy and records no history. *)
Definition update_regime (signals : RegimeSignals) (timestamp : option Z)
    (self : MarketRegimeDetector) : MarketRegimeDetector * (MarketRegime * float) :=
  let (new_regime, confidence) := detect_regime self signals in
  let changed := negb (regime_eqb new_regime (current_regime self)) in
  let history :=
    match timestamp with
    | Some ts =>
        if (ts =? 0)%Z then regime_history self
        else
          let h := regime_history self ++ [(ts, new_regime, confidence)] in
          if (1000 <? Z.of_nat (List.length h))%Z then last_n 1000 h else h
    | None => regime_history self
    end in
  ({| current_regime := new_regime;
      regime_confidence := confidence;
      regime_history := history;
      regime_start_time := if changed then timestamp else regime_start_time self |},
   (new_regime, confidence)).

(** [get_recommended_strategies] with an explicit regime. *)
Definition get_recommended_strategies (regime : MarketRegime) : list string :=
  match regime with
  | HIGH_VOLATILITY_TRENDING =>
      [ "Breakout Scalping"; "Momentum Reversal"; "Support/Resistance Bounce";
        "Order Flow Imbalance" ]
  | LOW_VOLATILITY_RANGING =>
      [ "Market Making"; "VWAP Reversion"; "Order Flow Imbalance";
        "Support/Resistance Bounce" ]
  | MOMENTUM_EXHAUSTION =>
      [ "Momentum Reversal"; "VWAP Reversion"; "Support/Resistance Bounce";
        "Order Flow Imbalance" ]
  | MIXED =>
      [ "Order Flow Imbalance"; "VWAP Reversion"; "Breakout Scalping";
        "Market Making"; "Momentum Reversal"; "Support/Resistance Bounce" ]
  | UNKNOWN =>
      [ "Order Flow Imbalance"; "VWAP Reversion"; "Support/Resistance Bounce" ]
  end%string.

(** *** What the specification says of the classifier *)

(** No threshold-gated contribution of [detect_regime] fires. *)
Definition no_condition_triggers (signals : RegimeSignals) : bool :=
  negb (gtb (volatility signals) volatility_high
        || gtb (trend_strength signals) trend_strong
        || gtb (abs (price_momentum signals)) 0.5
        || gtb (volume_trend signals) 0.3
        || (volatility signals <? volatility_low)
        || (trend_strength signals <? 25)
        || (abs (price_momentum signals) <? 0.2)
        || gtb (abs (funding_rate signals)) 0.001
        || gtb (liquidity_score signals) 0.7
        || ((rsi signals <? fst momentum_extreme_rsi)
            || gtb (rsi signals) (snd momentum_extreme_rsi))
        || (gtb (abs (price_momentum signals)) 0.4
            && (volume_trend signals <? -0.2))
        || gtb (abs (funding_rate signals)) 0.002
        || gtb (abs (orderbook_imbalance signals)) 0.6).

(** The regime is one of the four hypotheses and the confidence lies in
    [0, 1]. *)
Definition classified (rc : MarketRegime * float) : bool :=
  negb (regime_eqb (fst rc) UNKNOWN) && (0 <=? snd rc) && (snd rc <=? 1).

(** *** The detector over time *)

(** [MarketRegime.value] *)
Definition regime_value (regime : MarketRegime) : string :=
  match regime with
  | HIGH_VOLATILITY_TRENDING => "high_vol_trending"
  | LOW_VOLATILITY_RANGING => "low_vol_ranging"
  | MOMENTUM_EXHAUSTION => "momentum_exhaustion"
  | MIXED => "mixed"
  | UNKNOWN => "unknown"
  end%string.

(** The [regime_persistence] signal of [extract_signals]: the share of the
    last 20 history entries that carry the current regime; [len(...)] is
    an int and the divisor the float 20.0. *)
Definition regime_persistence_of (self : MarketRegimeDetector) : float :=
  match regime_history self with
  | [] => 0.0
  | _ :: _ =>
      int_to_float
        (Z.of_nat
           (List.length
              (filter (fun r => regime_eqb (snd (fst r)) (current_regime self))
                 (last_n 20 (regime_history self)))))
      / 20.0
  end.

(** The detector after a sequence of updates, each with its signals and
    its timestamp. *)
Definition run_updates (self : MarketRegimeDetector)
    (updates : list (RegimeSignals * option Z)) : MarketRegimeDetector :=
  fold_left (fun d u => fst (update_regime (fst u) (snd u) d)) updates self.

(** [regime_counts[regime.value] = regime_counts.get(regime.value, 0) + 1] *)
Definition count_regime (regime_counts : PyDict.t Z)
    (entry : Z * MarketRegime * float) : PyDict.t Z :=
  let key := regime_value (snd (fst entry)) in
  PyDict.set key
    (match PyDict.get key regime_counts with
     | Some n => n
     | None => 0
     end + 1)%Z
    regime_counts.

(** The dictionary [get_regime_stats] returns for a non-empty history. *)
Record RegimeStats : Type := mkRegimeStats {
  stats_current_regime : string;
  stats_confidence : float;
  regime_distribution : PyDict.t Z;
  total_updates : Z
}.

(** [get_regime_stats]; [None] stands for the empty dictionary it returns
    when there is no history. *)
Definition get_regime_stats (self : MarketRegimeDetector) : option RegimeStats :=
  match regime_history self with
  | [] => None
  | _ :: _ =>
      Some {| stats_current_regime := regime_value (current_regime self);
              stats_confidence := regime_confidence self;
              regime_distribution :=
                fold_left count_regime (last_n 100 (regime_history self)) PyDict.empty;
              total_updates := Z.of_nat (List.length (regime_history self)) |}
  end.

(** A history entry with a named regime and a confidence in [0, 1]. *)
Definition entry_classified (entry : Z * MarketRegime * float) : bool :=
  classified (snd (fst entry), snd entry).

(** [if timestamp:] *)
Definition truthy_timestamp (timestamp : option Z) : bool :=
  match timestamp with
  | Some ts => negb (ts =? 0)%Z
  | None => false
  end.

(** The sum of the counts of a distribution, and the number of entries
    whose regime value is [key]. *)
Definition total_count (counts : PyDict.t Z) : Z :=
  fold_right Z.add 0%Z (PyDict.values counts).

Definition occurrences (key : string) (entries : list (Z * MarketRegime * float)) : Z :=
  Z.of_nat (List.length
              (filter (fun e => String.eqb (regime_value (snd (fst e))) key) entries)).

End market_regime.

(** ** The two numpy functions the selector calls

    [numpy] is an external library; what follows is its documented
    behaviour on float64 data. *)

Module Np.

Import Py.
Local Open Scope float_scope.

(** One pass of the unrolled loop of numpy's pairwise summation: each of
    the eight accumulators takes one element of the next block. *)
Fixpoint add_lanes (r xs : list float) : list float :=
  match r, xs with
  | a :: r', x :: xs' => (a + x) :: add_lanes r' xs'
  | _, _ => r
  end.

Fixpoint add_blocks (blocks : nat) (r xs : list float) : list float * list float :=
  match blocks with
  | O => (r, xs)
  | S b => add_blocks b (add_lanes r (firstn 8 xs)) (skipn 8 xs)
  end.

Definition combine_lanes (r : list float) : float :=
  match r with
  | [r0; r1; r2; r3; r4; r5; r6; r7] =>
      ((r0 + r1) + (r2 + r3)) + ((r4 + r5) + (r6 + r7))
  | _ => fold_left PrimFloat.add r 0
  end.

(** numpy's [pairwise_sum]: fewer than 8 elements are added in order; up to
    128 go through eight accumulators and the remainder is added in order;
    longer inputs are split in two (the first half a multiple of 8). *)
Fixpoint pairwise_sum (fuel : nat) (xs : list float) : float :=
  let n := List.length xs in
  if (n <? 8)%nat then fold_left PrimFloat.add xs 0
  else if (n <=? 128)%nat then
    let (r, rest) := add_blocks (n / 8 - 1) (firstn 8 xs) (skipn 8 xs) in
    fold_left PrimFloat.add rest (combine_lanes r)
  else
    match fuel with
    | O => fold_left PrimFloat.add xs 0
    | S fuel' =>
        let n2 := (n / 2 - (n / 2) mod 8)%nat in
        pairwise_sum fuel' (firstn n2 xs) + pairwise_sum fuel' (skipn n2 xs)
    end.

(** [np.mean] of a non-empty list of floats: the sum, started from the
    additive identity, over the count.  (Recent releases start the sum from
    -0.0 instead; the two differ only in the sign of a zero sum.) *)
Definition mean (xs : list float) : float :=
  (0 + pairwise_sum (List.length xs) xs) / int_to_float (Z.of_nat (List.length xs)).

(** [np.clip(x, 0, 1)]: a NaN passes through; otherwise
    [min(max(x, lo), hi)] with the bound taken on ties. *)
Definition clip (x lo hi : float) : float :=
  if is_nan x then x
  else
    let m := if gtb x lo then x else lo in
    if m <? hi then m else hi.

End Np.

(** ** core/strategy_selector.py *)

Module strategy_selector.

Import Py.
Local Open Scope float_scope.

(** An entry of [recent_trades]: the dict [{'pnl': pnl, 'win': win}]. *)
Record RecentTrade : Type := mkRecentTrade {
  pnl : float;
  win : bool
}.

(** The per-strategy statistics dict of [strategy_stats]. *)
Record Stats : Type := mkStats {
  wins : Z;
  losses : Z;
  total_pnl : float;
  recent_trades : list RecentTrade;
  win_rate : float;
  avg_pnl : float;
  enabled : bool
}.

Definition fresh_stats : Stats :=
  {| wins := 0; losses := 0; total_pnl := 0.0; recent_trades := [];
     win_rate := 0.0; avg_pnl := 0.0; enabled := true |}.

(** A strategy instance, as far as the selector looks at it. *)
Record Strategy : Type := mkStrategy { name : string }.

(** The mutable attributes of a [StrategySelector]. *)
Record StrategySelector : Type := mkSelector {
  strategies : PyDict.t Strategy;
  regime_detector : market_regime.MarketRegimeDetector;
  strategy_stats : PyDict.t Stats
}.

(** The selection parameters [__init__] sets; nothing assigns them later. *)
Definition min_confidence : float := 0.6.
Definition performance_weight : float := 0.3.
Definition regime_weight : float := 0.7.

(** [StrategySelector.__init__]: both dicts are built by comprehension, so
    a repeated name keeps its first place. *)
Definition init (strategy_list : list Strategy) : StrategySelector :=
  let strategies_ :=
    fold_left (fun d s => PyDict.set (name s) s d) strategy_list PyDict.empty in
  {| strategies := strategies_;
     regime_detector := market_regime.init;
     strategy_stats := map (fun kv => (fst kv, fresh_stats)) strategies_ |}.

(** The first half of [update_strategy_performance]: counters, total and
    the rolling window of the last 20 outcomes. *)
Definition record_trade (stats : Stats) (pnl_ : float) (win_ : bool) : Stats :=
  let recent := recent_trades stats ++ [ {| pnl := pnl_; win := win_ |} ] in
  {| wins := if win_ then (wins stats + 1)%Z else wins stats;
     losses := if win_ then losses stats else (losses stats + 1)%Z;
     total_pnl := total_pnl stats + pnl_;
     recent_trades := if (20 <? Z.of_nat (List.length recent))%Z
                      then last_n 20 recent else recent;
     win_rate := win_rate stats;
     avg_pnl := avg_pnl stats;
     enabled := enabled stats |}.

Definition set_win_rate (stats : Stats) (x : float) : Stats :=
  {| wins := wins stats; losses := losses stats; total_pnl := total_pnl stats;
     recent_trades := recent_trades stats; win_rate := x;
     avg_pnl := avg_pnl stats; enabled := enabled stats |}.

Definition set_avg_pnl (stats : Stats) (x : float) : Stats :=
  {| wins := wins stats; losses := losses stats; total_pnl := total_pnl stats;
     recent_trades := recent_trades stats; win_rate := win_rate stats;
     avg_pnl := x; enabled := enabled stats |}.

Definition set_enabled (stats : Stats) (b : bool) : Stats :=
  {| wins := wins stats; losses := losses stats; total_pnl := total_pnl stats;
     recent_trades := recent_trades stats; win_rate := win_rate stats;
     avg_pnl := avg_pnl stats; enabled := b |}.

(** "Recalculate metrics": [wins / total_trades] divides two ints,
    [total_pnl / total_trades] converts the int first.  The dict is mutated
    in place, so a raise keeps what was assigned before it. *)
Definition recalculate_metrics (stats : Stats) : Stats * result unit :=
  let total_trades := (wins stats + losses stats)%Z in
  if (0 <? total_trades)%Z then
    match int_truediv (wins stats) total_trades with
    | Raise e => (stats, Raise e)
    | Ok wr =>
        let stats := set_win_rate stats wr in
        match (d <- float_of_int total_trades ;; float_div (total_pnl stats) d) with
        | Raise e => (stats, Raise e)
        | Ok ap => (set_avg_pnl stats ap, Ok tt)
        end
    end
  else (stats, Ok tt).

(** "Auto-disable underperforming strategies (after min 10 trades)" *)
Definition auto_disable (stats : Stats) : Stats :=
  let total_trades := (wins stats + losses stats)%Z in
  if (10 <=? total_trades)%Z then
    if win_rate stats <? 0.35 then set_enabled stats false
    else if gtb (win_rate stats) 0.45 && negb (enabled stats)
         then set_enabled stats true
         else stats
  else stats.

(** [update_strategy_performance] on the statistics of one strategy. *)
Definition update_stats (stats : Stats) (pnl_ : float) (win_ : bool) : Stats * result unit :=
  match recalculate_metrics (record_trade stats pnl_ win_) with
  | (stats, Raise e) => (stats, Raise e)
  | (stats, Ok _) => (auto_disable stats, Ok tt)
  end.

(** [update_strategy_performance]: an unknown name is logged and ignored. *)
Definition update_strategy_performance (strategy_name : string) (pnl_ : float)
    (win_ : bool) (self : StrategySelector) : StrategySelector * result unit :=
  match PyDict.get strategy_name (strategy_stats self) with
  | None => (self, Ok tt)
  | Some stats =>
      let (stats, r) := update_stats stats pnl_ win_ in
      ({| strategies := strategies self;
          regime_detector := regime_detector self;
          strategy_stats := PyDict.set strategy_name stats (strategy_stats self) |},
       r)
  end.

(** The regime-match part of the score, before the confidence factor. *)
Definition regime_match (strategy_name : string) (regime : market_regime.MarketRegime) : float :=
  match index_of strategy_name (market_regime.get_recommended_strategies regime) with
  | Some i => 1.0 - (int_to_float (Z.of_nat i) * 0.2)
  | None => 0.2
  end.

(** The performance part of the score. *)
Definition performance_score (stats : Stats) : result float :=
  let total_trades := (wins stats + losses stats)%Z in
  if (total_trades =? 0)%Z then Ok 0.5
  else
    let recent := last_n 10 (recent_trades stats) in
    let recent_wins := Z.of_nat (List.length (filter win recent)) in
    recent_wr <- match recent with
                 | [] => Ok 0.5
                 | _ :: _ => int_truediv recent_wins (Z.of_nat (List.length recent))
                 end ;;
    let recent_pnl := match recent with
                      | [] => 0.0
                      | _ :: _ => Np.mean (map pnl recent)
                      end in
    Ok ((recent_wr * 0.6) + py_min (recent_pnl / 100) 0.4).

(** [calculate_strategy_score]; [strategy_stats[strategy_name]] raises
    [KeyError] for a name that was never registered. *)
Definition calculate_strategy_score (self : StrategySelector) (strategy_name : string)
    (regime : market_regime.MarketRegime) (regime_confidence : float) : result float :=
  let regime_score := regime_match strategy_name regime in
  let regime_score := regime_score * regime_confidence in
  match PyDict.get strategy_name (strategy_stats self) with
  | None => Raise KeyError
  | Some stats =>
      if negb (enabled stats) then Ok 0.0
      else
        performance_score_ <- performance_score stats ;;
        let final_score :=
          (regime_score * regime_weight) + (performance_score_ * performance_weight) in
        Ok (Np.clip final_score 0 1)
  end.

(** The loop of [select_strategy] that fills [strategy_scores]. *)
Fixpoint score_all (self : StrategySelector) (names : list string)
    (regime : market_regime.MarketRegime) (regime_confidence : float)
    : result (list (string * float)) :=
  match names with
  | [] => Ok []
  | strategy_name :: rest =>
      score <- calculate_strategy_score self strategy_name regime regime_confidence ;;
      scores <- score_all self rest regime regime_confidence ;;
      Ok ((strategy_name, score) :: scores)
  end.

(** [select_strategy], after [extract_signals] (see
    [market_regime.update_regime]). *)
Definition select_strategy (signals : market_regime.RegimeSignals)
    (timestamp : option Z) (self : StrategySelector)
    : StrategySelector * result (option (string * float)) :=
  let (detector, rc) := market_regime.update_regime signals timestamp (regime_detector self) in
  let (regime, regime_confidence) := rc in
  let self := {| strategies := strategies self;
                 regime_detector := detector;
                 strategy_stats := strategy_stats self |} in
  (self,
   strategy_scores <- score_all self (PyDict.keys (strategies self)) regime regime_confidence ;;
   Ok (max_by_value strategy_scores)).

(** The selector after a sequence of recorded outcomes
    [(strategy name, pnl, win)]; a call that raises leaves what it had
    assigned. *)
Definition record_outcomes (self : StrategySelector)
    (outcomes : list (string * float * bool)) : StrategySelector :=
  fold_left
    (fun self o => fst (update_strategy_performance (fst (fst o)) (snd (fst o)) (snd o) self))
    outcomes self.

(** *** What the specification says of the score *)

(** The win rate and the average PnL over the last 10 recorded outcomes. *)
Definition recent_win_rate (stats : Stats) : float :=
  let recent := last_n 10 (recent_trades stats) in
  truediv_value (Z.of_nat (List.length (filter win recent)))
                (Z.of_nat (List.length recent)).

Definition recent_avg_pnl (stats : Stats) : float :=
  Np.mean (map pnl (last_n 10 (recent_trades stats))).

(** [regimeScore]: [1.0 - 0.2 * rank] for a recommended strategy, a flat
    0.2 otherwise, times the regime confidence. *)
Definition spec_regime_score (strategy_name : string)
    (regime : market_regime.MarketRegime) (regime_confidence : float) : float :=
  match index_of strategy_name (market_regime.get_recommended_strategies regime) with
  | Some rank => (1.0 - 0.2 * int_to_float (Z.of_nat rank)) * regime_confidence
  | None => 0.2 * regime_confidence
  end.

(** [performanceScore]: 0.5 without history, otherwise
    [0.6 * recentWinRate + min(recentAvgPnl / 100, 0.4)]. *)
Definition spec_performance_score (stats : Stats) : float :=
  if (wins stats + losses stats =? 0)%Z then 0.5
  else 0.6 * recent_win_rate stats + py_min (recent_avg_pnl stats / 100) 0.4.

(** The weighted sum the specification gives, and the same clipped. *)
Definition weighted_score (stats : Stats) (strategy_name : string)
    (regime : market_regime.MarketRegime) (regime_confidence : float) : float :=
  0.7 * spec_regime_score strategy_name regime regime_confidence
  + 0.3 * spec_performance_score stats.

Definition spec_score (stats : Stats) (strategy_name : string)
    (regime : market_regime.MarketRegime) (regime_confidence : float) : float :=
  if enabled stats
  then Np.clip (weighted_score stats strategy_name regime regime_confidence) 0 1
  else 0.

(** Statistics with a history have a non-empty window. *)
Definition coherent (stats : Stats) : Prop :=
  (wins stats + losses stats)%Z = 0%Z \/ recent_trades stats <> [].

Definition all_coherent (self : StrategySelector) : Prop :=
  forall n stats, PyDict.get n (strategy_stats self) = Some stats -> coherent stats.

(** *** [analyze_with_best_strategy] *)

(** A signal is a dict.  Of its values only the metadata the selector adds
    are looked at: two strings and the score. *)
Inductive SignalValue : Type :=
| Str (s : string)
| Num (x : float).

Definition Signal : Type := PyDict.t SignalValue.

(** The three ways [strategy.analyze] is called; the candles and the symbol
    go to each. *)
Inductive AnalyzeCall : Set :=
| WithFundingHistory
| WithOrderbook
| Plain.

(** Which call a strategy gets.  [funding_history] is tested by
    truthiness: [None] and the empty list are false. *)
Definition analyze_call (strategy_name : string) (funding_history : bool) : AnalyzeCall :=
  if String.eqb strategy_name "Funding Arbitrage" && funding_history
  then WithFundingHistory
  else if String.eqb strategy_name "Order Flow Imbalance" then WithOrderbook
  else Plain.

(** [sorted(items, key=lambda x: x[1], reverse=True)]: by falling score,
    items of equal score in their first order.  (For scores with a NaN
    among them the comparisons are not an order, and the place CPython's
    merge sort gives an item may differ from the one below.) *)
Fixpoint insert_by_score (x : string * float) (sorted : list (string * float))
    : list (string * float) :=
  match sorted with
  | [] => [x]
  | y :: rest =>
      if gtb (snd y) (snd x) then y :: insert_by_score x rest
      else x :: y :: rest
  end.

Fixpoint sorted_by_score (items : list (string * float)) : list (string * float) :=
  match items with
  | [] => []
  | x :: rest => insert_by_score x (sorted_by_score rest)
  end.

(** The body of the [try] for one strategy: the signal returned, or [None]
    where the loop goes on (no signal, an empty one, or an exception, which
    the handler logs; the log line of a signal reads its ['action'] and
    ['entry_price'], inside the [try]). *)
Definition try_strategy (analyze : string -> AnalyzeCall -> result (option Signal))
    (funding_history : bool) (regime : market_regime.MarketRegime)
    (strategy_name : string) (confidence : float) : option Signal :=
  match analyze strategy_name (analyze_call strategy_name funding_history) with
  | Raise _ => None
  | Ok None => None
  | Ok (Some []) => None
  | Ok (Some ((_ :: _) as signal)) =>
      let signal := PyDict.set "selected_strategy" (Str strategy_name) signal in
      let signal := PyDict.set "selection_confidence" (Num confidence) signal in
      let signal := PyDict.set "market_regime" (Str (market_regime.regime_value regime)) signal in
      if PyDict.mem "action" signal && PyDict.mem "entry_price" signal
      then Some signal
      else None
  end.

(** The loop over the sorted scores. *)
Fixpoint try_in_order (analyze : string -> AnalyzeCall -> result (option Signal))
    (funding_history : bool) (regime : market_regime.MarketRegime)
    (self : StrategySelector) (sorted_strategies : list (string * float))
    : option Signal :=
  match sorted_strategies with
  | [] => None
  | (strategy_name, confidence) :: rest =>
      if confidence <? 0.2
      then try_in_order analyze funding_history regime self rest
      else
        match PyDict.get strategy_name (strategies self) with
        | None => try_in_order analyze funding_history regime self rest
        | Some _ =>
            match try_strategy analyze funding_history regime strategy_name confidence with
            | Some signal => Some signal
            | None => try_in_order analyze funding_history regime self rest
            end
        end
  end.

(** [analyze_with_best_strategy], after [extract_signals]; [analyze] is
    what the strategies answer to this call's candles, symbol, order book,
    funding history and timestamp. *)
Definition analyze_with_best_strategy (signals : market_regime.RegimeSignals)
    (timestamp : option Z) (funding_history : bool)
    (analyze : string -> AnalyzeCall -> result (option Signal))
    (self : StrategySelector) : StrategySelector * result (option Signal) :=
  let (detector, rc) := market_regime.update_regime signals timestamp (regime_detector self) in
  let (regime, regime_confidence) := rc in
  let self := {| strategies := strategies self;
                 regime_detector := detector;
                 strategy_stats := strategy_stats self |} in
  (self,
   strategy_scores <- score_all self (PyDict.keys (strategies self)) regime regime_confidence ;;
   Ok (try_in_order analyze funding_history regime self
         (sorted_by_score strategy_scores))).

(** The outcomes recorded under one name, as the window keeps them. *)
Definition outcomes_of (strategy_name : string)
    (outcomes : list (string * float * bool)) : list RecentTrade :=
  map (fun o => {| pnl := snd (fst o); win := snd o |})
      (filter (fun o => String.eqb (fst (fst o)) strategy_name) outcomes).

End strategy_selector.

(** ** bot/trading_bot.py: [check_positions] *)

Module trading_bot.

Import Py.
Local Open Scope float_scope.

(** A row of [get_position_info()], with the fields [check_positions]
    reads, already parsed by [float(...)]. *)
Record ExchangePosition : Type := mkExchangePosition {
  symbol : string;
  positionAmt : float;
  markPrice : float
}.

(** A row of [/fapi/v3/userTrades]; both fields are read with [dict.get]
    and a default, so either may be missing. *)
Record Fill : Type := mkFill {
  price : option float;
  realizedPnl : option float
}.

(** The attributes of a [TradingBot] that [check_positions] touches. *)
Record TradingBot : Type := mkTradingBot {
  risk_manager : risk_manager.RiskManager;
  dry_run : bool
}.

(** What one run of [check_positions] did besides changing the ledger:
    the orders it asked the exchange to cancel, as [(symbol, order id)],
    and the symbols it found closed on the exchange. *)
Record Report : Type := mkReport {
  cancelled : list (string * string);
  closed_positions : list string
}.

(** [active_on_aster]: the symbols with a nonzero exchange position. *)
Definition active_on_aster (aster_positions : list ExchangePosition) : list string :=
  map symbol (filter (fun pos => neb (positionAmt pos) 0) aster_positions).

Definition in_set (s : string) (l : list string) : bool :=
  existsb (String.eqb s) l.

(** The locally tracked symbols that are not on the exchange. *)
Definition find_closed (active : list string)
    (rm : risk_manager.RiskManager) : list string :=
  filter (fun s => negb (in_set s active)) (PyDict.keys (risk_manager.positions rm)).

(** [if position.sl_order_id:] holds for a non-empty id. *)
Definition order_id_set (o : option string) : list string :=
  match o with
  | Some id => if String.eqb id EmptyString then [] else [id]
  | None => []
  end.

(** The cancel requests of the first loop (none in dry-run mode; a failed
    cancel is caught and logged). *)
Definition cancel_requests (self : TradingBot) (closed : list string) : list (string * string) :=
  if dry_run self then []
  else
    flat_map
      (fun s =>
         match PyDict.get s (risk_manager.positions (risk_manager self)) with
         | Some position =>
             map (pair s)
               (order_id_set (risk_manager.Position.sl_order_id position)
                ++ order_id_set (risk_manager.Position.tp_order_id position))
         | None => []
         end)
      closed.

(** [del self.risk_manager.positions[symbol]] *)
Definition drop_position (s : string) (rm : risk_manager.RiskManager)
    : risk_manager.RiskManager :=
  risk_manager.set_positions rm (PyDict.del s (risk_manager.positions rm)).

(** The body of the clean-up loop for one symbol whose position is
    [position]: close it with the exchange's realised PnL when fills are
    found; otherwise, or when anything raises, drop it. *)
Definition settle (now : risk_manager.datetime)
    (user_trades : string -> result (list Fill)) (s : string)
    (position : risk_manager.Position.t) (rm : risk_manager.RiskManager)
    : risk_manager.RiskManager :=
  match user_trades s with
  | Ok ((first :: _) as account_trades) =>
      let exit_price :=
        match price first with
        | Some p => p
        | None => risk_manager.Position.entry_price position
        end in
      let total_realized_pnl :=
        py_sum (map (fun trade => match realizedPnl trade with
                                  | Some x => x
                                  | None => 0
                                  end) account_trades) in
      match risk_manager.close_position now s exit_price
              (risk_manager.Position.strategy position)
              (Some total_realized_pnl) rm with
      | (rm, Ok _) => rm
      | (rm, Raise _) =>
          if PyDict.mem s (risk_manager.positions rm) then drop_position s rm else rm
      end
  | Ok [] => drop_position s rm
  | Raise _ =>
      if PyDict.mem s (risk_manager.positions rm) then drop_position s rm else rm
  end.

(** The clean-up loop.  [self.risk_manager.positions[symbol]] stands
    outside the inner [try]: a missing key ends the whole method. *)
Fixpoint clean_up (now : risk_manager.datetime)
    (user_trades : string -> result (list Fill)) (closed : list string)
    (rm : risk_manager.RiskManager) : risk_manager.RiskManager * result unit :=
  match closed with
  | [] => (rm, Ok tt)
  | s :: rest =>
      match PyDict.get s (risk_manager.positions rm) with
      | None => (rm, Raise KeyError)
      | Some position =>
          clean_up now user_trades rest (settle now user_trades s position rm)
      end
  end.

(** The last loop: mark every position still on the exchange. *)
Definition update_marks (aster_positions : list ExchangePosition)
    (rm : risk_manager.RiskManager) : risk_manager.RiskManager :=
  fold_left
    (fun rm pos =>
       if neb (positionAmt pos) 0
       then risk_manager.update_position (symbol pos) (markPrice pos) rm
       else rm)
    aster_positions rm.

(** [check_positions].  [aster_positions] is what [get_position_info()]
    returned or raised, [user_trades] what the fills request returns or
    raises for a symbol.  The outer handler only logs, so a raise leaves
    the ledger as it was at that point. *)
Definition check_positions (now : risk_manager.datetime)
    (aster_positions : result (list ExchangePosition))
    (user_trades : string -> result (list Fill))
    (self : TradingBot) : TradingBot * Report :=
  match aster_positions with
  | Raise _ => (self, {| cancelled := []; closed_positions := [] |})
  | Ok rows =>
      let active := active_on_aster rows in
      let closed := find_closed active (risk_manager self) in
      let report := {| cancelled := cancel_requests self closed;
                       closed_positions := closed |} in
      match clean_up now user_trades closed (risk_manager self) with
      | (rm, Raise _) => ({| risk_manager := rm; dry_run := dry_run self |}, report)
      | (rm, Ok _) =>
          ({| risk_manager := update_marks rows rm; dry_run := dry_run self |}, report)
      end
  end.

(** *** Start-up: [sync_positions_from_exchange], [cleanup_orphan_orders] *)

(** A row of [get_position_info()] with every field the start-up reads,
    already parsed by [float(...)] and [int(...)]. *)
Record PositionInfo : Type := mkPositionInfo {
  info_symbol : string;
  info_positionAmt : float;
  info_entryPrice : float;
  info_markPrice : float;
  info_leverage : Z;
  info_unRealizedProfit : float;
  info_liquidationPrice : float
}.

(** The part of a row that [check_positions] reads. *)
Definition to_exchange_position (pos : PositionInfo) : ExchangePosition :=
  {| symbol := info_symbol pos;
     positionAmt := info_positionAmt pos;
     markPrice := info_markPrice pos |}.

(** An open order: [order.get('symbol')] may be missing, the type defaults
    to [''], the id is kept as the text [str(...)] gives. *)
Record Order : Type := mkOrder {
  order_symbol : option string;
  order_type : string;
  order_id : string
}.

(** The id of the last order of a type, if there is one. *)
Definition last_order_id (type : string) (open_orders : list Order) : option string :=
  fold_left
    (fun found order =>
       if String.eqb (order_type order) type then Some (order_id order) else found)
    open_orders None.

(** The [Position] the sync builds for a row.  [get_open_orders(symbol)]
    stands in a [try] of its own: when it raises no order id is kept. *)
Definition recovered_position (now : risk_manager.datetime)
    (open_orders : string -> result (list Order)) (pos : PositionInfo)
    : risk_manager.Position.t :=
  let position_amt := info_positionAmt pos in
  let entry_price := info_entryPrice pos in
  let side := if gtb position_amt 0 then "LONG"%string else "SHORT"%string in
  let orders :=
    match open_orders (info_symbol pos) with
    | Ok orders => orders
    | Raise _ => []
    end in
  {| risk_manager.Position.symbol := info_symbol pos;
     risk_manager.Position.side := side;
     risk_manager.Position.entry_price := entry_price;
     risk_manager.Position.quantity := abs position_amt;
     risk_manager.Position.leverage := info_leverage pos;
     risk_manager.Position.stop_loss :=
       Some (if String.eqb side "LONG" then entry_price * 0.985
             else entry_price * 1.015);
     risk_manager.Position.take_profit :=
       Some (if String.eqb side "LONG" then entry_price * 1.015
             else entry_price * 0.985);
     risk_manager.Position.unrealized_pnl := info_unRealizedProfit pos;
     risk_manager.Position.liquidation_price := Some (info_liquidationPrice pos);
     risk_manager.Position.entry_time := now;
     risk_manager.Position.strategy := "recovered";
     risk_manager.Position.sl_order_id := last_order_id "STOP_MARKET" orders;
     risk_manager.Position.tp_order_id := last_order_id "TAKE_PROFIT_MARKET" orders |}.

(** The loop of the sync: the ledger and [synced_count].  [clock k] is the
    clock reading taken for the position created after [k] others. *)
Definition sync_row (clock : nat -> risk_manager.datetime)
    (open_orders : string -> result (list Order))
    (state : risk_manager.RiskManager * nat) (pos : PositionInfo)
    : risk_manager.RiskManager * nat :=
  let (rm, synced_count) := state in
  if info_positionAmt pos =? 0 then (rm, synced_count)
  else
    (risk_manager.set_positions rm
       (PyDict.set (info_symbol pos)
          (recovered_position (clock synced_count) open_orders pos)
          (risk_manager.positions rm)),
     S synced_count).

(** [sync_positions_from_exchange]: a failed [get_position_info()] is
    logged and the ledger stays as it was. *)
Definition sync_positions_from_exchange (clock : nat -> risk_manager.datetime)
    (positions : result (list PositionInfo))
    (open_orders : string -> result (list Order))
    (self : TradingBot) : TradingBot :=
  match positions with
  | Raise _ => self
  | Ok rows =>
      {| risk_manager :=
           fst (fold_left (sync_row clock open_orders) rows (risk_manager self, O));
         dry_run := dry_run self |}
  end.

(** A stop or take-profit order. *)
Definition is_protective (order : Order) : bool :=
  String.eqb (order_type order) "STOP_MARKET"
  || String.eqb (order_type order) "TAKE_PROFIT_MARKET".

(** [symbol not in active_positions]; a missing symbol is [None], which is
    in no set of symbols. *)
Definition not_active (active : list string) (order : Order) : bool :=
  match order_symbol order with
  | Some s => negb (in_set s active)
  | None => true
  end.

Definition orphaned_orders (active : list string) (all_orders : list Order) : list Order :=
  filter (fun order => is_protective order && not_active active order) all_orders.

(** [cleanup_orphan_orders]: the cancel requests it sends, as
    [(symbol, order id)].  Either request failing ends the method with
    nothing cancelled; a failed cancel is logged and the loop goes on. *)
Definition cleanup_orphan_orders (positions : result (list PositionInfo))
    (all_orders : result (list Order)) (self : TradingBot)
    : list (option string * string) :=
  match positions with
  | Raise _ => []
  | Ok rows =>
      match all_orders with
      | Raise _ => []
      | Ok orders =>
          if dry_run self then []
          else
            map (fun order => (order_symbol order, order_id order))
              (orphaned_orders (active_on_aster (map to_exchange_position rows)) orders)
      end
  end.

(** *** What a reconciliation books *)

(** The realised PnL the exchange reports for a list of fills. *)
Definition reported_pnl (fills : list Fill) : float :=
  py_sum (map (fun trade => match realizedPnl trade with
                            | Some x => x
                            | None => 0
                            end) fills).

(** A trade booked for a symbol reported closed, with the PnL the
    exchange reports for it. *)
Definition booked_from_exchange (user_trades : string -> result (list Fill))
    (closed : list string) (trade : risk_manager.Trade.t) : Prop :=
  In (risk_manager.Trade.symbol trade) closed /\
  exists fills,
    user_trades (risk_manager.Trade.symbol trade) = Ok fills /\
    risk_manager.Trade.pnl trade = reported_pnl fills.

(** *** [execute_signal] *)

(** What [execute_signal] reads from a signal that has the keys
    ['action'], ['entry_price'], ['stop_loss'] and ['leverage'];
    ['take_profit'] is read with [get] and may be missing.  The entry
    price goes into the sizing only. *)
Record TradeSignal : Type := mkTradeSignal {
  action : string;
  signal_entry_price : float;
  signal_stop_loss : float;
  signal_leverage : Z;
  signal_take_profit : option float
}.

(** The requests [execute_signal] makes of the exchange, in order. *)
Inductive Request : Set :=
| ChangeLeverage
| MarketOrder
| StopOrder
| TakeProfitOrder.

(** What the exchange answers during one call, and what is computed from
    it.  [sizing] is [None] when no candles arrive (the data frame is
    empty); otherwise it is what the indicator functions and
    [calculate_position_size] give or raise for the candles and the signal
    (the volatility is a numpy float there, and numpy's division by zero
    does not raise).  An order answer holds the ['orderId'] as text when
    the response has one. *)
Record Exchange : Type := mkExchange {
  ticker_price : result float;
  sizing : option (result float);
  change_leverage : result unit;
  market_order : result unit;
  stop_order : result (option string);
  take_profit_order : result (option string)
}.

Definition set_sl_order_id (id : string) (p : risk_manager.Position.t)
    : risk_manager.Position.t :=
  {| risk_manager.Position.symbol := risk_manager.Position.symbol p;
     risk_manager.Position.side := risk_manager.Position.side p;
     risk_manager.Position.entry_price := risk_manager.Position.entry_price p;
     risk_manager.Position.quantity := risk_manager.Position.quantity p;
     risk_manager.Position.leverage := risk_manager.Position.leverage p;
     risk_manager.Position.stop_loss := risk_manager.Position.stop_loss p;
     risk_manager.Position.take_profit := risk_manager.Position.take_profit p;
     risk_manager.Position.unrealized_pnl := risk_manager.Position.unrealized_pnl p;
     risk_manager.Position.liquidation_price := risk_manager.Position.liquidation_price p;
     risk_manager.Position.entry_time := risk_manager.Position.entry_time p;
     risk_manager.Position.strategy := risk_manager.Position.strategy p;
     risk_manager.Position.sl_order_id := Some id;
     risk_manager.Position.tp_order_id := risk_manager.Position.tp_order_id p |}.

Definition set_tp_order_id (id : string) (p : risk_manager.Position.t)
    : risk_manager.Position.t :=
  {| risk_manager.Position.symbol := risk_manager.Position.symbol p;
     risk_manager.Position.side := risk_manager.Position.side p;
     risk_manager.Position.entry_price := risk_manager.Position.entry_price p;
     risk_manager.Position.quantity := risk_manager.Position.quantity p;
     risk_manager.Position.leverage := risk_manager.Position.leverage p;
     risk_manager.Position.stop_loss := risk_manager.Position.stop_loss p;
     risk_manager.Position.take_profit := risk_manager.Position.take_profit p;
     risk_manager.Position.unrealized_pnl := risk_manager.Position.unrealized_pnl p;
     risk_manager.Position.liquidation_price := risk_manager.Position.liquidation_price p;
     risk_manager.Position.entry_time := risk_manager.Position.entry_time p;
     risk_manager.Position.strategy := risk_manager.Position.strategy p;
     risk_manager.Position.sl_order_id := risk_manager.Position.sl_order_id p;
     risk_manager.Position.tp_order_id := Some id |}.

(** The position object is the one the ledger holds: setting an order id
    on it changes the ledger's entry. *)
Definition amend_position (s : string)
    (f : risk_manager.Position.t -> risk_manager.Position.t)
    (rm : risk_manager.RiskManager) : risk_manager.RiskManager :=
  match PyDict.get s (risk_manager.positions rm) with
  | Some p => risk_manager.set_positions rm (PyDict.set s (f p) (risk_manager.positions rm))
  | None => rm
  end.

(** The two protective orders, placed after the ledger took the position.
    Each stands in a [try] of its own. *)
Definition place_protective_orders (exchange : Exchange) (s : string)
    (signal : TradeSignal) (self : TradingBot)
    : risk_manager.RiskManager * list Request :=
  let rm := risk_manager self in
  let (rm, sent) :=
    if dry_run self then (rm, [])
    else
      (match stop_order exchange with
       | Ok (Some id) => amend_position s (set_sl_order_id id) rm
       | _ => rm
       end,
       [StopOrder]) in
  let wants_take_profit :=
    match signal_take_profit signal with
    | Some tp => float_truthy tp
    | None => false
    end in
  if wants_take_profit && negb (dry_run self) then
    (match take_profit_order exchange with
     | Ok (Some id) => amend_position s (set_tp_order_id id) rm
     | _ => rm
     end,
     (sent ++ [TakeProfitOrder])%list)
  else (rm, sent).

(** [execute_signal]: the bot after the call, the requests made of the
    exchange, and the answer.  [now] is the clock at the first admission
    test, [now'] at [open_position].  The handler around the whole body
    logs whatever is raised and answers [False]. *)
Definition execute_signal (now now' : risk_manager.datetime) (exchange : Exchange)
    (s : string) (signal : TradeSignal) (strategy_name : string)
    (self : TradingBot) : TradingBot * list Request * bool :=
  let bot := fun rm => {| risk_manager := rm; dry_run := dry_run self |} in
  let (rm, allowed) := risk_manager.can_open_position now s (risk_manager self) in
  if negb allowed then (bot rm, [], false)
  else
    match ticker_price exchange with
    | Raise _ => (bot rm, [], false)
    | Ok current_price =>
        match sizing exchange with
        | None => (bot rm, [], false)
        | Some (Raise _) => (bot rm, [], false)
        | Some (Ok quantity) =>
            let sent := if dry_run self then [] else [ChangeLeverage; MarketOrder] in
            match (if dry_run self then Ok tt else market_order exchange) with
            | Raise _ => (bot rm, sent, false)
            | Ok _ =>
                match risk_manager.open_position now' s (action signal)
                        current_price quantity (signal_leverage signal)
                        (signal_stop_loss signal) (signal_take_profit signal)
                        strategy_name rm with
                | (rm, Raise _) => (bot rm, sent, false)
                | (rm, Ok None) => (bot rm, sent, false)
                | (rm, Ok (Some _)) =>
                    let (rm, protective) :=
                      place_protective_orders exchange s signal (bot rm) in
                    (bot rm, (sent ++ protective)%list, true)
                end
            end
        end
    end.

(** *** What placing orders leaves alone *)

(** Two positions that differ at most in their order ids. *)
Definition same_terms (p q : risk_manager.Position.t) : Prop :=
  risk_manager.Position.symbol p = risk_manager.Position.symbol q /\
  risk_manager.Position.side p = risk_manager.Position.side q /\
  risk_manager.Position.entry_price p = risk_manager.Position.entry_price q /\
  risk_manager.Position.quantity p = risk_manager.Position.quantity q /\
  risk_manager.Position.leverage p = risk_manager.Position.leverage q /\
  risk_manager.Position.stop_loss p = risk_manager.Position.stop_loss q /\
  risk_manager.Position.take_profit p = risk_manager.Position.take_profit q /\
  risk_manager.Position.unrealized_pnl p = risk_manager.Position.unrealized_pnl q /\
  risk_manager.Position.liquidation_price p = risk_manager.Position.liquidation_price q /\
  risk_manager.Position.entry_time p = risk_manager.Position.entry_time q /\
  risk_manager.Position.strategy p = risk_manager.Position.strategy q.

(** A ledger that differs from another at most in the order ids of the
    position held for [s]. *)
Definition order_ids_amended (s : string) (before after : risk_manager.RiskManager) : Prop :=
  risk_manager.trades after = risk_manager.trades before /\
  risk_manager.current_capital after = risk_manager.current_capital before /\
  (forall k, k <> s ->
     PyDict.get k (risk_manager.positions after)
     = PyDict.get k (risk_manager.positions before)) /\
  forall p, PyDict.get s (risk_manager.positions before) = Some p ->
    exists p', PyDict.get s (risk_manager.positions after) = Some p' /\
               same_terms p' p.

End trading_bot.

(** * Proofs *)

(** ** Facts about float comparisons

    The comparisons are specified on [spec_float] by the standard library
    ([ltb_spec], [leb_spec], [eqb_spec]); the order facts follow from
    [SFcompare]. *)

Module FloatOrder.

Local Open Scope float_scope.

Lemma SFcompare_antisym (x y : spec_float) (c : comparison) :
  SFcompare x y = Some c -> SFcompare y x = Some (CompOpp c).
Proof.
  destruct x as [sx| sx| |sx mx ex], y as [sy| sy| |sy my ey];
    simpl; try discriminate; intros [= <-]; f_equal;
    repeat match goal with b : bool |- _ => destruct b end; try reflexivity.
  all: rewrite (Z.compare_antisym ex ey);
    destruct (ex ?= ey)%Z; simpl; try reflexivity;
    change (PosDef.Pos.compare_cont Eq my mx) with (Pos.compare my mx);
    change (PosDef.Pos.compare_cont Eq mx my) with (Pos.compare mx my);
    rewrite (Pos.compare_antisym mx my);
    destruct (mx ?= my)%positive; reflexivity.
Qed.

Lemma ltb_leb_swap (x y : float) : (x <? y) = true -> (y <=? x) = false.
Proof.
  rewrite ltb_spec, leb_spec. unfold SFltb, SFleb.
  destruct (SFcompare (Prim2SF x) (Prim2SF y)) as [c|] eqn:E; try discriminate.
  rewrite (SFcompare_antisym _ _ _ E).
  destruct c; simpl; congruence.
Qed.

Lemma ltb_leb (x y : float) : (x <? y) = true -> (x <=? y) = true.
Proof.
  rewrite ltb_spec, leb_spec. unfold SFltb, SFleb.
  destruct (SFcompare (Prim2SF x) (Prim2SF y)) as [[]|]; congruence.
Qed.

Lemma SFmul_comm p e (x y : spec_float) : SFmul p e x y = SFmul p e y x.
Proof.
  destruct x as [sx|sx| |sx mx ex], y as [sy|sy| |sy my ey]; simpl;
    rewrite ?(xorb_comm sx sy); try reflexivity.
  now rewrite (Pos.mul_comm mx my), (Z.add_comm ex ey).
Qed.

Lemma mul_comm (x y : float) : x * y = y * x.
Proof. apply Prim2SF_inj. rewrite !mul_spec. apply SFmul_comm. Qed.

Lemma SFcompare_lt_trans (x y z : spec_float) :
  SFcompare x y = Some Lt -> SFcompare y z = Some Lt -> SFcompare x z = Some Lt.
Proof.
  destruct x as [sx|sx| |sx mx ex], y as [sy|sy| |sy my ey], z as [sz|sz| |sz mz ez];
    simpl; try discriminate;
    repeat match goal with b : bool |- _ => destruct b end;
    try discriminate; try reflexivity.
  all: change (PosDef.Pos.compare_cont Eq) with Pos.compare;
    destruct (Z.compare_spec ex ey), (Z.compare_spec ey ez), (Z.compare_spec ex ez);
    try discriminate; try reflexivity; try lia; subst;
    destruct (Pos.compare_spec mx my), (Pos.compare_spec my mz), (Pos.compare_spec mx mz);
    simpl; try discriminate; try reflexivity; try lia.
Qed.

Lemma ltb_trans (x y z : float) :
  (x <? y) = true -> (y <? z) = true -> (x <? z) = true.
Proof.
  rewrite !ltb_spec. unfold SFltb.
  destruct (SFcompare (Prim2SF x) (Prim2SF y)) as [[]|] eqn:E1; try discriminate.
  destruct (SFcompare (Prim2SF y) (Prim2SF z)) as [[]|] eqn:E2; try discriminate.
  now rewrite (SFcompare_lt_trans _ _ _ E1 E2).
Qed.

Lemma SFcompare_refl_not_lt (x : spec_float) : SFcompare x x <> Some Lt.
Proof.
  destruct x as [s|s| |s m e]; simpl; try discriminate; try (destruct s; discriminate).
  destruct s; rewrite Z.compare_refl;
    change (PosDef.Pos.compare_cont Eq m m) with (Pos.compare m m);
    rewrite Pos.compare_refl; discriminate.
Qed.

Lemma ltb_irrefl (x : float) : (x <? x) = false.
Proof.
  rewrite ltb_spec. unfold SFltb.
  pose proof (SFcompare_refl_not_lt (Prim2SF x)).
  destruct (SFcompare (Prim2SF x) (Prim2SF x)) as [[]|]; congruence.
Qed.

Lemma SFcompare_le_lt_trans (x y z : spec_float) :
  SFcompare x y = Some Eq -> SFcompare y z = Some Lt -> SFcompare x z = Some Lt.
Proof.
  destruct x as [sx|sx| |sx mx ex], y as [sy|sy| |sy my ey], z as [sz|sz| |sz mz ez];
    simpl; try discriminate;
    repeat match goal with b : bool |- _ => destruct b end;
    try discriminate; try reflexivity.
  all: change (PosDef.Pos.compare_cont Eq) with Pos.compare;
    destruct (Z.compare_spec ex ey), (Z.compare_spec ey ez), (Z.compare_spec ex ez);
    try discriminate; try reflexivity; try lia; subst;
    destruct (Pos.compare_spec mx my), (Pos.compare_spec my mz), (Pos.compare_spec mx mz);
    simpl; try discriminate; try reflexivity; try lia.
Qed.

Lemma leb_ltb_trans (x y z : float) :
  (x <=? y) = true -> (y <? z) = true -> (x <? z) = true.
Proof.
  rewrite leb_spec, !ltb_spec. unfold SFleb, SFltb.
  destruct (SFcompare (Prim2SF x) (Prim2SF y)) as [[]|] eqn:E1; try discriminate;
  destruct (SFcompare (Prim2SF y) (Prim2SF z)) as [[]|] eqn:E2; try discriminate; intros _ _.
  - now rewrite (SFcompare_le_lt_trans _ _ _ E1 E2).
  - now rewrite (SFcompare_lt_trans _ _ _ E1 E2).
Qed.

(** Every float is above zero, at or below zero, or a NaN, and only one of
    the three. *)
Lemma sign_cases (x : float) :
  (Nat.b2n (0 <? x)%float + Nat.b2n (x <=? 0)%float + Nat.b2n (is_nan x) = 1)%nat.
Proof.
  unfold is_nan. rewrite ltb_spec, leb_spec, eqb_spec.
  unfold SFltb, SFleb, SFeqb.
  change (Prim2SF 0) with (S754_zero false).
  destruct (Prim2SF x) as [s|s| |s m e]; simpl;
    try (destruct s; reflexivity); try reflexivity.
  destruct s; rewrite Z.compare_refl;
    change (PosDef.Pos.compare_cont Eq m m) with (Pos.compare m m);
    rewrite Pos.compare_refl; reflexivity.
Qed.

(** A value at or above zero has no negation above zero. *)
Lemma opp_nonneg (y : float) : (0 <=? y) = true -> (0 <? - y) = false.
Proof.
  rewrite leb_spec, ltb_spec, opp_spec. unfold SFleb, SFltb.
  change (Prim2SF 0) with (S754_zero false).
  destruct (Prim2SF y) as [s|s| |s m e]; simpl; try (destruct s; simpl; congruence); congruence.
Qed.

(** A positive value is not a zero. *)
Lemma ltb_zero_neq (x : float) : (0 <? x) = true -> (x =? 0) = false.
Proof.
  rewrite ltb_spec, eqb_spec. unfold SFltb, SFeqb.
  change (Prim2SF 0) with (S754_zero false).
  destruct (Prim2SF x) as [s|s| |s m e]; simpl; try (destruct s; simpl; congruence); congruence.
Qed.











End FloatOrder.

(** ** Facts about dictionaries *)

Module PyDictFacts.

Import PyDict.

Section Facts.

Context {V : Type}.
Implicit Types (d : PyDict.t V) (k : string) (v : V).

Lemma mem_get d k : mem k d = true <-> exists v, get k d = Some v.
Proof.
  unfold mem. destruct (get k d) as [v|]; split; eauto; try discriminate.
  intros [v' H]. discriminate.
Qed.

Lemma mem_false_get d k : mem k d = false <-> get k d = None.
Proof. unfold mem. destruct (get k d); split; congruence. Qed.

Lemma mem_In_keys d k : mem k d = true <-> In k (keys d).
Proof.
  unfold mem, keys. induction d as [|[k' v'] r IH]; simpl.
  - split; [discriminate | tauto].
  - destruct (String.eqb_spec k k') as [->|Hne].
    + split; auto.
    + rewrite IH. split; [tauto | intros [E|H]; congruence].
Qed.

Lemma get_set_same d k v : get k (set k v d) = Some v.
Proof.
  induction d as [|[k' v'] r IH]; simpl.
  - now rewrite String.eqb_refl.
  - destruct (String.eqb_spec k k') as [->|Hne]; simpl.
    + now rewrite String.eqb_refl.
    + destruct (String.eqb_spec k k'); congruence.
Qed.

Lemma get_set_other d k k' v : k <> k' -> get k' (set k v d) = get k' d.
Proof.
  intros Hne. induction d as [|[k0 v0] r IH]; simpl.
  - destruct (String.eqb_spec k' k); congruence.
  - destruct (String.eqb_spec k k0) as [->|Hne0]; simpl.
    + destruct (String.eqb_spec k' k0); congruence.
    + now rewrite IH.
Qed.

Lemma keys_set_mem d k v : mem k d = true -> keys (set k v d) = keys d.
Proof.
  unfold mem, keys. induction d as [|[k' v'] r IH]; simpl; try discriminate.
  destruct (String.eqb_spec k k') as [->|Hne]; simpl; auto.
  intros H. now rewrite IH.
Qed.

Lemma keys_set_new d k v : mem k d = false -> keys (set k v d) = keys d ++ [k].
Proof.
  unfold mem, keys. induction d as [|[k' v'] r IH]; simpl; auto.
  destruct (String.eqb_spec k k') as [->|Hne]; simpl; try discriminate.
  intros H. now rewrite IH.
Qed.

Lemma keys_del d k :
  keys (del k d) = filter (fun k' => negb (String.eqb k k')) (keys d).
Proof.
  unfold keys, del. induction d as [|[k' v'] r IH]; simpl; auto.
  destruct (String.eqb k k'); simpl; now rewrite IH.
Qed.

Lemma get_del_same d k : get k (del k d) = None.
Proof.
  unfold del. induction d as [|[k' v'] r IH]; simpl; auto.
  destruct (String.eqb_spec k k') as [->|Hne]; simpl; auto.
  destruct (String.eqb_spec k k'); congruence.
Qed.

Lemma get_del_other d k k' : k <> k' -> get k' (del k d) = get k' d.
Proof.
  intros Hne. unfold del. induction d as [|[k0 v0] r IH]; simpl; auto.
  destruct (String.eqb_spec k k0) as [->|Hne0]; simpl.
  - destruct (String.eqb_spec k' k0); congruence.
  - now rewrite IH.
Qed.

Lemma wf_empty : wf (@empty V).
Proof. constructor. Qed.

Lemma wf_set d k v : wf d -> wf (set k v d).
Proof.
  unfold wf. intros H. destruct (mem k d) eqn:E.
  - now rewrite keys_set_mem.
  - rewrite keys_set_new by assumption.
    apply NoDup_app; auto.
    + constructor; [simpl; tauto | constructor].
    + intros x Hx [<-|[]]. apply mem_In_keys in Hx. congruence.
Qed.

Lemma wf_del d k : wf d -> wf (del k d).
Proof. unfold wf. rewrite keys_del. apply NoDup_filter. Qed.

End Facts.

End PyDictFacts.

(** ** Facts about slices *)

Module ListFacts.

Import Py.

Lemma last_n_all {A : Type} (n : nat) (xs : list A) :
  (List.length xs <= n)%nat -> last_n n xs = xs.
Proof.
  intros H. unfold last_n. now replace (List.length xs - n)%nat with 0%nat by lia.
Qed.

Lemma last_n_length {A : Type} (n : nat) (xs : list A) :
  List.length (last_n n xs) = Nat.min n (List.length xs).
Proof. unfold last_n. rewrite length_skipn. lia. Qed.

Lemma last_n_app {A : Type} (n : nat) (xs ys : list A) :
  last_n n (last_n n xs ++ ys) = last_n n (xs ++ ys).
Proof.
  destruct (Nat.le_gt_cases (List.length xs) n) as [Hle|Hgt].
  - now rewrite (last_n_all n xs Hle).
  - unfold last_n at 1 3. rewrite !length_app, last_n_length.
    unfold last_n. rewrite !skipn_app, skipn_skipn, length_skipn.
    f_equal; f_equal; lia.
Qed.

Lemma forallb_last_n {A : Type} (f : A -> bool) (n : nat) (xs : list A) :
  forallb f xs = true -> forallb f (last_n n xs) = true.
Proof.
  unfold last_n. intros H.
  rewrite <- (firstn_skipn (List.length xs - n) xs), forallb_app in H.
  now apply andb_true_iff in H.
Qed.

End ListFacts.

(** ** The risk manager *)

Module RiskFacts.

Import Py risk_manager.
Local Open Scope string_scope.
Local Open Scope float_scope.

(** [reset_daily_stats] and [can_open_position] never touch the position
    map, the configuration or the capital. *)
Lemma reset_daily_stats_positions now rm :
  positions (reset_daily_stats now rm) = positions rm.
Proof. unfold reset_daily_stats. now destruct (_ <? _)%Z. Qed.

Lemma reset_daily_stats_max_leverage now rm :
  max_leverage (reset_daily_stats now rm) = max_leverage rm.
Proof. unfold reset_daily_stats. now destruct (_ <? _)%Z. Qed.

Lemma can_open_position_state now symbol rm :
  fst (can_open_position now symbol rm) = reset_daily_stats now rm.
Proof.
  unfold can_open_position.
  repeat match goal with |- context [if ?c then _ else _] => destruct c end;
    reflexivity.
Qed.

(** The third gate: a symbol that is already held cannot be opened. *)
Lemma can_open_position_held now symbol rm :
  PyDict.mem symbol (positions rm) = true ->
  snd (can_open_position now symbol rm) = false.
Proof.
  intros H. unfold can_open_position.
  rewrite reset_daily_stats_positions, H.
  repeat match goal with |- context [if ?c then _ else _] => destruct c end;
    reflexivity.
Qed.

(** The three outcomes of [open_position], by the gates it passes. *)
Lemma open_position_cases now symbol side entry_price quantity leverage
    stop_loss take_profit strategy rm :
  let r := open_position now symbol side entry_price quantity leverage
             stop_loss take_profit strategy rm in
  (snd r = Ok None /\ positions (fst r) = positions rm /\
   (snd (can_open_position now symbol rm) = false \/
    exists liq, calculate_liquidation_price entry_price leverage side
                  default_maintenance_margin_rate = Ok liq /\
                stop_beyond_liquidation side stop_loss liq = true))
  \/
  (exists e,
     snd (can_open_position now symbol rm) = true /\
     snd r = Raise e /\ positions (fst r) = positions rm /\
     calculate_liquidation_price entry_price leverage side
       default_maintenance_margin_rate = Raise e)
  \/
  (exists liq,
     snd (can_open_position now symbol rm) = true /\
     calculate_liquidation_price entry_price leverage side
       default_maintenance_margin_rate = Ok liq /\
     stop_beyond_liquidation side stop_loss liq = false /\
     let p := new_position now symbol side entry_price quantity leverage
                stop_loss take_profit strategy liq in
     snd r = Ok (Some p) /\
     positions (fst r) = PyDict.set symbol p (positions rm) /\
     max_leverage (fst r) = max_leverage rm).
Proof.
  unfold open_position.
  pose proof (can_open_position_state now symbol rm) as Hst.
  destruct (can_open_position now symbol rm) as [rm1 allowed]. simpl in Hst.
  subst rm1. destruct allowed; simpl.
  - destruct (calculate_liquidation_price _ _ _ _) as [liq|e]; simpl.
    + destruct (stop_beyond_liquidation side stop_loss liq) eqn:Hb; simpl.
      * left. rewrite reset_daily_stats_positions. eauto 6.
      * right. right. exists liq.
        rewrite reset_daily_stats_positions, reset_daily_stats_max_leverage.
        repeat split; auto.
    + right. left. exists e. rewrite reset_daily_stats_positions. auto.
  - left. rewrite reset_daily_stats_positions. auto.
Qed.

(** C10. Closing a symbol that has no open position returns no trade and
    leaves the whole ledger (position map, trade history, capital, daily
    PnL and everything else) exactly as it was. *)
Theorem close_position_missing_is_noop now symbol exit_price strategy realized_pnl rm :
  PyDict.mem symbol (positions rm) = false ->
  close_position now symbol exit_price strategy realized_pnl rm = (rm, Ok None).
Proof.
  intros H. apply PyDictFacts.mem_false_get in H.
  unfold close_position. now rewrite H.
Qed.

(** C1. Whenever the stop-loss is at or beyond the computed liquidation
    price on the loss side ([stop <= liq] for a LONG, [stop >= liq] for a
    SHORT) the open is refused: no position is returned and the position
    map is unchanged.  When the other gates pass and the stop is strictly
    inside ([stop > liq] for a LONG, [stop < liq] for a SHORT) the open
    succeeds and files the new position under its symbol. *)
Theorem open_position_liquidation_gate now symbol side entry_price quantity
    leverage stop_loss take_profit strategy rm liq :
  calculate_liquidation_price entry_price leverage side
    default_maintenance_margin_rate = Ok liq ->
  let r := open_position now symbol side entry_price quantity leverage
             stop_loss take_profit strategy rm in
  let p := new_position now symbol side entry_price quantity leverage
             stop_loss take_profit strategy liq in
  (side = "LONG" -> (stop_loss <=? liq) = true ->
     snd r = Ok None /\ positions (fst r) = positions rm) /\
  (side = "SHORT" -> geb stop_loss liq = true ->
     snd r = Ok None /\ positions (fst r) = positions rm) /\
  (side = "LONG" -> snd (can_open_position now symbol rm) = true ->
     gtb stop_loss liq = true ->
     snd r = Ok (Some p) /\
     positions (fst r) = PyDict.set symbol p (positions rm)) /\
  (side = "SHORT" -> snd (can_open_position now symbol rm) = true ->
     (stop_loss <? liq) = true ->
     snd r = Ok (Some p) /\
     positions (fst r) = PyDict.set symbol p (positions rm)).
Proof.
  intros Hliq r p.
  assert (Hrej : stop_beyond_liquidation side stop_loss liq = true ->
                 snd r = Ok None /\ positions (fst r) = positions rm).
  { intros Hb.
    destruct (open_position_cases now symbol side entry_price quantity leverage
                stop_loss take_profit strategy rm)
      as [(H1 & H2 & _) | [(e & _ & _ & _ & He) | (liq' & _ & Hl & Hb' & _)]].
    - auto.
    - congruence.
    - rewrite Hliq in Hl. injection Hl as <-. congruence. }
  assert (Hacc : snd (can_open_position now symbol rm) = true ->
                 stop_beyond_liquidation side stop_loss liq = false ->
                 snd r = Ok (Some p) /\
                 positions (fst r) = PyDict.set symbol p (positions rm)).
  { intros Hc Hb.
    destruct (open_position_cases now symbol side entry_price quantity leverage
                stop_loss take_profit strategy rm)
      as [(_ & _ & [Hc' | (liq' & Hl & Hb')]) | [(e & _ & _ & _ & He)
          | (liq' & _ & Hl & _ & H1 & H2 & _)]].
    - congruence.
    - rewrite Hliq in Hl. injection Hl as <-. congruence.
    - congruence.
    - rewrite Hliq in Hl. injection Hl as <-. auto. }
  unfold stop_beyond_liquidation, geb, gtb in *.
  split; [|split; [|split]].
  - intros -> H. apply Hrej. exact H.
  - intros -> H. apply Hrej. exact H.
  - intros -> Hc H. apply Hacc; auto. simpl.
    now apply FloatOrder.ltb_leb_swap.
  - intros -> Hc H. apply Hacc; auto. simpl.
    now apply FloatOrder.ltb_leb_swap.
Qed.

(** A LONG at 50000 with leverage 10 liquidates at 45250: a stop at 45000
    is refused, a stop at 49000 is accepted. *)
Lemma open_position_liquidation_gate_witness :
  let rm := init_default 0 1000 in
  (snd (open_position 5 "BTCUSDT" "LONG" 50000 0.01 10 45000 None "scalp" rm) = Ok None /\
   positions (fst (open_position 5 "BTCUSDT" "LONG" 50000 0.01 10 45000 None "scalp" rm))
   = positions rm) /\
  snd (open_position 5 "BTCUSDT" "LONG" 50000 0.01 10 49000 None "scalp" rm)
  = Ok (Some (new_position 5 "BTCUSDT" "LONG" 50000 0.01 10 49000 None "scalp" 45250)).
Proof.
  intros rm. split.
  - refine (proj1 (open_position_liquidation_gate 5 "BTCUSDT" "LONG" 50000 0.01
                     10 45000 None "scalp" rm 45250 _) _ _);
      vm_compute; reflexivity.
  - refine (proj1 (proj1 (proj2 (proj2
              (open_position_liquidation_gate 5 "BTCUSDT" "LONG" 50000 0.01
                 10 49000 None "scalp" rm 45250 _))) _ _ _));
      vm_compute; reflexivity.
Defined.

Lemma close_position_missing_is_noop_witness :
  close_position 9 "ETHUSDT" 3000 "scalp" None (init_default 0 1000)
  = (init_default 0 1000, Ok None).
Proof.
  apply close_position_missing_is_noop. vm_compute. reflexivity.
Defined.

(** What [close_position] leaves behind when it closes [position] with
    the profit [pnl_]. *)
Lemma close_position_found now symbol exit_price strategy realized_pnl rm
    position pnl_ pct :
  PyDict.get symbol (positions rm) = Some position ->
  realized_pnl_of position exit_price realized_pnl = Ok (pnl_, pct) ->
  let r := close_position now symbol exit_price strategy realized_pnl rm in
  exists trade,
    snd r = Ok (Some trade) /\
    Trade.pnl trade = pnl_ /\
    Trade.symbol trade = symbol /\
    Trade.side trade = Position.side position /\
    current_capital (fst r) = current_capital rm + pnl_ /\
    daily_pnl (fst r) = daily_pnl rm + pnl_ /\
    positions (fst r) = PyDict.del symbol (positions rm) /\
    PyDict.mem symbol (positions (fst r)) = false /\
    trades (fst r) = (trades rm ++ [trade])%list.
Proof.
  intros Hget Hpnl. unfold close_position. rewrite Hget, Hpnl. simpl.
  eexists. repeat split.
  apply PyDictFacts.mem_false_get, PyDictFacts.get_del_same.
Qed.

(** C3 (amended). For an open position whose [entry_price * quantity] is
    nonzero, closing with a supplied realised PnL returns one trade whose
    [pnl] is exactly that value whatever the prices, adds it to the
    current capital and to the daily PnL, removes the position and appends
    that one trade to the history.  Without a supplied value, and for a
    nonzero entry price, the PnL is [(exit - entry) * quantity] for a LONG
    and [(entry - exit) * quantity] for a SHORT, with no leverage factor. *)
Theorem close_position_books_pnl now symbol exit_price strategy rm position :
  PyDict.get symbol (positions rm) = Some position ->
  (forall realized,
     (Position.entry_price position * Position.quantity position =? 0) = false ->
     let r := close_position now symbol exit_price strategy (Some realized) rm in
     exists trade,
       snd r = Ok (Some trade) /\
       Trade.pnl trade = realized /\
       current_capital (fst r) = current_capital rm + realized /\
       daily_pnl (fst r) = daily_pnl rm + realized /\
       PyDict.mem symbol (positions (fst r)) = false /\
       positions (fst r) = PyDict.del symbol (positions rm) /\
       trades (fst r) = (trades rm ++ [trade])%list) /\
  ((Position.entry_price position =? 0) = false ->
   let r := close_position now symbol exit_price strategy None rm in
   let computed :=
     if String.eqb (Position.side position) "LONG"
     then (exit_price - Position.entry_price position) * Position.quantity position
     else (Position.entry_price position - exit_price) * Position.quantity position in
   exists trade,
     snd r = Ok (Some trade) /\
     Trade.pnl trade = computed /\
     current_capital (fst r) = current_capital rm + computed /\
     daily_pnl (fst r) = daily_pnl rm + computed /\
     PyDict.mem symbol (positions (fst r)) = false /\
     positions (fst r) = PyDict.del symbol (positions rm) /\
     trades (fst r) = (trades rm ++ [trade])%list).
Proof.
  intros Hget. split.
  - intros realized Hnz r.
    destruct (close_position_found now symbol exit_price strategy (Some realized)
                rm position realized
                (realized / (Position.entry_price position * Position.quantity position) * 100)
                Hget) as (trade & H).
    { unfold realized_pnl_of, float_div. now rewrite Hnz. }
    exists trade. subst r. cbv zeta in H. tauto.
  - intros Hnz r computed.
    destruct (close_position_found now symbol exit_price strategy None
                rm position computed
                ((if String.eqb (Position.side position) "LONG"
                  then exit_price - Position.entry_price position
                  else Position.entry_price position - exit_price)
                 / Position.entry_price position * 100)
                Hget) as (trade & H).
    { unfold realized_pnl_of, float_div, computed. rewrite Hnz. simpl.
      now destruct (String.eqb (Position.side position) "LONG"). }
    exists trade. subst r. cbv zeta in H. tauto.
Qed.

(** After opening BTCUSDT long at 50000, a close at 51000 with the
    exchange's 12.5 books 12.5; a close without it books 0.01 * 1000. *)
Lemma close_position_books_pnl_witness :
  let rm := fst (open_position 5 "BTCUSDT" "LONG" 50000 0.01 10 49000 None "scalp"
                   (init_default 0 1000)) in
  (exists trade,
     snd (close_position 9 "BTCUSDT" 51000 "scalp" (Some 12.5) rm) = Ok (Some trade) /\
     Trade.pnl trade = 12.5) /\
  (exists trade,
     snd (close_position 9 "BTCUSDT" 51000 "scalp" None rm) = Ok (Some trade) /\
     Trade.pnl trade = 10).
Proof.
  intros rm.
  destruct (close_position_books_pnl 9 "BTCUSDT" 51000 "scalp" rm
              (new_position 5 "BTCUSDT" "LONG" 50000 0.01 10 49000 None "scalp" 45250)
              ltac:(vm_compute; reflexivity)) as [H1 H2].
  split.
  - destruct (H1 12.5 ltac:(vm_compute; reflexivity)) as (trade & Ht & Hp & _).
    exists trade. split; assumption.
  - destruct (H2 ltac:(vm_compute; reflexivity)) as (trade & Ht & Hp & _).
    exists trade. split; [assumption|]. rewrite Hp. vm_compute. reflexivity.
Defined.

(** C3 as stated fails on a position of quantity 0, which [open_position]
    accepts: the percentage divides by [entry_price * quantity], the close
    raises, and the position stays in the ledger with no trade recorded. *)
Lemma close_position_zero_quantity_raises :
  let rm := fst (open_position 5 "BTCUSDT" "LONG" 50000 0 10 49000 None "scalp"
                   (init_default 0 1000)) in
  PyDict.mem "BTCUSDT" (positions rm) = true /\
  close_position 9 "BTCUSDT" 51000 "scalp" (Some 12.5) rm = (rm, Raise ZeroDivisionError).
Proof. vm_compute. split; reflexivity. Qed.

(** C4 (amended). With an initial capital of 1000 and a daily-loss fraction
    of 0.02 the limit evaluates to exactly -20, and the breaker compares
    strictly: in every state whose daily PnL is below -20, within a day of
    the last reset, [can_open_position] answers [False] for every symbol. *)
Theorem daily_loss_breaker now symbol rm :
  initial_capital rm = 1000 ->
  max_daily_loss rm = 0.02 ->
  (now - last_reset rm <= one_day)%Z ->
  (daily_pnl rm <? -20) = true ->
  snd (can_open_position now symbol rm) = false.
Proof.
  intros Hcap Hfrac Hday Hloss.
  unfold can_open_position, reset_daily_stats.
  replace (one_day <? now - last_reset rm)%Z with false
    by (symmetry; apply Z.ltb_ge; exact Hday).
  rewrite Hcap, Hfrac.
  replace (- (1000 * 0.02)) with (-20) by (vm_compute; reflexivity).
  now rewrite Hloss.
Qed.

Lemma daily_loss_breaker_witness :
  let rm := run (init 0 1000 50 0.02 0.02 5 1.5)
              [ Open 0 "BTCUSDT" "LONG" 50000 0.01 10 49000 None "scalp";
                Close 1 "BTCUSDT" 47000 "scalp" (Some (-30)) ] in
  daily_pnl rm = -30 /\ snd (can_open_position 2 "ETHUSDT" rm) = false.
Proof.
  intros rm. split; [vm_compute; reflexivity|].
  apply daily_loss_breaker; vm_compute; try reflexivity. discriminate.
Defined.

(** C4 as stated fails at the boundary: after a loss of exactly 20 the
    daily PnL is -20, which is [<= -20] but not below the limit, and the
    ledger still lets a new symbol open. *)
Lemma daily_loss_breaker_boundary_open :
  let rm := run (init 0 1000 50 0.02 0.02 5 1.5)
              [ Open 0 "BTCUSDT" "LONG" 50000 0.01 10 49000 None "scalp";
                Close 1 "BTCUSDT" 48000 "scalp" (Some (-20)) ] in
  initial_capital rm = 1000 /\ max_daily_loss rm = 0.02 /\
  (daily_pnl rm <=? -20) = true /\
  (2 - last_reset rm <= one_day)%Z /\
  can_open_position 2 "ETHUSDT" rm = (rm, true).
Proof. vm_compute. repeat split; try reflexivity. discriminate. Qed.

(** C6 (amended). For a positive integer leverage the liquidation price is
    the double-precision value of [entry * (1 - 1/leverage + mmr)] for a
    LONG and of [entry * (1 + 1/leverage - mmr)] for a SHORT, with
    [1/leverage] the correctly rounded quotient.  At entry 100, leverage 10
    and mmr 0.005 this is 90.5 for a LONG and 109.50000000000001, the
    double next above 109.5, for a SHORT. *)
Theorem calculate_liquidation_price_formula entry_price leverage mmr :
  (0 < leverage)%Z ->
  calculate_liquidation_price entry_price leverage "LONG" mmr
  = Ok (entry_price * (1 - truediv_value 1 leverage + mmr)) /\
  calculate_liquidation_price entry_price leverage "SHORT" mmr
  = Ok (entry_price * (1 + truediv_value 1 leverage - mmr)) /\
  calculate_liquidation_price 100 10 "LONG" 0.005 = Ok 90.5 /\
  calculate_liquidation_price 100 10 "SHORT" 0.005 = Ok 109.50000000000001.
Proof.
  intros Hpos.
  assert (Hdiv : int_truediv 1 leverage = Ok (truediv_value 1 leverage)).
  { unfold int_truediv.
    destruct (Z.eqb_spec leverage 0) as [->|_]; [lia|].
    destruct (Z.leb_spec (Z.abs leverage * overflow_threshold) (Z.abs 1)) as [H|_];
      [|reflexivity].
    exfalso. assert (1 < overflow_threshold)%Z by (vm_compute; reflexivity).
    change (Z.abs 1) with 1%Z in H. nia. }
  unfold calculate_liquidation_price. simpl. rewrite Hdiv. simpl.
  repeat split; vm_compute; reflexivity.
Qed.

Lemma calculate_liquidation_price_formula_witness :
  calculate_liquidation_price 50000 20 "LONG" 0.005
  = Ok (50000 * (1 - truediv_value 1 20 + 0.005)).
Proof.
  apply (calculate_liquidation_price_formula 50000 20 0.005). reflexivity.
Defined.

(** C6 as stated fails in its SHORT example: the result is not 109.5. *)
Lemma calculate_liquidation_price_short_example :
  calculate_liquidation_price 100 10 "SHORT" 0.005 <> Ok 109.5.
Proof.
  intros H.
  apply (f_equal (fun r => match r with
                           | Ok x => (x =? 109.5)
                           | Raise _ => false
                           end)) in H.
  vm_compute in H. discriminate.
Qed.

(** *** The ledger invariant *)

Lemma step_max_leverage rm c : max_leverage (step rm c) = max_leverage rm.
Proof.
  destruct c as [now symbol side e q l sl tp st | symbol price
                 | now symbol exit_price st realized]; simpl.
  - unfold open_position.
    pose proof (can_open_position_state now symbol rm) as Hst.
    destruct (can_open_position now symbol rm) as [rm1 allowed].
    simpl in Hst. subst rm1.
    destruct allowed; simpl;
      [destruct (calculate_liquidation_price _ _ _ _); simpl;
       [destruct (stop_beyond_liquidation _ _ _); simpl|] |];
      apply reset_daily_stats_max_leverage.
  - unfold update_position.
    now destruct (PyDict.get symbol (positions rm)).
  - unfold close_position.
    destruct (PyDict.get symbol (positions rm)); [|reflexivity].
    now destruct (realized_pnl_of _ _ _) as [[? ?]|].
Qed.

Lemma step_keeps_invariant rm c :
  well_sized_call (max_leverage rm) c ->
  ledger_invariant rm -> ledger_invariant (step rm c).
Proof.
  intros Hc [Hwf Hall]. unfold ledger_invariant.
  rewrite step_max_leverage.
  destruct c as [now symbol side e q l sl tp st | symbol price
                 | now symbol exit_price st realized]; simpl in *.
  - destruct (open_position_cases now symbol side e q l sl tp st rm)
      as [(_ & Hp & _) | [(x & _ & _ & Hp & _) | (liq & Hopen & _ & _ & _ & Hp & _)]];
      rewrite Hp; auto.
    split; [now apply PyDictFacts.wf_set|].
    intros k p. destruct (String.eqb_spec symbol k) as [<-|Hne].
    + rewrite PyDictFacts.get_set_same. intros [= <-]. split; [reflexivity|exact Hc].
    + rewrite PyDictFacts.get_set_other by assumption. apply Hall.
  - unfold update_position.
    destruct (PyDict.get symbol (positions rm)) as [position|] eqn:Hget; auto.
    simpl. split; [now apply PyDictFacts.wf_set|].
    intros k p. destruct (String.eqb_spec symbol k) as [<-|Hne].
    + rewrite PyDictFacts.get_set_same. intros [= <-].
      destruct (Hall symbol position Hget) as [Hs Hz]. split; assumption.
    + rewrite PyDictFacts.get_set_other by assumption. apply Hall.
  - unfold close_position.
    destruct (PyDict.get symbol (positions rm)) as [position|] eqn:Hget; auto.
    destruct (realized_pnl_of _ _ _) as [[pnl_ pct]|]; simpl; auto.
    split; [now apply PyDictFacts.wf_del|].
    intros k p. destruct (String.eqb_spec symbol k) as [<-|Hne].
    + now rewrite PyDictFacts.get_del_same.
    + rewrite PyDictFacts.get_del_other by assumption. apply Hall.
Qed.

Lemma run_keeps_invariant calls : forall rm,
  Forall (well_sized_call (max_leverage rm)) calls ->
  ledger_invariant rm -> ledger_invariant (run rm calls).
Proof.
  unfold run. induction calls as [|c calls IH]; intros rm Hcalls Hinv; simpl; auto.
  inversion Hcalls as [|? ? Hc Hrest]; subst.
  apply IH.
  - now rewrite step_max_leverage.
  - now apply step_keeps_invariant.
Qed.

(** One position per symbol, each filed under its own symbol: this part
    of the invariant asks nothing of the calls. *)
Lemma step_keeps_filing rm c :
  PyDict.wf (positions rm) ->
  (forall k p, PyDict.get k (positions rm) = Some p -> Position.symbol p = k) ->
  PyDict.wf (positions (step rm c)) /\
  forall k p, PyDict.get k (positions (step rm c)) = Some p -> Position.symbol p = k.
Proof.
  intros Hwf Hall.
  destruct c as [now symbol side e q l sl tp st | symbol price
                 | now symbol exit_price st realized]; simpl in *.
  - destruct (open_position_cases now symbol side e q l sl tp st rm)
      as [(_ & Hp & _) | [(x & _ & _ & Hp & _) | (liq & Hopen & _ & _ & _ & Hp & _)]];
      rewrite Hp; auto.
    split; [now apply PyDictFacts.wf_set|].
    intros k p. destruct (String.eqb_spec symbol k) as [<-|Hne].
    + rewrite PyDictFacts.get_set_same. now intros [= <-].
    + rewrite PyDictFacts.get_set_other by assumption. apply Hall.
  - unfold update_position.
    destruct (PyDict.get symbol (positions rm)) as [position|] eqn:Hget; auto.
    simpl. split; [now apply PyDictFacts.wf_set|].
    intros k p. destruct (String.eqb_spec symbol k) as [<-|Hne].
    + rewrite PyDictFacts.get_set_same. intros [= <-].
      exact (Hall symbol position Hget).
    + rewrite PyDictFacts.get_set_other by assumption. apply Hall.
  - unfold close_position.
    destruct (PyDict.get symbol (positions rm)) as [position|] eqn:Hget; auto.
    destruct (realized_pnl_of _ _ _) as [[pnl_ pct]|]; simpl; auto.
    split; [now apply PyDictFacts.wf_del|].
    intros k p. destruct (String.eqb_spec symbol k) as [<-|Hne].
    + now rewrite PyDictFacts.get_del_same.
    + rewrite PyDictFacts.get_del_other by assumption. apply Hall.
Qed.

Lemma run_keeps_filing calls : forall rm,
  PyDict.wf (positions rm) ->
  (forall k p, PyDict.get k (positions rm) = Some p -> Position.symbol p = k) ->
  PyDict.wf (positions (run rm calls)) /\
  forall k p, PyDict.get k (positions (run rm calls)) = Some p -> Position.symbol p = k.
Proof.
  unfold run. induction calls as [|c calls IH]; intros rm Hwf Hall; simpl; auto.
  destruct (step_keeps_filing rm c Hwf Hall) as [Hwf' Hall'].
  now apply IH.
Qed.

Lemma run_max_leverage calls : forall rm,
  max_leverage (run rm calls) = max_leverage rm.
Proof.
  unfold run. induction calls as [|c calls IH]; intros rm; simpl; auto.
  now rewrite IH, step_max_leverage.
Qed.

(** C2 (amended). In every state reached from a fresh ledger by any
    sequence of open / update-mark / close calls there is at most one
    position per symbol, filed under that symbol, and an open for a symbol
    that is held is refused and leaves the map as it is; the configured
    maximum leverage is the one the ledger was created with.
    [open_position] checks neither quantity nor leverage: every held
    position has [quantity > 0] and leverage in (0, max_leverage] provided
    every open call of the sequence was made with such a quantity and
    leverage. *)
Theorem ledger_invariant_reachable now0 capital maxlev rpt mdl mop mrr calls :
  let rm := run (init now0 capital maxlev rpt mdl mop mrr) calls in
  PyDict.wf (positions rm) /\
  (forall k p, PyDict.get k (positions rm) = Some p -> Position.symbol p = k) /\
  (forall now symbol side entry_price quantity leverage stop_loss take_profit strategy,
     PyDict.mem symbol (positions rm) = true ->
     let r := open_position now symbol side entry_price quantity leverage
                stop_loss take_profit strategy rm in
     snd r = Ok None /\ positions (fst r) = positions rm) /\
  max_leverage rm = maxlev /\
  (Forall (well_sized_call maxlev) calls -> ledger_invariant rm).
Proof.
  intros rm.
  destruct (run_keeps_filing calls (init now0 capital maxlev rpt mdl mop mrr))
    as [Hwf Hfiled];
    [apply PyDictFacts.wf_empty | intros k p; discriminate |].
  fold rm in Hwf, Hfiled.
  split; [exact Hwf|]. split; [exact Hfiled|]. split; [|split].
  - intros now symbol side e q l sl tp st Hheld r.
    pose proof (can_open_position_held now symbol rm Hheld) as Hno.
    destruct (open_position_cases now symbol side e q l sl tp st rm)
      as [(H1 & H2 & _) | [(x & Hopen & _) | (liq & Hopen & _)]];
      [auto | congruence | congruence].
  - apply (run_max_leverage calls (init now0 capital maxlev rpt mdl mop mrr)).
  - intros Hcalls. apply run_keeps_invariant; [exact Hcalls|].
    split; [apply PyDictFacts.wf_empty | intros k p; discriminate].
Qed.

(** A round trip with a second open on the held symbol in between. *)
Lemma ledger_invariant_reachable_witness :
  ledger_invariant
    (run (init 0 1000 50 0.02 0.10 5 1.5)
       [ Open 0 "BTCUSDT" "LONG" 50000 0.01 10 49000 None "scalp";
         Open 1 "BTCUSDT" "SHORT" 50000 0.02 20 50500 None "scalp";
         UpdateMark "BTCUSDT" 50500;
         Open 2 "ETHUSDT" "SHORT" 3000 0.5 20 3050 None "fade";
         Close 3 "BTCUSDT" 51000 "scalp" None ]).
Proof.
  apply (ledger_invariant_reachable 0 1000 50 0.02 0.10 5 1.5).
  repeat constructor; vm_compute; congruence.
Defined.

(** C2 as stated fails: [open_position] accepts a request of quantity 0
    and leverage 60 under a configured maximum of 50, and the ledger then
    holds a position that is not sized. *)
Lemma ledger_invariant_unsized_open :
  let rm := run (init_default 0 1000)
              [ Open 0 "BTCUSDT" "LONG" 50000 0 60 49900 None "scalp" ] in
  (exists p, PyDict.get "BTCUSDT" (positions rm) = Some p /\
             (0 <? Position.quantity p) = false /\
             (max_leverage rm < Position.leverage p)%Z) /\
  ~ ledger_invariant rm.
Proof.
  intros rm. split.
  - eexists. split; [vm_compute; reflexivity|].
    split; vm_compute; reflexivity.
  - intros [_ H].
    destruct (H "BTCUSDT" _ ltac:(vm_compute; reflexivity)) as [_ [Hq _]].
    vm_compute in Hq. discriminate.
Qed.

End RiskFacts.

(** ** The regime classifier *)

Module RegimeFacts.

Import Py market_regime.
Local Open Scope float_scope.

(** Exhaustive checks over booleans and regimes, run by the VM. *)
Lemma all_bool (f : bool -> bool) :
  forallb f [true; false] = true -> forall b, f b = true.
Proof.
  simpl. intros H b.
  repeat (apply andb_prop in H; destruct H as [? H]).
  destruct b; assumption.
Qed.

Lemma all_regimes (f : MarketRegime -> bool) :
  forallb f [HIGH_VOLATILITY_TRENDING; LOW_VOLATILITY_RANGING;
             MOMENTUM_EXHAUSTION; MIXED; UNKNOWN] = true ->
  forall r, f r = true.
Proof.
  simpl. intros H r.
  repeat (apply andb_prop in H; destruct H as [? H]).
  destruct r; assumption.
Qed.

Ltac abstract_conditions signals :=
  repeat match goal with
         | |- context [score_if ?c _ _ _] =>
             lazymatch c with
             | context [signals] => generalize c; intro
             end
         end.

Ltac by_cases_on_bools :=
  repeat match goal with
         | b : bool |- _ => revert b; apply all_bool
         end.

(** Whatever the signals (NaN included) and the regime held so far, the
    result of [detect_regime] is classified. *)
Lemma detect_regime_classified self signals :
  classified (detect_regime self signals) = true.
Proof.
  cbv beta delta [detect_regime].
  generalize (gtb (regime_persistence signals) 0.6) as persists.
  generalize (current_regime self) as held. intros held persists.
  abstract_conditions signals.
  revert held. apply all_regimes. by_cases_on_bools.
  vm_compute. reflexivity.
Qed.

(** With no condition firing, MIXED wins on its baseline alone and the
    confidence is 0.5 / 0.5. *)
Lemma detect_regime_quiet self signals :
  no_condition_triggers signals = true ->
  detect_regime self signals = (MIXED, 1).
Proof.
  unfold no_condition_triggers. intros H.
  apply negb_true_iff in H.
  repeat (apply orb_false_elim in H; destruct H as [H ?]).
  cbv beta delta [detect_regime].
  repeat match goal with
         | E : ?c = false |- context [score_if ?c _ _ _] => rewrite E
         end.
  destruct (current_regime self), (gtb (regime_persistence signals) 0.6);
    vm_compute; reflexivity.
Qed.

(** C5 (amended). For every input, [detect_regime] returns one of the four
    named regimes (never UNKNOWN) with a confidence in [0, 1]; and when no
    scoring condition fires, so that every score but MIXED's baseline of
    0.5 is zero, it returns MIXED with confidence 1. *)
Theorem detect_regime_range self signals :
  (fst (detect_regime self signals) <> UNKNOWN /\
   (0 <=? snd (detect_regime self signals)) = true /\
   (snd (detect_regime self signals) <=? 1) = true) /\
  (no_condition_triggers signals = true ->
   detect_regime self signals = (MIXED, 1)).
Proof.
  split; [|apply detect_regime_quiet].
  pose proof (detect_regime_classified self signals) as H.
  unfold classified in H.
  apply andb_prop in H. destruct H as [H H1].
  apply andb_prop in H. destruct H as [H H0].
  repeat split; try assumption.
  intros E. rewrite E in H. discriminate.
Qed.

(** Quiet signals: moderate volatility and trend, neutral everything else. *)
Lemma detect_regime_range_witness :
  detect_regime init
    {| volatility := 0.02; trend_strength := 30; volume_trend := 0;
       orderbook_imbalance := 0; funding_rate := 0; funding_trend := 0;
       rsi := 50; price_momentum := 0.3; liquidity_score := 0.5;
       regime_persistence := 0 |}
  = (MIXED, 1).
Proof.
  apply detect_regime_range. vm_compute. reflexivity.
Defined.

(** C5 as stated fails on the same quiet signals: the confidence returned
    is 1, not 0.5. *)
Lemma detect_regime_quiet_confidence :
  let signals :=
    {| volatility := 0.02; trend_strength := 30; volume_trend := 0;
       orderbook_imbalance := 0; funding_rate := 0; funding_trend := 0;
       rsi := 50; price_momentum := 0.3; liquidity_score := 0.5;
       regime_persistence := 0 |} in
  no_condition_triggers signals = true /\
  (snd (detect_regime init signals) =? 0.5) = false /\
  snd (detect_regime init signals) <> 0.5.
Proof.
  intros signals. split; [vm_compute; reflexivity|].
  split; [vm_compute; reflexivity|].
  intros H. apply (f_equal (fun x => x =? 0.5)) in H.
  vm_compute in H. discriminate.
Qed.

End RegimeFacts.

(** ** The strategy selector *)

Module StrategyFacts.

Import Py strategy_selector.
Local Open Scope string_scope.
Local Open Scope float_scope.

(** A quotient of magnitude at most 1 never overflows. *)
Lemma int_truediv_small (a b : Z) :
  b <> 0%Z -> (Z.abs a <= Z.abs b)%Z ->
  int_truediv a b = Ok (truediv_value a b).
Proof.
  intros Hb Hab. unfold int_truediv.
  destruct (Z.eqb_spec b 0) as [|_]; [contradiction|].
  destruct (Z.leb_spec (Z.abs b * overflow_threshold) (Z.abs a)) as [H|_];
    [|reflexivity].
  exfalso. assert (1 < overflow_threshold)%Z by (vm_compute; reflexivity).
  assert (Z.abs b * 1 < Z.abs b * overflow_threshold)%Z
    by (apply Z.mul_lt_mono_pos_l; lia).
  lia.
Qed.

Lemma last_n_nonempty {A : Type} (n : nat) (xs : list A) :
  xs <> [] -> (0 < n)%nat -> last_n n xs <> [].
Proof.
  unfold last_n. intros Hxs Hn H.
  apply (f_equal (@List.length A)) in H. rewrite length_skipn in H.
  destruct xs; [contradiction|]. cbn [List.length] in H. lia.
Qed.

(** [np.clip(x, 0, 1)] is NaN (for a NaN argument) or lies in [0, 1]. *)
Lemma clip_unit_range (x : float) :
  is_nan (Np.clip x 0 1) = true \/
  ((0 <=? Np.clip x 0 1) = true /\ (Np.clip x 0 1 <=? 1) = true).
Proof.
  unfold Np.clip. destruct (is_nan x) eqn:Hnan; [now left|right].
  unfold gtb. destruct (0 <? x) eqn:Hpos.
  - destruct (x <? 1) eqn:Hlt.
    + split; now apply FloatOrder.ltb_leb.
    + split; reflexivity.
  - change (0 <? 1) with true. cbv iota. split; reflexivity.
Qed.

(** Recording an outcome always leaves a non-empty window. *)
Lemma record_trade_window stats pnl_ win_ :
  recent_trades (record_trade stats pnl_ win_) <> [].
Proof.
  unfold record_trade. simpl.
  destruct (20 <? _)%Z.
  - apply last_n_nonempty; [|lia]. now destruct (recent_trades stats).
  - now destruct (recent_trades stats).
Qed.

(** The two later stages of an update leave the counters and the window
    alone. *)
Lemma recalculate_metrics_fields stats :
  let stats' := fst (recalculate_metrics stats) in
  wins stats' = wins stats /\ losses stats' = losses stats /\
  recent_trades stats' = recent_trades stats /\
  enabled stats' = enabled stats.
Proof.
  unfold recalculate_metrics.
  destruct (0 <? _)%Z; [|simpl; auto].
  destruct (int_truediv _ _); [|simpl; auto].
  destruct (float_of_int _); simpl; auto.
  destruct (float_div _ _); simpl; auto.
Qed.

Lemma auto_disable_fields stats :
  wins (auto_disable stats) = wins stats /\
  losses (auto_disable stats) = losses stats /\
  recent_trades (auto_disable stats) = recent_trades stats /\
  win_rate (auto_disable stats) = win_rate stats.
Proof.
  unfold auto_disable.
  destruct (10 <=? _)%Z; [|auto].
  destruct (_ <? _); [simpl; auto|].
  destruct (_ && _); simpl; auto.
Qed.

Lemma update_stats_window stats pnl_ win_ :
  recent_trades (fst (update_stats stats pnl_ win_))
  = recent_trades (record_trade stats pnl_ win_).
Proof.
  unfold update_stats.
  pose proof (recalculate_metrics_fields (record_trade stats pnl_ win_)) as H.
  destruct (recalculate_metrics (record_trade stats pnl_ win_)) as [s [[]|e]];
    simpl in *; [|tauto].
  destruct (auto_disable_fields s) as (_ & _ & -> & _). tauto.
Qed.

Lemma update_stats_coherent stats pnl_ win_ :
  coherent (fst (update_stats stats pnl_ win_)).
Proof.
  right. rewrite update_stats_window. apply record_trade_window.
Qed.

Lemma init_coherent strategy_list : all_coherent (init strategy_list).
Proof.
  unfold all_coherent, init. simpl.
  generalize (fold_left (fun d s => PyDict.set (name s) s d) strategy_list PyDict.empty).
  intros d n stats. induction d as [|[k v] r IH]; simpl; [discriminate|].
  destruct (String.eqb n k); [|exact IH].
  intros [= <-]. now left.
Qed.

Lemma update_strategy_performance_coherent n pnl_ win_ self :
  all_coherent self ->
  all_coherent (fst (update_strategy_performance n pnl_ win_ self)).
Proof.
  intros Hall. unfold update_strategy_performance.
  destruct (PyDict.get n (strategy_stats self)) as [stats|] eqn:Hget; [|exact Hall].
  pose proof (update_stats_coherent stats pnl_ win_) as Hc.
  destruct (update_stats stats pnl_ win_) as [stats' r]. simpl in *.
  unfold all_coherent. simpl.
  intros k st. destruct (String.eqb_spec n k) as [<-|Hne].
  - rewrite PyDictFacts.get_set_same. now intros [= <-].
  - rewrite PyDictFacts.get_set_other by assumption. apply Hall.
Qed.

Lemma record_outcomes_coherent outcomes : forall self,
  all_coherent self -> all_coherent (record_outcomes self outcomes).
Proof.
  unfold record_outcomes.
  induction outcomes as [|o outcomes IH]; intros self H; simpl; [exact H|].
  apply IH. now apply update_strategy_performance_coherent.
Qed.

(** The code's two partial scores are the specification's. *)
Lemma regime_match_spec strategy_name regime regime_confidence :
  regime_match strategy_name regime * regime_confidence
  = spec_regime_score strategy_name regime regime_confidence.
Proof.
  unfold regime_match, spec_regime_score.
  destruct (index_of _ _); [|reflexivity].
  now rewrite (FloatOrder.mul_comm (int_to_float _) 0.2).
Qed.

Lemma performance_score_spec stats :
  coherent stats ->
  performance_score stats = Ok (spec_performance_score stats).
Proof.
  intros Hc. unfold performance_score, spec_performance_score.
  destruct (wins stats + losses stats =? 0)%Z eqn:Htot; [reflexivity|].
  destruct Hc as [Hz|Hne]; [apply Z.eqb_neq in Htot; contradiction|].
  unfold recent_win_rate, recent_avg_pnl.
  pose proof (@last_n_nonempty _ 10 (recent_trades stats) Hne ltac:(lia)) as Hrecent.
  destruct (last_n 10 (recent_trades stats)) as [|t recent] eqn:E; [contradiction|].
  rewrite int_truediv_small.
  - simpl. now rewrite (FloatOrder.mul_comm _ 0.6).
  - cbn [List.length]. lia.
  - pose proof (filter_length_le win (t :: recent)). lia.
Qed.

(** C7 (amended). In every selector state reached by recording outcomes,
    the score of a registered strategy is
    [clip(0.7 * regimeScore + 0.3 * performanceScore, 0, 1)], with
    [regimeScore] and [performanceScore] as the specification gives them;
    it is NaN or lies in [0, 1]; and a disabled strategy scores exactly 0.
    The clip is what keeps the value in range: the weighted sum itself can
    be negative. *)
Theorem calculate_strategy_score_formula strategy_list outcomes
    strategy_name regime regime_confidence stats :
  let self := record_outcomes (init strategy_list) outcomes in
  PyDict.get strategy_name (strategy_stats self) = Some stats ->
  let score := spec_score stats strategy_name regime regime_confidence in
  calculate_strategy_score self strategy_name regime regime_confidence = Ok score /\
  (is_nan score = true \/ ((0 <=? score) = true /\ (score <=? 1) = true)) /\
  (enabled stats = false -> score = 0).
Proof.
  intros self Hget score.
  assert (Hc : coherent stats).
  { apply (record_outcomes_coherent outcomes (init strategy_list)
             (init_coherent strategy_list) strategy_name stats Hget). }
  unfold score, spec_score, weighted_score. split; [|split].
  - unfold calculate_strategy_score. rewrite Hget.
    destruct (enabled stats); simpl; [|reflexivity].
    rewrite (performance_score_spec stats Hc). simpl.
    rewrite regime_match_spec.
    unfold regime_weight, performance_weight.
    now rewrite (FloatOrder.mul_comm _ 0.7), (FloatOrder.mul_comm _ 0.3).
  - destruct (enabled stats).
    + apply clip_unit_range.
    + right. split; reflexivity.
  - now intros ->.
Qed.

(** A strategy without history, second in the MIXED list, at confidence
    0.5: [0.7 * (0.8 * 0.5) + 0.3 * 0.5]. *)
Lemma calculate_strategy_score_formula_witness :
  calculate_strategy_score
    (record_outcomes
       (init [mkStrategy "Momentum Reversal"; mkStrategy "VWAP Reversion"])
       [("Momentum Reversal", -1000, false)])
    "VWAP Reversion" market_regime.MIXED 0.5
  = Ok 0.42999999999999994.
Proof.
  refine (proj1 (calculate_strategy_score_formula
                   [mkStrategy "Momentum Reversal"; mkStrategy "VWAP Reversion"]
                   [("Momentum Reversal", -1000, false)]
                   "VWAP Reversion" market_regime.MIXED 0.5 fresh_stats _)).
  vm_compute. reflexivity.
Defined.

(** C7 as stated fails after one loss of 1000: the strategy is enabled, the
    weighted sum is about -2.93, and the score returned is 0. *)
Lemma calculate_strategy_score_clipped :
  let self :=
    record_outcomes
      (init [mkStrategy "Momentum Reversal"; mkStrategy "VWAP Reversion"])
      [("Momentum Reversal", -1000, false)] in
  exists stats,
    PyDict.get "Momentum Reversal" (strategy_stats self) = Some stats /\
    enabled stats = true /\
    calculate_strategy_score self "Momentum Reversal" market_regime.MIXED 0.5 = Ok 0 /\
    (weighted_score stats "Momentum Reversal" market_regime.MIXED 0.5 <? 0) = true /\
    (0 =? weighted_score stats "Momentum Reversal" market_regime.MIXED 0.5) = false.
Proof.
  intros self. eexists. split; [vm_compute; reflexivity|].
  repeat split; vm_compute; reflexivity.
Qed.

(** *** Auto-disable and re-enable *)

Lemma update_stats_after stats pnl_ win_ :
  snd (update_stats stats pnl_ win_) = Ok tt ->
  exists s, recalculate_metrics (record_trade stats pnl_ win_) = (s, Ok tt) /\
            fst (update_stats stats pnl_ win_) = auto_disable s.
Proof.
  unfold update_stats.
  destruct (recalculate_metrics (record_trade stats pnl_ win_)) as [s [[]|e]];
    simpl; [eauto | discriminate].
Qed.

(** X13. Once at least 10 outcomes are recorded, an outcome that leaves the
    win rate below 0.35 disables the strategy. *)
Lemma update_stats_disables stats pnl_ win_ :
  let stats' := fst (update_stats stats pnl_ win_) in
  snd (update_stats stats pnl_ win_) = Ok tt ->
  (10 <= wins stats' + losses stats')%Z ->
  (win_rate stats' <? 0.35) = true ->
  enabled stats' = false.
Proof.
  intros stats' Hok. unfold stats'.
  destruct (update_stats_after stats pnl_ win_ Hok) as (s & _ & ->).
  destruct (auto_disable_fields s) as (-> & -> & _ & ->).
  intros Htot Hwr. unfold auto_disable.
  apply Z.leb_le in Htot. now rewrite Htot, Hwr.
Qed.

(** X14. A disabled strategy stays disabled after an outcome unless the
    win rate it leaves is above 0.45. *)
Lemma update_stats_stays_disabled stats pnl_ win_ :
  let stats' := fst (update_stats stats pnl_ win_) in
  enabled stats = false ->
  gtb (win_rate stats') 0.45 = false ->
  enabled stats' = false.
Proof.
  intros stats' Hoff. unfold stats', update_stats.
  pose proof (recalculate_metrics_fields (record_trade stats pnl_ win_)) as H.
  destruct (recalculate_metrics (record_trade stats pnl_ win_)) as [s [[]|e]];
    simpl in *; destruct H as (_ & _ & _ & He); [|intros _; now rewrite He].
  destruct (auto_disable_fields s) as (_ & _ & _ & ->).
  intros Hwr. unfold auto_disable.
  destruct (10 <=? _)%Z; [|now rewrite He].
  destruct (_ <? _); [reflexivity|].
  rewrite Hwr. simpl. now rewrite He.
Qed.

(** X15. A disabled strategy with at least 10 outcomes is re-enabled by an
    outcome that leaves the win rate above 0.45. *)
Lemma update_stats_reenables stats pnl_ win_ :
  let stats' := fst (update_stats stats pnl_ win_) in
  enabled stats = false ->
  snd (update_stats stats pnl_ win_) = Ok tt ->
  (10 <= wins stats' + losses stats')%Z ->
  gtb (win_rate stats') 0.45 = true ->
  enabled stats' = true.
Proof.
  intros stats' Hoff Hok. unfold stats'.
  destruct (update_stats_after stats pnl_ win_ Hok) as (s & Hs & ->).
  pose proof (recalculate_metrics_fields (record_trade stats pnl_ win_)) as H.
  rewrite Hs in H. simpl in H. destruct H as (_ & _ & _ & He).
  destruct (auto_disable_fields s) as (-> & -> & _ & ->).
  intros Htot Hwr. unfold auto_disable.
  apply Z.leb_le in Htot. rewrite Htot, Hwr, He, Hoff. simpl.
  destruct (win_rate s <? 0.35) eqn:Hlow; [|reflexivity].
  exfalso. unfold gtb in Hwr.
  pose proof (FloatOrder.ltb_trans 0.45 (win_rate s) 0.35 Hwr Hlow) as Habs.
  vm_compute in Habs. discriminate.
Qed.

(** C8 (the code at the failing input). A selector with a single
    registered strategy records 3 wins and 7 losses: the win rate is 0.3,
    the strategy is disabled and scores 0, and [select_strategy] still
    returns it, as the first maximum of a score table that holds nothing
    above 0. *)
Theorem select_strategy_returns_disabled :
  let self :=
    record_outcomes (init [mkStrategy "Momentum Reversal"])
      [ ("Momentum Reversal", 1, true); ("Momentum Reversal", 1, true);
        ("Momentum Reversal", 1, true); ("Momentum Reversal", -1, false);
        ("Momentum Reversal", -1, false); ("Momentum Reversal", -1, false);
        ("Momentum Reversal", -1, false); ("Momentum Reversal", -1, false);
        ("Momentum Reversal", -1, false); ("Momentum Reversal", -1, false) ] in
  let signals :=
    {| market_regime.volatility := 0.02;
       market_regime.trend_strength := 30;
       market_regime.volume_trend := 0;
       market_regime.orderbook_imbalance := 0;
       market_regime.funding_rate := 0;
       market_regime.funding_trend := 0;
       market_regime.rsi := 50;
       market_regime.price_momentum := 0.3;
       market_regime.liquidity_score := 0.5;
       market_regime.regime_persistence := 0 |} in
  (exists stats,
     PyDict.get "Momentum Reversal" (strategy_stats self) = Some stats /\
     (win_rate stats <? 0.35) = true /\ enabled stats = false) /\
  snd (select_strategy signals (Some 1700000000%Z) self)
  = Ok (Some ("Momentum Reversal", 0)).
Proof.
  intros self signals. split.
  - eexists. split; [vm_compute; reflexivity|]. split; vm_compute; reflexivity.
  - vm_compute. reflexivity.
Qed.

End StrategyFacts.

(** ** Reconciliation *)

Module ReconcileFacts.

Import Py risk_manager trading_bot.
Local Open Scope string_scope.
Local Open Scope float_scope.

Lemma in_set_In s l : in_set s l = true <-> In s l.
Proof.
  unfold in_set. rewrite existsb_exists. split.
  - intros (x & Hx & E). apply String.eqb_eq in E. now subst.
  - intros H. exists s. split; [assumption | apply String.eqb_refl].
Qed.

Lemma filter_none {A : Type} (f : A -> bool) (l : list A) :
  (forall x, In x l -> f x = false) -> filter f l = [].
Proof.
  induction l as [|a l IH]; simpl; intros H; [reflexivity|].
  rewrite (H a) by now left. apply IH. intros x Hx. apply H. now right.
Qed.

Lemma In_keys_del {V : Type} (d : PyDict.t V) s k :
  In k (PyDict.keys (PyDict.del s d)) <-> In k (PyDict.keys d) /\ s <> k.
Proof.
  rewrite PyDictFacts.keys_del, filter_In.
  destruct (String.eqb_spec s k); simpl; intuition congruence.
Qed.

(** Whatever the exchange answers, settling a held symbol removes it from
    the ledger. *)
Lemma settle_positions now user_trades s position rm :
  PyDict.get s (positions rm) = Some position ->
  positions (settle now user_trades s position rm) = PyDict.del s (positions rm).
Proof.
  intros Hget.
  assert (Hmem : PyDict.mem s (positions rm) = true)
    by (apply PyDictFacts.mem_get; eauto).
  unfold settle. destruct (user_trades s) as [[|first rest]|e].
  - reflexivity.
  - unfold close_position. rewrite Hget.
    destruct (realized_pnl_of _ _ _) as [[pnl_ pct]|e]; simpl.
    + reflexivity.
    + now rewrite Hmem.
  - now rewrite Hmem.
Qed.

(** The clean-up loop over distinct held symbols completes and removes
    exactly those symbols. *)
Lemma clean_up_removes now user_trades closed : forall rm,
  NoDup closed ->
  (forall s, In s closed -> In s (PyDict.keys (positions rm))) ->
  exists rm',
    clean_up now user_trades closed rm = (rm', Ok tt) /\
    forall k, In k (PyDict.keys (positions rm')) <->
              In k (PyDict.keys (positions rm)) /\ ~ In k closed.
Proof.
  induction closed as [|s rest IH]; intros rm Hnd Hheld; simpl.
  - exists rm. split; [reflexivity|]. intros k. tauto.
  - inversion Hnd as [|? ? Hs Hrest]; subst.
    assert (Hmem : PyDict.mem s (positions rm) = true)
      by (apply PyDictFacts.mem_In_keys, Hheld; now left).
    apply PyDictFacts.mem_get in Hmem. destruct Hmem as [position Hget].
    rewrite Hget.
    destruct (IH (settle now user_trades s position rm) Hrest) as (rm' & Hrun & Hkeys).
    { intros s' Hs'. rewrite (settle_positions now user_trades s position rm Hget).
      apply In_keys_del. split; [apply Hheld; now right|].
      intros ->. contradiction. }
    exists rm'. split; [exact Hrun|].
    intros k. rewrite Hkeys, (settle_positions now user_trades s position rm Hget).
    rewrite In_keys_del. intuition congruence.
Qed.

(** Marking leaves the history, the capital, the daily PnL and the set of
    held symbols alone. *)
Lemma update_position_frame s price rm :
  trades (update_position s price rm) = trades rm /\
  current_capital (update_position s price rm) = current_capital rm /\
  daily_pnl (update_position s price rm) = daily_pnl rm /\
  PyDict.keys (positions (update_position s price rm)) = PyDict.keys (positions rm).
Proof.
  unfold update_position.
  destruct (PyDict.get s (positions rm)) as [position|] eqn:Hget; [|tauto].
  simpl. repeat split.
  apply PyDictFacts.keys_set_mem, PyDictFacts.mem_get. eauto.
Qed.

Lemma update_marks_frame rows : forall rm,
  trades (update_marks rows rm) = trades rm /\
  current_capital (update_marks rows rm) = current_capital rm /\
  daily_pnl (update_marks rows rm) = daily_pnl rm /\
  PyDict.keys (positions (update_marks rows rm)) = PyDict.keys (positions rm).
Proof.
  unfold update_marks. induction rows as [|pos rows IH]; intros rm; simpl; [tauto|].
  destruct (neb (positionAmt pos) 0); [|apply IH].
  destruct (IH (update_position (symbol pos) (markPrice pos) rm)) as (-> & -> & -> & ->).
  apply update_position_frame.
Qed.

Lemma find_closed_spec active rm s :
  In s (find_closed active rm) <->
  In s (PyDict.keys (positions rm)) /\ ~ In s active.
Proof.
  unfold find_closed. rewrite filter_In, negb_true_iff.
  rewrite <- (in_set_In s active).
  destruct (in_set s active); intuition congruence.
Qed.

(** After one run every held symbol is on the exchange. *)
Lemma check_positions_settled now rows user_trades self :
  PyDict.wf (positions (risk_manager self)) ->
  find_closed (active_on_aster rows)
    (risk_manager (fst (check_positions now (Ok rows) user_trades self))) = [].
Proof.
  intros Hwf. unfold check_positions.
  set (active := active_on_aster rows).
  destruct (clean_up_removes now user_trades
              (find_closed active (risk_manager self)) (risk_manager self))
    as (rm' & Hrun & Hkeys).
  { unfold find_closed. now apply NoDup_filter. }
  { intros s Hs. now apply find_closed_spec in Hs. }
  rewrite Hrun. simpl. unfold find_closed at 1.
  destruct (update_marks_frame rows rm') as (_ & _ & _ & ->).
  apply filter_none. intros k Hk. apply Hkeys in Hk. destruct Hk as [Hk Hnot].
  apply negb_false_iff. destruct (in_set k active) eqn:E; [reflexivity|].
  exfalso. apply Hnot, find_closed_spec. split; [assumption|].
  rewrite <- in_set_In. congruence.
Qed.

(** C9. Reconciliation is idempotent: on a well-formed ledger, a second
    run of [check_positions] with the same exchange snapshot and the same
    fill data finds no closed position, cancels nothing, appends no trade,
    and leaves the capital, the daily PnL and the set of held symbols as
    the first run left them. *)
Theorem check_positions_idempotent now1 now2 aster_positions user_trades self :
  PyDict.wf (positions (risk_manager self)) ->
  let self1 := fst (check_positions now1 aster_positions user_trades self) in
  let second := check_positions now2 aster_positions user_trades self1 in
  closed_positions (snd second) = [] /\
  cancelled (snd second) = [] /\
  trades (risk_manager (fst second)) = trades (risk_manager self1) /\
  current_capital (risk_manager (fst second)) = current_capital (risk_manager self1) /\
  daily_pnl (risk_manager (fst second)) = daily_pnl (risk_manager self1) /\
  PyDict.keys (positions (risk_manager (fst second)))
  = PyDict.keys (positions (risk_manager self1)).
Proof.
  intros Hwf self1 second.
  destruct aster_positions as [rows|e]; [|simpl; tauto].
  pose proof (check_positions_settled now1 rows user_trades self Hwf) as Hnone.
  fold self1 in Hnone.
  unfold second, check_positions. rewrite Hnone. simpl.
  unfold cancel_requests. destruct (dry_run self1); simpl;
    (split; [reflexivity|]); (split; [reflexivity|]);
    apply update_marks_frame.
Qed.

(** Two tracked positions, of which the exchange still reports ETHUSDT;
    the fills of BTCUSDT carry a realised PnL of 12.5. *)
Lemma check_positions_idempotent_witness :
  let rm := run (init_default 0 1000)
              [ Open 0 "BTCUSDT" "LONG" 50000 0.01 10 49000 None "scalp";
                Open 1 "ETHUSDT" "SHORT" 3000 0.5 20 3050 None "fade" ] in
  let self := {| risk_manager := rm; dry_run := true |} in
  let snapshot :=
    Ok [ {| symbol := "ETHUSDT"; positionAmt := -0.5; markPrice := 2990 |};
         {| symbol := "BTCUSDT"; positionAmt := 0; markPrice := 51000 |} ] in
  let fills := fun s =>
    if String.eqb s "BTCUSDT"
    then Ok [ {| price := Some 51000; realizedPnl := Some 12.5 |} ]
    else Raise RequestError in
  let first := check_positions 2 snapshot fills self in
  let second := check_positions 3 snapshot fills (fst first) in
  closed_positions (snd first) = ["BTCUSDT"] /\
  List.length (trades (risk_manager (fst first))) = 1%nat /\
  closed_positions (snd second) = [] /\
  trades (risk_manager (fst second)) = trades (risk_manager (fst first)) /\
  current_capital (risk_manager (fst second)) = 1012.5.
Proof.
  intros rm self snapshot fills first second.
  split; [vm_compute; reflexivity|].
  split; [vm_compute; reflexivity|].
  destruct (check_positions_idempotent 2 3 snapshot fills self) as (H1 & _ & H2 & H3 & _).
  - vm_compute. repeat constructor; simpl; intuition discriminate.
  - split; [exact H1|]. split; [exact H2|].
    fold first in H3. fold second in H3. rewrite H3.
    vm_compute. reflexivity.
Defined.

End ReconcileFacts.

(** ** The ledger over sequences of calls, triggers and statistics *)

Module LedgerFacts.

Import Py risk_manager FloatOrder.
Local Open Scope string_scope.
Local Open Scope float_scope.

(** *** How one call changes the books *)

Lemma reset_daily_stats_books now rm :
  trades (reset_daily_stats now rm) = trades rm /\
  current_capital (reset_daily_stats now rm) = current_capital rm /\
  initial_capital (reset_daily_stats now rm) = initial_capital rm /\
  max_open_positions (reset_daily_stats now rm) = max_open_positions rm.
Proof. unfold reset_daily_stats. now destruct (_ <? _)%Z. Qed.

(** Opening books nothing. *)
Lemma open_position_books now symbol side entry_price quantity leverage
    stop_loss take_profit strategy rm :
  let r := open_position now symbol side entry_price quantity leverage
             stop_loss take_profit strategy rm in
  trades (fst r) = trades rm /\
  current_capital (fst r) = current_capital rm /\
  initial_capital (fst r) = initial_capital rm /\
  max_open_positions (fst r) = max_open_positions rm.
Proof.
  unfold open_position.
  pose proof (RiskFacts.can_open_position_state now symbol rm) as Hst.
  destruct (can_open_position now symbol rm) as [rm1 allowed].
  simpl in Hst. subst rm1.
  destruct (reset_daily_stats_books now rm) as (Ht & Hc & Hi & Hm).
  destruct allowed; simpl;
    [destruct (calculate_liquidation_price _ _ _ _); simpl;
     [destruct (stop_beyond_liquidation _ _ _); simpl|] |];
    auto.
Qed.

(** A call books at most one trade, at the end of the history, and adds
    that trade's PnL to the capital. *)
Lemma step_books rm c :
  initial_capital (step rm c) = initial_capital rm /\
  max_open_positions (step rm c) = max_open_positions rm /\
  ((trades (step rm c) = trades rm /\
    current_capital (step rm c) = current_capital rm) \/
   exists trade,
     trades (step rm c) = (trades rm ++ [trade])%list /\
     current_capital (step rm c) = current_capital rm + Trade.pnl trade).
Proof.
  destruct c as [now symbol side e q l sl tp st | symbol price
                 | now symbol exit_price st realized]; simpl.
  - destruct (open_position_books now symbol side e q l sl tp st rm)
      as (Ht & Hc & Hi & Hm). auto.
  - unfold update_position.
    destruct (PyDict.get symbol (positions rm)); simpl; auto.
  - unfold close_position.
    destruct (PyDict.get symbol (positions rm)); [|auto].
    destruct (realized_pnl_of _ _ _) as [[pnl_ pct]|]; simpl; [|auto].
    repeat split. right. eexists. split; reflexivity.
Qed.

Lemma run_books calls : forall rm,
  initial_capital (run rm calls) = initial_capital rm /\
  max_open_positions (run rm calls) = max_open_positions rm /\
  exists booked,
    trades (run rm calls) = (trades rm ++ booked)%list /\
    current_capital (run rm calls)
    = fold_left PrimFloat.add (map Trade.pnl booked) (current_capital rm).
Proof.
  unfold run. induction calls as [|c calls IH]; intros rm; simpl.
  - repeat split. exists []. now rewrite app_nil_r.
  - destruct (IH (step rm c)) as (Hi & Hm & booked & Ht & Hc).
    destruct (step_books rm c) as (Hi1 & Hm1 & Hstep).
    rewrite Hi, Hm, Ht, Hc. repeat split; auto.
    destruct Hstep as [[Ht1 Hc1] | (trade & Ht1 & Hc1)]; rewrite Ht1, Hc1.
    + now exists booked.
    + exists (trade :: booked). now rewrite <- app_assoc.
Qed.

Lemma capital_curve_from_last pnls : forall start d,
  last (start :: capital_curve_from start pnls) d = fold_left PrimFloat.add pnls start.
Proof.
  induction pnls as [|p rest IH]; intros start d; [reflexivity|].
  change (fold_left PrimFloat.add (p :: rest) start)
    with (fold_left PrimFloat.add rest (start + p)).
  rewrite <- (IH (start + p) d). reflexivity.
Qed.

(** X1. In every state reached from a fresh ledger by open / update-mark /
    close calls the initial capital is untouched, the current capital is
    the initial capital plus the PnL of every booked trade, added one by
    one in booking order, and the capital curve that [get_statistics]
    rebuilds from the history ends at the current capital. *)
Theorem capital_is_sum_of_booked_pnl now0 capital maxlev rpt mdl mop mrr calls :
  let rm := run (init now0 capital maxlev rpt mdl mop mrr) calls in
  initial_capital rm = capital /\
  current_capital rm = fold_left PrimFloat.add (map Trade.pnl (trades rm)) capital /\
  last (capital_curve rm) capital = current_capital rm.
Proof.
  intros rm.
  destruct (run_books calls (init now0 capital maxlev rpt mdl mop mrr))
    as (Hi & _ & booked & Ht & Hc).
  fold rm in Hi, Ht, Hc. simpl in Hi, Ht, Hc.
  assert (Hsum : current_capital rm
                 = fold_left PrimFloat.add (map Trade.pnl (trades rm)) capital)
    by now rewrite Ht.
  repeat split; auto.
  unfold capital_curve. rewrite Hi, Hsum.
  apply capital_curve_from_last.
Qed.

(** *** Capacity *)

Lemma len_set_mem {V} (d : PyDict.t V) k v :
  PyDict.mem k d = true -> PyDict.len (PyDict.set k v d) = PyDict.len d.
Proof.
  intros H. unfold PyDict.len. f_equal.
  rewrite <- !(length_map fst). fold (PyDict.keys (PyDict.set k v d)).
  fold (PyDict.keys d). now rewrite PyDictFacts.keys_set_mem.
Qed.

Lemma len_set_new {V} (d : PyDict.t V) k v :
  PyDict.mem k d = false -> (PyDict.len (PyDict.set k v d) = PyDict.len d + 1)%Z.
Proof.
  intros H. unfold PyDict.len.
  rewrite <- !(length_map fst). fold (PyDict.keys (PyDict.set k v d)).
  fold (PyDict.keys d). rewrite PyDictFacts.keys_set_new by assumption.
  rewrite length_app. simpl. lia.
Qed.

Lemma len_del {V} (d : PyDict.t V) k : (PyDict.len (PyDict.del k d) <= PyDict.len d)%Z.
Proof.
  unfold PyDict.len, PyDict.del.
  pose proof (filter_length_le (fun kv => negb (String.eqb k (fst kv))) d). lia.
Qed.

(** What a passed admission test says about the state. *)
Lemma can_open_position_true now symbol rm :
  snd (can_open_position now symbol rm) = true ->
  (PyDict.len (positions rm) < max_open_positions rm)%Z /\
  PyDict.mem symbol (positions rm) = false.
Proof.
  unfold can_open_position.
  destruct (reset_daily_stats_books now rm) as (_ & _ & _ & Hm).
  rewrite RiskFacts.reset_daily_stats_positions, Hm.
  destruct (_ <? _); [discriminate|].
  destruct (Z.leb_spec (max_open_positions rm) (PyDict.len (positions rm)));
    [discriminate|].
  destruct (PyDict.mem symbol (positions rm)); [discriminate|].
  split; [assumption | reflexivity].
Qed.

Lemma step_capacity rm c :
  (PyDict.len (positions (step rm c))
   <= Z.max (PyDict.len (positions rm)) (max_open_positions rm))%Z.
Proof.
  destruct c as [now symbol side e q l sl tp st | symbol price
                 | now symbol exit_price st realized]; simpl.
  - destruct (RiskFacts.open_position_cases now symbol side e q l sl tp st rm)
      as [(_ & Hp & _) | [(x & _ & _ & Hp & _) | (liq & Hopen & _ & _ & _ & Hp & _)]];
      rewrite Hp; try lia.
    apply can_open_position_true in Hopen. destruct Hopen as [Hlen Hnew].
    rewrite len_set_new by assumption. lia.
  - unfold update_position.
    destruct (PyDict.get symbol (positions rm)) as [position|] eqn:Hget; [|lia].
    simpl. rewrite len_set_mem; [lia|].
    apply PyDictFacts.mem_get. eauto.
  - unfold close_position.
    destruct (PyDict.get symbol (positions rm)); [|apply Z.le_max_l].
    destruct (realized_pnl_of _ _ _) as [[pnl_ pct]|]; [|apply Z.le_max_l].
    cbn [fst positions].
    etransitivity; [apply len_del | apply Z.le_max_l].
Qed.

Lemma run_capacity calls : forall rm,
  (PyDict.len (positions (run rm calls))
   <= Z.max (PyDict.len (positions rm)) (max_open_positions rm))%Z.
Proof.
  unfold run. induction calls as [|c calls IH]; intros rm;
    [apply Z.le_max_l|]. cbn [fold_left].
  specialize (IH (step rm c)).
  destruct (step_books rm c) as (_ & Hm & _). rewrite Hm in IH.
  pose proof (step_capacity rm c). lia.
Qed.

(** X2. A ledger that starts empty never holds more positions than
    [max_open_positions] (none at all when that bound is negative),
    whatever calls are made. *)
Theorem open_positions_within_capacity now0 capital maxlev rpt mdl mop mrr calls :
  (PyDict.len (positions (run (init now0 capital maxlev rpt mdl mop mrr) calls))
   <= Z.max 0 mop)%Z.
Proof.
  apply (run_capacity calls (init now0 capital maxlev rpt mdl mop mrr)).
Qed.

(** *** Every held position keeps its stop inside its liquidation price *)

Lemma step_bracket_safe rm c : all_bracket_safe rm -> all_bracket_safe (step rm c).
Proof.
  intros Hall. unfold all_bracket_safe.
  destruct c as [now symbol side e q l sl tp st | symbol price
                 | now symbol exit_price st realized]; simpl.
  - destruct (RiskFacts.open_position_cases now symbol side e q l sl tp st rm)
      as [(_ & Hp & _) | [(x & _ & _ & Hp & _) | (liq & _ & Hliq & Hstop & _ & Hp & _)]];
      rewrite Hp; auto.
    intros k p. destruct (String.eqb_spec symbol k) as [<-|Hne].
    + rewrite PyDictFacts.get_set_same. intros [= <-].
      exists sl, liq. repeat split; assumption.
    + rewrite PyDictFacts.get_set_other by assumption. apply Hall.
  - unfold update_position.
    destruct (PyDict.get symbol (positions rm)) as [position|] eqn:Hget; auto.
    simpl. intros k p. destruct (String.eqb_spec symbol k) as [<-|Hne].
    + rewrite PyDictFacts.get_set_same. intros [= <-].
      exact (Hall symbol position Hget).
    + rewrite PyDictFacts.get_set_other by assumption. apply Hall.
  - unfold close_position.
    destruct (PyDict.get symbol (positions rm)) as [position|] eqn:Hget; auto.
    destruct (realized_pnl_of _ _ _) as [[pnl_ pct]|]; simpl; auto.
    intros k p. destruct (String.eqb_spec symbol k) as [<-|Hne].
    + now rewrite PyDictFacts.get_del_same.
    + rewrite PyDictFacts.get_del_other by assumption. apply Hall.
Qed.

Lemma run_bracket_safe calls : forall rm,
  all_bracket_safe rm -> all_bracket_safe (run rm calls).
Proof.
  unfold run. induction calls as [|c calls IH]; intros rm H; simpl; auto.
  apply IH, step_bracket_safe, H.
Qed.

(** X3. Every position held after any sequence of calls on a fresh ledger
    carries a stop and the liquidation price computed from its own entry
    price, leverage and side, and the stop is not at or beyond that
    liquidation price: marking to market and closing other symbols never
    break what [open_position] checked. *)
Theorem held_stop_inside_liquidation now0 capital maxlev rpt mdl mop mrr calls k p :
  PyDict.get k (positions (run (init now0 capital maxlev rpt mdl mop mrr) calls)) = Some p ->
  bracket_safe p.
Proof.
  apply (run_bracket_safe calls (init now0 capital maxlev rpt mdl mop mrr)).
  intros k' p'. discriminate.
Qed.

Lemma held_stop_inside_liquidation_witness :
  bracket_safe
    (Position.set_unrealized_pnl
       (new_position 0 "BTCUSDT" "LONG" 50000 0.01 10 49000 None "scalp" 45250)
       5).
Proof.
  apply (held_stop_inside_liquidation 0 1000 50 0.02 0.10 5 1.5
           [ Open 0 "BTCUSDT" "LONG" 50000 0.01 10 49000 None "scalp";
             Open 1 "ETHUSDT" "SHORT" 3000 0.5 20 3050 None "fade";
             UpdateMark "BTCUSDT" 50500;
             Close 3 "ETHUSDT" 2990 "fade" None ]
           "BTCUSDT").
  vm_compute. reflexivity.
Defined.

(** *** Opening and closing at once *)

Lemma del_set_new {V} (d : PyDict.t V) k v :
  PyDict.mem k d = false -> PyDict.del k (PyDict.set k v d) = d.
Proof.
  unfold PyDict.mem, PyDict.del. induction d as [|[k' v'] r IH]; simpl.
  - now rewrite String.eqb_refl.
  - destruct (String.eqb_spec k k') as [->|Hne]; simpl; [discriminate|].
    intros H. destruct (String.eqb_spec k k'); [congruence|]. simpl.
    now rewrite IH.
Qed.

(** X4. Opening a position and closing it again, when both calls succeed,
    puts the position map back exactly as it was (same symbols, same
    order) and appends one trade that carries the symbol, side, entry
    price, quantity, leverage and entry time of the open call and the
    exit time and strategy of the close call. *)
Theorem open_then_close_restores_positions now now' symbol side entry_price
    quantity leverage stop_loss take_profit strategy exit_price strategy'
    realized_pnl rm position trade :
  let opened := open_position now symbol side entry_price quantity leverage
                  stop_loss take_profit strategy rm in
  let closed := close_position now' symbol exit_price strategy' realized_pnl
                  (fst opened) in
  snd opened = Ok (Some position) ->
  snd closed = Ok (Some trade) ->
  positions (fst closed) = positions rm /\
  trades (fst closed) = (trades rm ++ [trade])%list /\
  Trade.symbol trade = symbol /\
  Trade.side trade = side /\
  Trade.entry_price trade = entry_price /\
  Trade.quantity trade = quantity /\
  Trade.leverage trade = leverage /\
  Trade.entry_time trade = now /\
  Trade.exit_time trade = now' /\
  Trade.strategy trade = strategy'.
Proof.
  intros opened closed. subst closed opened. intros Hopen Hclose.
  destruct (open_position_books now symbol side entry_price quantity leverage
              stop_loss take_profit strategy rm) as (Ht & _).
  destruct (RiskFacts.open_position_cases now symbol side entry_price quantity
              leverage stop_loss take_profit strategy rm)
    as [(H1 & _) | [(x & _ & H1 & _) | (liq & Hgate & _ & _ & H1 & Hp & _)]];
    try congruence.
  apply can_open_position_true in Hgate. destruct Hgate as [_ Hnew].
  revert Hclose. unfold close_position. rewrite Hp, PyDictFacts.get_set_same.
  destruct (realized_pnl_of _ _ _) as [[pnl_ pct]|]; [|discriminate].
  cbn [fst snd positions trades]. intros [= <-]. rewrite Ht.
  rewrite del_set_new by assumption. repeat split.
Qed.

Lemma open_then_close_restores_positions_witness :
  let rm := run (init 0 1000 50 0.02 0.10 5 1.5)
              [ Open 0 "ETHUSDT" "SHORT" 3000 0.5 20 3050 None "fade" ] in
  let opened := open_position 1 "BTCUSDT" "LONG" 50000 0.01 10 49000 None "scalp" rm in
  let closed := close_position 2 "BTCUSDT" 50500 "manual" None (fst opened) in
  exists trade,
    snd closed = Ok (Some trade) /\
    positions (fst closed) = positions rm /\
    trades (fst closed) = (trades rm ++ [trade])%list /\
    Trade.side trade = "LONG".
Proof.
  intros rm opened closed. eexists. split; [vm_compute; reflexivity|].
  pose proof (open_then_close_restores_positions 1 2 "BTCUSDT" "LONG" 50000 0.01 10
                49000 None "scalp" 50500 "manual" None rm _ _
                ltac:(vm_compute; reflexivity) ltac:(vm_compute; reflexivity)) as H.
  cbv zeta in H. destruct H as (H1 & H2 & _ & H3 & _).
  repeat split; assumption.
Defined.

(** *** Stop and target triggers *)

(** X5. For a held position whose stop and target bracket the market the
    right way round (stop below target for a LONG, target below stop for
    any other side) no price triggers [check_stop_loss] and
    [check_take_profit] together. *)
Theorem stop_and_target_exclusive symbol current_price rm position sl tp :
  PyDict.get symbol (positions rm) = Some position ->
  Position.stop_loss position = Some sl ->
  Position.take_profit position = Some tp ->
  (if String.eqb (Position.side position) "LONG" then sl <? tp else tp <? sl) = true ->
  check_stop_loss symbol current_price rm
  && check_take_profit symbol current_price rm = false.
Proof.
  intros Hget Hsl Htp Hbracket.
  unfold check_stop_loss, check_take_profit, geb. rewrite Hget, Hsl, Htp.
  destruct (String.eqb (Position.side position) "LONG").
  - destruct (current_price <=? sl) eqn:Hstop; [simpl | reflexivity].
    apply ltb_leb_swap. exact (leb_ltb_trans _ _ _ Hstop Hbracket).
  - destruct (current_price <=? tp) eqn:Htarget; [| apply andb_false_r].
    rewrite andb_true_r.
    apply ltb_leb_swap. exact (leb_ltb_trans _ _ _ Htarget Hbracket).
Qed.

Lemma stop_and_target_exclusive_witness :
  let rm := run (init 0 1000 50 0.02 0.10 5 1.5)
              [ Open 0 "ETHUSDT" "SHORT" 3000 0.5 20 3050 (Some 2900) "fade" ] in
  check_stop_loss "ETHUSDT" 3050 rm && check_take_profit "ETHUSDT" 3050 rm = false.
Proof.
  intros rm.
  eapply (stop_and_target_exclusive "ETHUSDT" 3050 rm);
    vm_compute; reflexivity.
Defined.

(** X6. Marking a position to market never changes what
    [check_stop_loss] and [check_take_profit] answer, for any symbol and
    price. *)
Theorem update_position_keeps_triggers symbol mark_price other current_price rm :
  check_stop_loss other current_price (update_position symbol mark_price rm)
  = check_stop_loss other current_price rm /\
  check_take_profit other current_price (update_position symbol mark_price rm)
  = check_take_profit other current_price rm.
Proof.
  unfold update_position, check_stop_loss, check_take_profit.
  destruct (PyDict.get symbol (positions rm)) as [position|] eqn:Hget; [|tauto].
  simpl. destruct (String.eqb_spec symbol other) as [<-|Hne].
  - rewrite PyDictFacts.get_set_same, Hget. split; reflexivity.
  - rewrite PyDictFacts.get_set_other by assumption. split; reflexivity.
Qed.

(** *** Statistics *)

Lemma sign_partition (ts : list Trade.t) :
  (List.length (filter (fun t => gtb (Trade.pnl t) 0) ts)
   + List.length (filter (fun t => (Trade.pnl t <=? 0)%float) ts)
   + List.length (filter (fun t => is_nan (Trade.pnl t)) ts)
   = List.length ts)%nat.
Proof.
  induction ts as [|t ts IH]; [reflexivity|].
  pose proof (sign_cases (Trade.pnl t)) as H.
  cbn [filter]. unfold gtb at 1.
  destruct (0 <? Trade.pnl t), (Trade.pnl t <=? 0), (is_nan (Trade.pnl t));
    cbn [Nat.b2n] in H; try discriminate H; cbn [List.length]; lia.
Qed.

Lemma get_statistics_counts rm s :
  get_statistics rm = Ok s ->
  stat_total_trades s = Z.of_nat (List.length (trades rm)) /\
  stat_winning_trades s
  = Z.of_nat (List.length (filter (fun t => gtb (Trade.pnl t) 0) (trades rm))) /\
  stat_losing_trades s
  = Z.of_nat (List.length (filter (fun t => Trade.pnl t <=? 0) (trades rm))).
Proof.
  unfold get_statistics. destruct (trades rm) as [|t ts] eqn:Ht.
  - intros [= <-]. repeat split.
  - destruct (drawdown_loop _ _ _) as [pm|]; [|discriminate]. cbn [bind].
    destruct (float_div _ _) as [r|]; [|discriminate]. cbn [bind].
    intros [= <-]. repeat split.
Qed.

(** X7. In the statistics of a ledger the winning and the losing trades
    do not always add up to the total: a trade whose PnL is NaN is counted
    in the total and in neither class, and the three counts together are
    the total. *)
Theorem statistics_partition rm s :
  get_statistics rm = Ok s ->
  (stat_winning_trades s + stat_losing_trades s
   + Z.of_nat (List.length (filter (fun t => is_nan (Trade.pnl t)) (trades rm)))
   = stat_total_trades s)%Z.
Proof.
  intros H. destruct (get_statistics_counts rm s H) as (-> & -> & ->).
  pose proof (sign_partition (trades rm)). lia.
Qed.

Lemma statistics_partition_witness :
  let rm := run (init 0 1000 50 0.02 0.10 5 1.5)
              [ Open 0 "BTCUSDT" "LONG" 50000 0.01 10 49000 None "scalp";
                Close 1 "BTCUSDT" 50500 "scalp" None;
                Open 2 "ETHUSDT" "SHORT" 3000 0.5 20 3050 None "fade";
                Close 3 "ETHUSDT" nan "fade" None;
                Open 4 "SOLUSDT" "LONG" 100 1 10 95 None "scalp";
                Close 5 "SOLUSDT" 98 "scalp" None ] in
  exists s,
    get_statistics rm = Ok s /\
    (stat_winning_trades s + stat_losing_trades s
     + Z.of_nat (List.length (filter (fun t => is_nan (Trade.pnl t)) (trades rm)))
     = stat_total_trades s)%Z /\
    stat_winning_trades s = 1%Z /\ stat_losing_trades s = 1%Z /\
    stat_total_trades s = 3%Z.
Proof.
  intros rm. eexists. split; [vm_compute; reflexivity|].
  split; [apply (statistics_partition rm); vm_compute; reflexivity|].
  repeat split.
Defined.

(** The drawdown loop divides by the running peak, which never falls
    below where it started. *)
Lemma drawdown_loop_positive_peak curve : forall peak max_dd,
  (0 <? peak) = true -> exists r, drawdown_loop peak max_dd curve = Ok r.
Proof.
  induction curve as [|capital rest IH]; intros peak max_dd Hpeak; simpl; eauto.
  set (peak' := if gtb capital peak then capital else peak).
  assert (Hpeak' : (0 <? peak') = true).
  { subst peak'. unfold gtb. destruct (peak <? capital) eqn:E; [|assumption].
    exact (ltb_trans _ _ _ Hpeak E). }
  unfold float_div. rewrite (ltb_zero_neq _ Hpeak'). cbn [bind].
  apply IH, Hpeak'.
Qed.

(** X8. With a positive initial capital [get_statistics] always returns:
    the drawdown loop divides by a peak that starts at the initial capital
    and only moves up, and the ROI divides by the initial capital. *)
Theorem get_statistics_positive_capital rm :
  (0 <? initial_capital rm) = true -> exists s, get_statistics rm = Ok s.
Proof.
  intros Hcap. unfold get_statistics. destruct (trades rm) as [|t ts]; eauto.
  destruct (drawdown_loop_positive_peak (capital_curve rm) (initial_capital rm) 0 Hcap)
    as [pm ->].
  cbn [bind]. unfold float_div. rewrite (ltb_zero_neq _ Hcap). cbn [bind]. eauto.
Qed.

Lemma get_statistics_positive_capital_witness :
  exists s,
    get_statistics
      (run (init 0 1000 50 0.02 0.10 5 1.5)
         [ Open 0 "BTCUSDT" "LONG" 50000 0.01 10 49000 None "scalp";
           Close 1 "BTCUSDT" 1 "scalp" (Some (-2500)) ]) = Ok s.
Proof.
  apply get_statistics_positive_capital. vm_compute. reflexivity.
Defined.

(** X9. With an initial capital of zero (of either sign) and at least
    one booked trade [get_statistics] raises [ZeroDivisionError], in the
    first turn of the drawdown loop. *)
Theorem get_statistics_zero_capital rm :
  (initial_capital rm =? 0) = true ->
  trades rm <> [] ->
  get_statistics rm = Raise ZeroDivisionError.
Proof.
  intros Hzero Hsome. unfold get_statistics.
  destruct (trades rm) as [|t ts]; [congruence|].
  assert (Hloop : drawdown_loop (initial_capital rm) 0 (capital_curve rm)
                  = Raise ZeroDivisionError).
  { unfold capital_curve. cbn [drawdown_loop].
    unfold gtb at 1 2 3. rewrite ltb_irrefl.
    unfold float_div. now rewrite Hzero. }
  now rewrite Hloop.
Qed.

Lemma get_statistics_zero_capital_witness :
  let held :=
    PyDict.set "BTCUSDT"
      (new_position 0 "BTCUSDT" "LONG" 50000 0.01 10 49000 None "synced" 45250)
      PyDict.empty in
  get_statistics
    (run (set_positions (init 0 0 50 0.02 0.10 5 1.5) held)
       [ Close 1 "BTCUSDT" 50500 "synced" None ]) = Raise ZeroDivisionError.
Proof.
  apply get_statistics_zero_capital; vm_compute; [reflexivity | discriminate].
Defined.

(** *** Degenerate requests *)

Lemma num_div_cases (a b : number) :
  num_div a b = Raise ZeroDivisionError \/ exists q, num_div a b = Ok q.
Proof.
  unfold num_div, float_div. destruct (is_numpy a || is_numpy b); [eauto|].
  destruct (num_value b =? 0); cbn [bind]; eauto.
Qed.






(** X11. A leverage of 0 is never validated: [calculate_position_size]
    and [calculate_stop_loss] raise [ZeroDivisionError] for every other
    argument, and [open_position] either refuses at a gate or raises
    [ZeroDivisionError]; it never stores a position. *)
Theorem zero_leverage_raises rm now symbol side entry_price stop_loss quantity
    take_profit strategy atr tight sized_entry sized_stop volatility :
  calculate_position_size rm symbol sized_entry sized_stop 0 volatility
  = Raise ZeroDivisionError /\
  calculate_stop_loss rm entry_price side atr 0 tight = Raise ZeroDivisionError /\
  let r := open_position now symbol side entry_price quantity 0 stop_loss
             take_profit strategy rm in
  positions (fst r) = positions rm /\
  (snd r = Ok None \/ snd r = Raise ZeroDivisionError).
Proof.
  split; [|split].
  - unfold calculate_position_size.
    destruct (num_div_cases (num_abs (num_sub sized_entry sized_stop)) sized_entry)
      as [->|[stop_distance ->]]; [reflexivity|]. cbn [bind].
    destruct (num_div_cases (risk_amount_for rm volatility) stop_distance)
      as [->|[position_value ->]]; [reflexivity|]. cbn [bind].
    destruct (num_div_cases position_value sized_entry)
      as [->|[sized ->]]; reflexivity.
  - unfold calculate_stop_loss.
    change (int_truediv (0 - 10) 100) with (Ok (truediv_value (-10) 100)).
    change (float_of_int 0) with (Ok 0).
    cbn [bind]. unfold float_div.
    change (0 =? 0) with true. reflexivity.
  - intros r. subst r.
    destruct (RiskFacts.open_position_cases now symbol side entry_price quantity 0
                stop_loss take_profit strategy rm)
      as [(H1 & Hp & _) | [(x & _ & H1 & Hp & Hliq) | (liq & _ & Hliq & _)]].
    + auto.
    + split; [exact Hp|]. right. rewrite H1. f_equal.
      unfold calculate_liquidation_price in Hliq.
      destruct (String.eqb side "LONG"); simpl in Hliq; congruence.
    + unfold calculate_liquidation_price in Hliq.
      destruct (String.eqb side "LONG"); simpl in Hliq; discriminate.
Qed.

(** *** The daily reset *)

(** X12. Once more than a day has passed since the last reset, and the
    daily-loss limit [initial_capital * max_daily_loss] is not negative,
    [can_open_position] clears the daily PnL and trade count, restarts the
    day at the current time, and answers by the three other gates alone
    (capacity, symbol not held, capital above half the initial capital),
    whatever the loss of the day before. *)
Theorem reset_releases_daily_breaker now symbol rm :
  (one_day < now - last_reset rm)%Z ->
  (0 <=? initial_capital rm * max_daily_loss rm) = true ->
  let r := can_open_position now symbol rm in
  daily_pnl (fst r) = 0 /\
  daily_trades (fst r) = 0%Z /\
  last_reset (fst r) = now /\
  snd r = negb (max_open_positions rm <=? PyDict.len (positions rm))%Z
          && negb (PyDict.mem symbol (positions rm))
          && negb (current_capital rm <=? initial_capital rm * 0.5).
Proof.
  intros Hday Hlimit r. subst r.
  rewrite RiskFacts.can_open_position_state.
  unfold can_open_position, reset_daily_stats.
  replace (one_day <? now - last_reset rm)%Z with true
    by (symmetry; apply Z.ltb_lt; exact Hday).
  cbn [daily_pnl daily_trades last_reset initial_capital max_daily_loss
       max_open_positions positions current_capital].
  rewrite (opp_nonneg _ Hlimit).
  repeat split.
  destruct (max_open_positions rm <=? PyDict.len (positions rm))%Z; [reflexivity|].
  destruct (PyDict.mem symbol (positions rm)); [reflexivity|].
  destruct (current_capital rm <=? initial_capital rm * 0.5); reflexivity.
Qed.

Lemma reset_releases_daily_breaker_witness :
  let rm := run (init 0 1000 50 0.02 0.02 5 1.5)
              [ Open 0 "BTCUSDT" "LONG" 50000 0.01 10 49000 None "scalp";
                Close 1 "BTCUSDT" 47000 "scalp" (Some (-30)) ] in
  snd (can_open_position 2 "ETHUSDT" rm) = false /\
  snd (can_open_position (one_day + 1) "ETHUSDT" rm) = true.
Proof.
  intros rm. split; [vm_compute; reflexivity|].
  destruct (reset_releases_daily_breaker (one_day + 1) "ETHUSDT" rm
              ltac:(vm_compute; reflexivity) ltac:(vm_compute; reflexivity))
    as (_ & _ & _ & ->).
  vm_compute. reflexivity.
Defined.

End LedgerFacts.

(** ** The selector over sequences of outcomes, selection and analysis *)

Module SelectorFacts.

Import Py strategy_selector FloatOrder ListFacts.
Local Open Scope string_scope.
Local Open Scope float_scope.

(** *** One strategy's statistics over its outcomes *)

Lemma recalculate_metrics_total_pnl stats :
  total_pnl (fst (recalculate_metrics stats)) = total_pnl stats.
Proof.
  unfold recalculate_metrics.
  destruct (0 <? _)%Z; [|reflexivity].
  destruct (int_truediv _ _); [|reflexivity].
  destruct (float_of_int _); simpl; auto.
  destruct (float_div _ _); simpl; auto.
Qed.

Lemma auto_disable_total_pnl stats : total_pnl (auto_disable stats) = total_pnl stats.
Proof.
  unfold auto_disable.
  destruct (10 <=? _)%Z; [|auto].
  destruct (_ <? _); [simpl; auto|].
  destruct (_ && _); simpl; auto.
Qed.

(** The window [record_trade] leaves is the last 20 of the old window and
    the new outcome, whether or not it had to cut. *)
Lemma record_trade_recent stats pnl_ win_ :
  recent_trades (record_trade stats pnl_ win_)
  = last_n 20 (recent_trades stats ++ [ {| pnl := pnl_; win := win_ |} ]).
Proof.
  unfold record_trade. cbn [recent_trades].
  destruct (Z.ltb_spec 20 (Z.of_nat (List.length
             (recent_trades stats ++ [ {| pnl := pnl_; win := win_ |} ]))));
    [reflexivity|].
  symmetry. apply last_n_all. lia.
Qed.

(** What one update does to the counters, the total and the window. *)
Lemma update_stats_books stats pnl_ win_ :
  let stats' := fst (update_stats stats pnl_ win_) in
  wins stats' = (if win_ then wins stats + 1 else wins stats)%Z /\
  losses stats' = (if win_ then losses stats else losses stats + 1)%Z /\
  total_pnl stats' = total_pnl stats + pnl_ /\
  recent_trades stats'
  = last_n 20 (recent_trades stats ++ [ {| pnl := pnl_; win := win_ |} ]).
Proof.
  intros stats'. subst stats'. rewrite <- record_trade_recent.
  unfold update_stats.
  pose proof (StrategyFacts.recalculate_metrics_fields (record_trade stats pnl_ win_)) as H.
  pose proof (recalculate_metrics_total_pnl (record_trade stats pnl_ win_)) as Ht.
  destruct (recalculate_metrics (record_trade stats pnl_ win_)) as [s [[]|e]];
    cbn [fst] in *; destruct H as (Hw & Hl & Hr & _).
  - destruct (StrategyFacts.auto_disable_fields s) as (-> & -> & -> & _).
    rewrite auto_disable_total_pnl, Hw, Hl, Hr, Ht. repeat split.
  - rewrite Hw, Hl, Hr, Ht. repeat split.
Qed.

Lemma outcomes_of_cons n name_ pnl_ win_ outcomes :
  outcomes_of n ((name_, pnl_, win_) :: outcomes)
  = if String.eqb name_ n
    then {| pnl := pnl_; win := win_ |} :: outcomes_of n outcomes
    else outcomes_of n outcomes.
Proof. unfold outcomes_of. cbn. now destruct (String.eqb name_ n). Qed.

Lemma record_outcomes_books outcomes : forall self n s,
  PyDict.get n (strategy_stats self) = Some s ->
  (List.length (recent_trades s) <= 20)%nat ->
  exists s',
    PyDict.get n (strategy_stats (record_outcomes self outcomes)) = Some s' /\
    wins s' = (wins s + Z.of_nat (List.length (filter win (outcomes_of n outcomes))))%Z /\
    losses s'
    = (losses s
       + Z.of_nat (List.length
                     (filter (fun t => negb (win t)) (outcomes_of n outcomes))))%Z /\
    total_pnl s'
    = fold_left PrimFloat.add (map pnl (outcomes_of n outcomes)) (total_pnl s) /\
    recent_trades s' = last_n 20 (recent_trades s ++ outcomes_of n outcomes).
Proof.
  unfold record_outcomes.
  induction outcomes as [|[[name_ pnl_] win_] outcomes IH]; intros self n s Hget Hlen.
  - exists s. cbn. rewrite app_nil_r, (last_n_all 20 _ Hlen).
    repeat split; auto; lia.
  - cbn [fold_left fst snd]. rewrite outcomes_of_cons.
    unfold update_strategy_performance at 2.
    destruct (String.eqb_spec name_ n) as [->|Hne].
    + rewrite Hget.
      pose proof (update_stats_books s pnl_ win_) as Hs.
      destruct (update_stats s pnl_ win_) as [s1 r1]. cbn [fst] in *.
      destruct Hs as (Hw & Hl & Ht & Hr).
      destruct (IH {| strategies := strategies self;
                      regime_detector := regime_detector self;
                      strategy_stats := PyDict.set n s1 (strategy_stats self) |}
                  n s1) as (s' & Hget' & Hw' & Hl' & Ht' & Hr').
      { cbn [strategy_stats]. apply PyDictFacts.get_set_same. }
      { rewrite Hr, last_n_length. lia. }
      exists s'. split; [exact Hget'|].
      rewrite Hw', Hl', Ht', Hr', Hw, Hl, Ht, Hr.
      rewrite last_n_app, <- app_assoc.
      destruct win_; cbn [map filter win pnl negb List.length fold_left];
        repeat split; try reflexivity; lia.
    + destruct (PyDict.get name_ (strategy_stats self)) as [other|] eqn:Hother.
      * destruct (update_stats other pnl_ win_) as [s1 r1]. cbn [fst].
        apply IH; [|exact Hlen].
        cbn [strategy_stats]. now rewrite PyDictFacts.get_set_other.
      * cbn [fst]. now apply IH.
Qed.

Lemma init_stats strategy_list n s :
  PyDict.get n (strategy_stats (init strategy_list)) = Some s -> s = fresh_stats.
Proof.
  unfold init. simpl.
  generalize (fold_left (fun d s => PyDict.set (name s) s d) strategy_list PyDict.empty).
  intros d. induction d as [|[k v] r IH]; simpl; [discriminate|].
  destruct (String.eqb n k); [|exact IH].
  now intros [= <-].
Qed.

(** X16. After any sequence of recorded outcomes the statistics of a
    registered strategy are those of the outcomes recorded under its name,
    in order: [wins] and [losses] count them, [total_pnl] is their PnL
    added one by one from 0, and the window holds the last 20 of them.
    Outcomes under other or unknown names change nothing. *)
Theorem statistics_follow_outcomes strategy_list outcomes strategy_name stats :
  PyDict.get strategy_name
    (strategy_stats (record_outcomes (init strategy_list) outcomes)) = Some stats ->
  let mine := outcomes_of strategy_name outcomes in
  wins stats = Z.of_nat (List.length (filter win mine)) /\
  losses stats = Z.of_nat (List.length (filter (fun t => negb (win t)) mine)) /\
  total_pnl stats = fold_left PrimFloat.add (map pnl mine) 0 /\
  recent_trades stats = last_n 20 mine.
Proof.
  intros Hget mine.
  destruct (PyDict.get strategy_name (strategy_stats (init strategy_list)))
    as [s0|] eqn:H0.
  - pose proof (init_stats _ _ _ H0) as ->.
    destruct (record_outcomes_books outcomes (init strategy_list) strategy_name
                fresh_stats H0 ltac:(simpl; lia))
      as (s' & Hget' & Hw & Hl & Ht & Hr).
    rewrite Hget in Hget'. injection Hget' as <-.
    rewrite Hw, Hl, Ht, Hr. repeat split.
  - exfalso. revert Hget. generalize (init strategy_list) H0. clear H0.
    unfold record_outcomes.
    induction outcomes as [|[[name_ pnl_] win_] outcomes IH]; intros self H0;
      cbn [fold_left fst snd]; [congruence|].
    apply IH. unfold update_strategy_performance.
    destruct (PyDict.get name_ (strategy_stats self)) as [other|] eqn:Hother;
      [|exact H0].
    destruct (update_stats other pnl_ win_) as [s1 r1]. cbn [fst strategy_stats].
    rewrite PyDictFacts.get_set_other; [exact H0|]. congruence.
Qed.

Lemma statistics_follow_outcomes_witness :
  exists stats,
    PyDict.get "VWAP Reversion"
      (strategy_stats
         (record_outcomes
            (init [mkStrategy "Momentum Reversal"; mkStrategy "VWAP Reversion"])
            [ ("VWAP Reversion", 12.5, true); ("Momentum Reversal", -3, false);
              ("Unknown", 99, true); ("VWAP Reversion", -4.25, false) ]))
    = Some stats /\
    wins stats = 1%Z /\ losses stats = 1%Z /\ total_pnl stats = 8.25 /\
    recent_trades stats
    = [ {| pnl := 12.5; win := true |}; {| pnl := -4.25; win := false |} ].
Proof.
  eexists. split; [vm_compute; reflexivity|].
  exact (statistics_follow_outcomes
           [mkStrategy "Momentum Reversal"; mkStrategy "VWAP Reversion"]
           [ ("VWAP Reversion", 12.5, true); ("Momentum Reversal", -3, false);
             ("Unknown", 99, true); ("VWAP Reversion", -4.25, false) ]
           "VWAP Reversion" _ eq_refl).
Defined.

(** *** Selection *)

(** The scan of [max]: the result is the start or a later item strictly
    above the start, and no item compares above the result. *)
Lemma max_from_spec {K : Type} (items : list (K * float)) : forall best,
  let m := max_from best items in
  (m = best \/ (In m items /\ (snd best <? snd m) = true)) /\
  forall x, In x items -> gtb (snd x) (snd m) = false.
Proof.
  induction items as [|y rest IH]; intros best; cbn [max_from].
  - cbv zeta. split; [now left | intros x []].
  - unfold gtb at 1. cbv zeta. unfold gtb in *.
    destruct (snd best <? snd y) eqn:E.
    + destruct (IH y) as (Hin & Hrest). cbv zeta in Hin, Hrest. split.
      * right. destruct Hin as [->|[Hin Hlt]]; [split; [now left | exact E]|].
        split; [now right | exact (ltb_trans _ _ _ E Hlt)].
      * intros x [<-|Hx]; [|now apply Hrest].
        destruct Hin as [->|[_ Hlt]]; [apply ltb_irrefl|].
        destruct (snd (max_from y rest) <? snd y) eqn:E2; [|reflexivity].
        pose proof (ltb_trans _ _ _ Hlt E2) as H. now rewrite ltb_irrefl in H.
    + destruct (IH best) as (Hin & Hrest). cbv zeta in Hin, Hrest. split.
      * destruct Hin as [->|[Hin Hlt]]; [now left|].
        right. split; [now right | exact Hlt].
      * intros x [<-|Hx]; [|now apply Hrest].
        destruct Hin as [->|[_ Hlt]]; [exact E|].
        destruct (snd (max_from best rest) <? snd y) eqn:E2; [|reflexivity].
        pose proof (ltb_trans _ _ _ Hlt E2) as H. congruence.
Qed.

Lemma max_by_value_spec {K : Type} (items : list (K * float)) :
  match max_by_value items with
  | None => items = []
  | Some best =>
      In best items /\ forall x, In x items -> gtb (snd x) (snd best) = false
  end.
Proof.
  destruct items as [|y rest]; [reflexivity|]. cbn [max_by_value].
  destruct (max_from_spec rest y) as (Hin & Hrest). cbv zeta in *. split.
  - destruct Hin as [->|[Hin _]]; [now left | now right].
  - intros x [<-|Hx]; [|now apply Hrest].
    destruct Hin as [->|[_ Hlt]]; [apply ltb_irrefl|].
    unfold gtb. destruct (snd (max_from y rest) <? snd y) eqn:E2; [|reflexivity].
    pose proof (ltb_trans _ _ _ Hlt E2) as H. now rewrite ltb_irrefl in H.
Qed.

(** The statistics are kept under the names of the registered strategies. *)
Lemma record_outcomes_keys outcomes : forall self,
  PyDict.keys (strategy_stats self) = PyDict.keys (strategies self) ->
  PyDict.keys (strategy_stats (record_outcomes self outcomes))
  = PyDict.keys (strategies (record_outcomes self outcomes)).
Proof.
  unfold record_outcomes.
  induction outcomes as [|[[name_ pnl_] win_] outcomes IH]; intros self H;
    cbn [fold_left fst snd]; [exact H|].
  apply IH. unfold update_strategy_performance.
  destruct (PyDict.get name_ (strategy_stats self)) as [other|] eqn:Hother;
    [|exact H].
  destruct (update_stats other pnl_ win_) as [s1 r1]. cbn [fst strategy_stats strategies].
  rewrite PyDictFacts.keys_set_mem; [exact H|].
  apply PyDictFacts.mem_get. eauto.
Qed.

Lemma init_keys strategy_list :
  PyDict.keys (strategy_stats (init strategy_list))
  = PyDict.keys (strategies (init strategy_list)).
Proof.
  unfold init. cbn [strategy_stats strategies]. unfold PyDict.keys.
  rewrite map_map. reflexivity.
Qed.

(** A registered strategy with coherent statistics always gets a score,
    which does not depend on the detector's state. *)
Lemma calculate_strategy_score_total self n regime regime_confidence :
  all_coherent self ->
  In n (PyDict.keys (strategy_stats self)) ->
  exists score,
    calculate_strategy_score self n regime regime_confidence = Ok score.
Proof.
  intros Hall Hin. apply PyDictFacts.mem_In_keys, PyDictFacts.mem_get in Hin.
  destruct Hin as [stats Hget].
  unfold calculate_strategy_score. rewrite Hget.
  destruct (enabled stats); cbn [negb]; [|eauto].
  rewrite (StrategyFacts.performance_score_spec stats (Hall n stats Hget)).
  cbn [bind]. eauto.
Qed.

Lemma score_all_total self regime regime_confidence names :
  all_coherent self ->
  (forall n, In n names -> In n (PyDict.keys (strategy_stats self))) ->
  exists scores,
    score_all self names regime regime_confidence = Ok scores /\
    map fst scores = names /\
    forall n score, In (n, score) scores ->
      calculate_strategy_score self n regime regime_confidence = Ok score.
Proof.
  intros Hall. induction names as [|n names IH]; intros Hnames; cbn [score_all].
  - exists []. repeat split. intros n score [].
  - destruct (calculate_strategy_score_total self n regime regime_confidence Hall)
      as [score Hscore]; [apply Hnames; now left|].
    destruct IH as (scores & Hscores & Hfst & Hall'); [intros k Hk; apply Hnames; now right|].
    rewrite Hscore, Hscores. cbn [bind].
    exists ((n, score) :: scores). repeat split; [cbn; now rewrite Hfst|].
    intros k sc [[= <- <-]|Hk]; [exact Hscore | now apply Hall'].
Qed.

(** X17. On every selector reached by recording outcomes
    [select_strategy] does not raise: it scores every registered strategy,
    in registration order, and returns [None] exactly when none is
    registered; otherwise it returns a strategy of the table together with
    its own score, and no strategy of the table scores strictly higher. *)
Theorem select_strategy_first_maximum strategy_list outcomes signals timestamp :
  let self := record_outcomes (init strategy_list) outcomes in
  let regime :=
    snd (market_regime.update_regime signals timestamp (regime_detector self)) in
  exists scores,
    score_all self (PyDict.keys (strategies self)) (fst regime) (snd regime)
    = Ok scores /\
    map fst scores = PyDict.keys (strategies self) /\
    snd (select_strategy signals timestamp self) = Ok (max_by_value scores) /\
    match max_by_value scores with
    | None => PyDict.keys (strategies self) = []
    | Some best =>
        In best scores /\
        calculate_strategy_score self (fst best) (fst regime) (snd regime)
        = Ok (snd best) /\
        forall other, In other scores -> gtb (snd other) (snd best) = false
    end.
Proof.
  intros self regime.
  assert (Hall : all_coherent self)
    by apply (StrategyFacts.record_outcomes_coherent outcomes (init strategy_list)
                (StrategyFacts.init_coherent strategy_list)).
  pose proof (record_outcomes_keys outcomes (init strategy_list)
                (init_keys strategy_list)) as Hkeys.
  fold self in Hkeys.
  destruct (score_all_total self (fst regime) (snd regime)
              (PyDict.keys (strategies self)) Hall)
    as (scores & Hscores & Hfst & Hhas); [intros n; now rewrite Hkeys|].
  exists scores. split; [exact Hscores|]. split; [exact Hfst|]. split.
  - unfold select_strategy. subst regime.
    destruct (market_regime.update_regime signals timestamp (regime_detector self))
      as [detector [r c]].
    cbn [fst snd strategies] in *.
    replace (score_all _ (PyDict.keys (strategies self)) r c) with (Ok scores);
      [reflexivity|].
    rewrite <- Hscores. clear.
    induction (PyDict.keys (strategies self)) as [|n names IH]; [reflexivity|].
    cbn [score_all]. rewrite IH. reflexivity.
  - pose proof (max_by_value_spec scores) as Hmax.
    destruct (max_by_value scores) as [[n score]|].
    + destruct Hmax as [Hin Hmax]. repeat split; auto.
    + subst scores. now rewrite <- Hfst.
Qed.

(** *** Analysis with the best strategy *)

Lemma insert_by_score_In x y sorted :
  In y (insert_by_score x sorted) <-> y = x \/ In y sorted.
Proof.
  induction sorted as [|z rest IH]; cbn [insert_by_score].
  - cbn. intuition congruence.
  - destruct (gtb (snd z) (snd x)); cbn [In]; [rewrite IH|]; intuition congruence.
Qed.

Lemma sorted_by_score_In y items : In y (sorted_by_score items) <-> In y items.
Proof.
  induction items as [|x rest IH]; cbn [sorted_by_score]; [tauto|].
  rewrite insert_by_score_In, IH. cbn. intuition congruence.
Qed.

(** A signal that comes out of the loop comes from an item of the table
    whose score is not below 0.2, with the metadata written over what the
    strategy answered. *)
Lemma try_in_order_sound analyze funding_history regime self signal items :
  try_in_order analyze funding_history regime self items = Some signal ->
  exists strategy_name confidence raw,
    In (strategy_name, confidence) items /\
    (confidence <? 0.2) = false /\
    analyze strategy_name (analyze_call strategy_name funding_history)
    = Ok (Some raw) /\
    signal = PyDict.set "market_regime" (Str (market_regime.regime_value regime))
               (PyDict.set "selection_confidence" (Num confidence)
                  (PyDict.set "selected_strategy" (Str strategy_name) raw)).
Proof.
  induction items as [|[n c] rest IH]; cbn [try_in_order]; [discriminate|].
  assert (Hrest : try_in_order analyze funding_history regime self rest = Some signal ->
                  exists strategy_name confidence raw,
                    In (strategy_name, confidence) ((n, c) :: rest) /\
                    (confidence <? 0.2) = false /\
                    analyze strategy_name (analyze_call strategy_name funding_history)
                    = Ok (Some raw) /\
                    signal = PyDict.set "market_regime" (Str (market_regime.regime_value regime))
                               (PyDict.set "selection_confidence" (Num confidence)
                                  (PyDict.set "selected_strategy" (Str strategy_name) raw))).
  { intros H. destruct (IH H) as (n' & c' & raw & Hin & Hrest).
    exists n', c', raw. split; [now right | exact Hrest]. }
  destruct (c <? 0.2) eqn:Hc; [exact Hrest|].
  destruct (PyDict.get n (strategies self)); [|exact Hrest].
  unfold try_strategy.
  destruct (analyze n (analyze_call n funding_history)) as [[[|item raw]|]|e] eqn:Han;
    try exact Hrest.
  destruct (_ && _); [|exact Hrest].
  intros [= <-]. exists n, c, (item :: raw).
  split; [now left|]. split; [exact Hc|]. split; [exact Han | reflexivity].
Qed.

(** X18. On every selector reached by recording outcomes
    [analyze_with_best_strategy] does not raise, and a signal it returns
    names in its metadata a registered strategy that is enabled, that
    strategy's score, which is not below 0.2, and the regime of this
    update: a disabled strategy, whose score is 0, is never used. *)
Theorem analyze_with_best_strategy_skips_disabled strategy_list outcomes signals
    timestamp funding_history analyze :
  let self := record_outcomes (init strategy_list) outcomes in
  let regime :=
    snd (market_regime.update_regime signals timestamp (regime_detector self)) in
  exists answer,
    snd (analyze_with_best_strategy signals timestamp funding_history analyze self)
    = Ok answer /\
    forall signal, answer = Some signal ->
      exists strategy_name confidence stats,
        PyDict.get "selected_strategy" signal = Some (Str strategy_name) /\
        PyDict.get "selection_confidence" signal = Some (Num confidence) /\
        PyDict.get "market_regime" signal = Some (Str (market_regime.regime_value (fst regime))) /\
        calculate_strategy_score self strategy_name (fst regime) (snd regime)
        = Ok confidence /\
        (confidence <? 0.2) = false /\
        PyDict.get strategy_name (strategy_stats self) = Some stats /\
        enabled stats = true.
Proof.
  intros self regime.
  assert (Hall : all_coherent self)
    by apply (StrategyFacts.record_outcomes_coherent outcomes (init strategy_list)
                (StrategyFacts.init_coherent strategy_list)).
  pose proof (record_outcomes_keys outcomes (init strategy_list)
                (init_keys strategy_list)) as Hkeys.
  fold self in Hkeys.
  destruct (score_all_total self (fst regime) (snd regime)
              (PyDict.keys (strategies self)) Hall)
    as (scores & Hscores & Hfst & Hhas); [intros n; now rewrite Hkeys|].
  unfold analyze_with_best_strategy. subst regime.
  destruct (market_regime.update_regime signals timestamp (regime_detector self))
    as [detector [r c]].
  cbn [fst snd strategies] in *.
  replace (score_all _ (PyDict.keys (strategies self)) r c) with (Ok scores).
  2:{ rewrite <- Hscores. clear.
      induction (PyDict.keys (strategies self)) as [|n names IH]; [reflexivity|].
      cbn [score_all]. rewrite IH. reflexivity. }
  cbn [bind]. eexists. split; [reflexivity|].
  intros signal Hsignal.
  destruct (try_in_order_sound _ _ _ _ _ _ Hsignal)
    as (n & conf & raw & Hin & Hconf & _ & ->).
  apply (proj1 (sorted_by_score_In _ _)) in Hin.
  pose proof (Hhas n conf Hin) as Hscore.
  exists n, conf.
  assert (Hstats : exists stats, PyDict.get n (strategy_stats self) = Some stats /\
                                 enabled stats = true).
  { revert Hscore. unfold calculate_strategy_score.
    destruct (PyDict.get n (strategy_stats self)) as [stats|]; [|discriminate].
    destruct (enabled stats) eqn:Hon; [eauto|].
    cbn [negb]. intros [= E]. subst conf. vm_compute in Hconf. discriminate. }
  destruct Hstats as (stats & Hget & Hon). exists stats.
  repeat split; auto.
  - rewrite !PyDictFacts.get_set_other by discriminate.
    apply PyDictFacts.get_set_same.
  - rewrite PyDictFacts.get_set_other by discriminate.
    apply PyDictFacts.get_set_same.
  - apply PyDictFacts.get_set_same.
Qed.

(** Three strategies, the first disabled after 3 wins in 10; the second
    answers without an entry price, so the third is used. *)
Lemma analyze_with_best_strategy_skips_disabled_witness :
  let self :=
    record_outcomes
      (init [ mkStrategy "Momentum Reversal"; mkStrategy "VWAP Reversion";
              mkStrategy "Funding Arbitrage" ])
      [ ("Momentum Reversal", 1, true); ("Momentum Reversal", 1, true);
        ("Momentum Reversal", 1, true); ("Momentum Reversal", -1, false);
        ("Momentum Reversal", -1, false); ("Momentum Reversal", -1, false);
        ("Momentum Reversal", -1, false); ("Momentum Reversal", -1, false);
        ("Momentum Reversal", -1, false); ("Momentum Reversal", -1, false) ] in
  let signals :=
    {| market_regime.volatility := 0.02;
       market_regime.trend_strength := 30;
       market_regime.volume_trend := 0;
       market_regime.orderbook_imbalance := 0;
       market_regime.funding_rate := 0;
       market_regime.funding_trend := 0;
       market_regime.rsi := 50;
       market_regime.price_momentum := 0.3;
       market_regime.liquidity_score := 0.5;
       market_regime.regime_persistence := 0 |} in
  let analyze := fun (n : string) (call : AnalyzeCall) =>
    if String.eqb n "VWAP Reversion"
    then Ok (Some [("action", Str "SHORT")])
    else Ok (Some [("action", Str "LONG"); ("entry_price", Num 2)]) in
  exists signal stats,
    snd (analyze_with_best_strategy signals (Some 5%Z) false analyze self)
    = Ok (Some signal) /\
    PyDict.get "selected_strategy" signal = Some (Str "Funding Arbitrage") /\
    PyDict.get "Funding Arbitrage" (strategy_stats self) = Some stats /\
    enabled stats = true.
Proof.
  intros self signals analyze.
  destruct (analyze_with_best_strategy_skips_disabled
              [ mkStrategy "Momentum Reversal"; mkStrategy "VWAP Reversion";
                mkStrategy "Funding Arbitrage" ]
              [ ("Momentum Reversal", 1, true); ("Momentum Reversal", 1, true);
                ("Momentum Reversal", 1, true); ("Momentum Reversal", -1, false);
                ("Momentum Reversal", -1, false); ("Momentum Reversal", -1, false);
                ("Momentum Reversal", -1, false); ("Momentum Reversal", -1, false);
                ("Momentum Reversal", -1, false); ("Momentum Reversal", -1, false) ]
              signals (Some 5%Z) false analyze)
    as (answer & Hanswer & Hsignal).
  assert (Hrun : snd (analyze_with_best_strategy signals (Some 5%Z) false analyze self)
                 = Ok (Some [ ("action", Str "LONG"); ("entry_price", Num 2);
                              ("selected_strategy", Str "Funding Arbitrage");
                              ("selection_confidence", Num 0.28999999999999998);
                              ("market_regime", Str "mixed") ]))
    by (vm_compute; reflexivity).
  fold self in Hanswer. rewrite Hrun in Hanswer. injection Hanswer as <-.
  destruct (Hsignal _ eq_refl) as (n & c & stats & Hn & _ & _ & _ & _ & Hstats & Hon).
  injection Hn as <-.
  exists [ ("action", Str "LONG"); ("entry_price", Num 2);
           ("selected_strategy", Str "Funding Arbitrage");
           ("selection_confidence", Num 0.28999999999999998);
           ("market_regime", Str "mixed") ], stats.
  split; [exact Hrun|]. split; [reflexivity|]. split; assumption.
Defined.

(** *** Auto-disable and re-enable on examples *)

(** Three wins and six losses, then a seventh loss: 3/10 is below 0.35. *)
Lemma update_stats_disables_witness :
  let stats :=
    fold_left (fun s o => fst (update_stats s (fst o) (snd o)))
      [ (1, true); (1, true); (1, true); (-1, false); (-1, false);
        (-1, false); (-1, false); (-1, false); (-1, false) ] fresh_stats in
  enabled stats = true /\ enabled (fst (update_stats stats (-1) false)) = false.
Proof.
  intros stats. split; [vm_compute; reflexivity|].
  apply StrategyFacts.update_stats_disables;
    [vm_compute; reflexivity | vm_compute; discriminate | vm_compute; reflexivity].
Defined.

(** Disabled at 3/10, then a win: 4/11 is not above 0.45. *)
Lemma update_stats_stays_disabled_witness :
  let stats :=
    fold_left (fun s o => fst (update_stats s (fst o) (snd o)))
      [ (1, true); (1, true); (1, true); (-1, false); (-1, false);
        (-1, false); (-1, false); (-1, false); (-1, false); (-1, false) ]
      fresh_stats in
  enabled (fst (update_stats stats 1 true)) = false.
Proof.
  intros stats.
  apply StrategyFacts.update_stats_stays_disabled; vm_compute; reflexivity.
Defined.

(** Disabled at 3/10, two wins later still disabled at 5/12, and
    re-enabled by the next win: 6/13 is above 0.45. *)
Lemma update_stats_reenables_witness :
  let stats :=
    fold_left (fun s o => fst (update_stats s (fst o) (snd o)))
      [ (1, true); (1, true); (1, true); (-1, false); (-1, false);
        (-1, false); (-1, false); (-1, false); (-1, false); (-1, false);
        (1, true); (1, true) ]
      fresh_stats in
  enabled stats = false /\ enabled (fst (update_stats stats 1 true)) = true.
Proof.
  intros stats. split; [vm_compute; reflexivity|].
  apply StrategyFacts.update_stats_reenables;
    [vm_compute; reflexivity | vm_compute; reflexivity
     | vm_compute; discriminate | vm_compute; reflexivity].
Defined.

End SelectorFacts.

(** ** The detector over sequences of updates *)

Module DetectorFacts.

Import Py market_regime ListFacts.
Local Open Scope string_scope.
Local Open Scope float_scope.

(** *** The state after updates *)

Lemma update_regime_state signals timestamp self :
  let d := fst (update_regime signals timestamp self) in
  let rc := detect_regime self signals in
  snd (update_regime signals timestamp self) = rc /\
  current_regime d = fst rc /\
  regime_confidence d = snd rc /\
  regime_history d
  = if truthy_timestamp timestamp
    then last_n 1000
           (regime_history self
            ++ [(match timestamp with Some ts => ts | None => 0%Z end, fst rc, snd rc)])
    else regime_history self.
Proof.
  unfold update_regime. destruct (detect_regime self signals) as [r c].
  cbn [fst snd current_regime regime_confidence regime_history].
  repeat split. destruct timestamp as [ts|]; cbn [truthy_timestamp]; [|reflexivity].
  destruct (ts =? 0)%Z; cbn [negb]; [reflexivity|].
  destruct (Z.ltb_spec 1000 (Z.of_nat (List.length (regime_history self ++ [(ts, r, c)]))));
    [reflexivity|].
  symmetry. apply last_n_all. lia.
Qed.

Lemma run_updates_snoc self updates u :
  run_updates self (updates ++ [u])
  = fst (update_regime (fst u) (snd u) (run_updates self updates)).
Proof. unfold run_updates. now rewrite fold_left_app. Qed.

(** X19. After any sequence of updates of a fresh detector, every entry
    of the history carries one of the four named regimes and a confidence
    in [0, 1]; the history holds one entry per update made with a truthy
    timestamp ([None] and [0] record nothing), up to 1000; and once an
    update has been made the current regime and confidence are such a
    pair too. *)
Theorem run_updates_history updates :
  let d := run_updates init updates in
  forallb entry_classified (regime_history d) = true /\
  Z.of_nat (List.length (regime_history d))
  = Z.min 1000
      (Z.of_nat (List.length (filter (fun u => truthy_timestamp (snd u)) updates))) /\
  (updates <> [] -> classified (current_regime d, regime_confidence d) = true).
Proof.
  induction updates as [|u updates IH] using rev_ind.
  - cbn. repeat split. congruence.
  - cbv zeta in *. rewrite run_updates_snoc.
    set (d := run_updates init updates) in *.
    destruct IH as (Hall & Hlen & _).
    destruct (update_regime_state (fst u) (snd u) d) as (_ & Hr & Hc & Hh).
    cbv zeta in Hr, Hc, Hh. rewrite Hr, Hc, Hh.
    pose proof (RegimeFacts.detect_regime_classified d (fst u)) as Hcl.
    rewrite filter_app, length_app. cbn [filter].
    destruct (truthy_timestamp (snd u)); cbn [List.length].
    + split; [|split].
      * apply forallb_last_n. rewrite forallb_app, Hall. cbn [forallb andb].
        unfold entry_classified. cbn [fst snd].
        now rewrite <- surjective_pairing, Hcl.
      * rewrite last_n_length, length_app. cbn [List.length]. lia.
      * intros _. now rewrite <- surjective_pairing.
    + split; [exact Hall|]. split; [rewrite Hlen; f_equal; lia|].
      intros _. now rewrite <- surjective_pairing.
Qed.

(** *** The persistence signal *)

Lemma persistence_table (k : nat) :
  (k <= 20)%nat ->
  let p := int_to_float (Z.of_nat k) / 20.0 in
  (0 <=? p) = true /\ (p <=? 1) = true /\ gtb p 0.6 = (13 <=? k)%nat.
Proof.
  intros Hk.
  do 21 (destruct k as [|k]; [vm_compute; repeat split|]).
  exfalso. lia.
Qed.

(** X20. The persistence signal lies in [0, 1] for every state of the
    detector, and it exceeds the 0.6 at which [detect_regime] boosts the
    confidence exactly when at least 13 of the last 20 history entries
    carry the current regime. *)
Theorem regime_persistence_range self :
  let p := regime_persistence_of self in
  let same :=
    List.length
      (filter (fun r => regime_eqb (snd (fst r)) (current_regime self))
         (last_n 20 (regime_history self))) in
  (0 <=? p) = true /\ (p <=? 1) = true /\ gtb p 0.6 = (13 <=? same)%nat.
Proof.
  intros p same. subst p. unfold regime_persistence_of.
  destruct (regime_history self) as [|e h] eqn:Hh.
  - subst same. vm_compute. repeat split.
  - apply persistence_table. subst same.
    etransitivity; [apply filter_length_le|].
    rewrite last_n_length. lia.
Qed.

(** *** Regime statistics *)

Lemma total_count_set counts key n :
  total_count (PyDict.set key n counts)
  = (total_count counts
     - match PyDict.get key counts with Some old => old | None => 0 end + n)%Z.
Proof.
  unfold total_count, PyDict.values.
  induction counts as [|[k v] r IH]; cbn [PyDict.set PyDict.get map fold_right snd].
  - lia.
  - destruct (String.eqb key k); cbn [map fold_right snd]; [lia|].
    rewrite IH. lia.
Qed.

Lemma count_regime_total counts entry :
  total_count (count_regime counts entry) = (total_count counts + 1)%Z.
Proof.
  unfold count_regime. cbv zeta. rewrite total_count_set.
  destruct (PyDict.get _ counts); lia.
Qed.

Lemma fold_count_total entries : forall counts,
  total_count (fold_left count_regime entries counts)
  = (total_count counts + Z.of_nat (List.length entries))%Z.
Proof.
  induction entries as [|e entries IH]; intros counts; cbn [fold_left List.length].
  - lia.
  - rewrite IH, count_regime_total. lia.
Qed.

Lemma fold_count_get entries : forall counts key,
  PyDict.get key (fold_left count_regime entries counts)
  = match PyDict.get key counts with
    | Some n => Some (n + occurrences key entries)%Z
    | None => if (occurrences key entries =? 0)%Z then None
              else Some (occurrences key entries)
    end.
Proof.
  unfold occurrences.
  induction entries as [|e entries IH]; intros counts key; cbn [fold_left filter].
  - cbn. destruct (PyDict.get key counts); [f_equal; lia | reflexivity].
  - rewrite IH. unfold count_regime at 1.
    destruct (String.eqb_spec (regime_value (snd (fst e))) key) as [->|Hne].
    + rewrite PyDictFacts.get_set_same. cbn [List.length].
      rewrite Nat2Z.inj_succ.
      destruct (PyDict.get _ counts) as [n|]; [f_equal; lia|].
      match goal with |- context [(?x =? 0)%Z] => destruct (Z.eqb_spec x 0) end;
        [lia | f_equal; lia].
    + rewrite PyDictFacts.get_set_other by assumption. reflexivity.
Qed.

Lemma fold_count_wf entries : forall counts,
  PyDict.wf counts -> PyDict.wf (fold_left count_regime entries counts).
Proof.
  induction entries as [|e entries IH]; intros counts H; cbn [fold_left]; [exact H|].
  apply IH. unfold count_regime. now apply PyDictFacts.wf_set.
Qed.

(** X21. When there is history, [get_regime_stats] reports its length as
    [total_updates]; the distribution has one key per regime value seen in
    the last 100 entries, each with the number of those entries, and no
    other key; and the counts add up to [min(100, total_updates)]. *)
Theorem get_regime_stats_counts self stats :
  get_regime_stats self = Some stats ->
  let recent := last_n 100 (regime_history self) in
  total_updates stats = Z.of_nat (List.length (regime_history self)) /\
  total_count (regime_distribution stats) = Z.min 100 (total_updates stats) /\
  PyDict.wf (regime_distribution stats) /\
  forall key,
    PyDict.get key (regime_distribution stats)
    = if (occurrences key recent =? 0)%Z then None
      else Some (occurrences key recent).
Proof.
  unfold get_regime_stats.
  destruct (regime_history self) as [|e h] eqn:Hh; [discriminate|].
  intros [= <-]. cbn [total_updates regime_distribution].
  split; [reflexivity|]. split; [|split].
  - rewrite fold_count_total, last_n_length.
    change (total_count PyDict.empty) with 0%Z.
    rewrite Zpos_P_of_succ_nat. cbn [List.length]. lia.
  - apply fold_count_wf, PyDictFacts.wf_empty.
  - intros key. now rewrite fold_count_get.
Qed.

Lemma get_regime_stats_counts_witness :
  let quiet :=
    {| volatility := 0.02; trend_strength := 30; volume_trend := 0;
       orderbook_imbalance := 0; funding_rate := 0; funding_trend := 0;
       rsi := 50; price_momentum := 0.3; liquidity_score := 0.5;
       regime_persistence := 0 |} in
  let trending :=
    {| volatility := 0.05; trend_strength := 55; volume_trend := 0.5;
       orderbook_imbalance := 0; funding_rate := 0; funding_trend := 0;
       rsi := 50; price_momentum := 0.7; liquidity_score := 0.5;
       regime_persistence := 0 |} in
  let d := run_updates init
             [ (quiet, Some 1%Z); (trending, Some 2%Z); (trending, None);
               (quiet, Some 0%Z); (trending, Some 3%Z) ] in
  exists stats,
    get_regime_stats d = Some stats /\
    total_updates stats = 3%Z /\
    regime_distribution stats = [("mixed", 1%Z); ("high_vol_trending", 2%Z)] /\
    total_count (regime_distribution stats) = Z.min 100 (total_updates stats).
Proof.
  intros quiet trending d. eexists. split; [vm_compute; reflexivity|].
  split; [reflexivity|]. split; [reflexivity|].
  exact (proj1 (proj2 (get_regime_stats_counts d _ eq_refl))).
Defined.

End DetectorFacts.

(** ** Reconciliation and start-up against the exchange *)

Module StartupFacts.

Import Py risk_manager trading_bot ReconcileFacts.
Local Open Scope string_scope.
Local Open Scope float_scope.

(** *** What a reconciliation keeps *)

Lemma in_set_cons k s rest :
  in_set k (s :: rest) = String.eqb s k || in_set k rest.
Proof. unfold in_set. cbn [existsb]. now rewrite String.eqb_sym. Qed.

Lemma filter_filter {A : Type} (f g : A -> bool) (l : list A) :
  filter f (filter g l) = filter (fun x => g x && f x) l.
Proof.
  induction l as [|a l IH]; [reflexivity|]. cbn [filter].
  destruct (g a); cbn [filter andb]; [destruct (f a)|]; now rewrite IH.
Qed.

(** The clean-up loop over distinct held symbols leaves the other
    positions, in their order. *)
Lemma clean_up_keys now user_trades closed : forall rm,
  NoDup closed ->
  (forall s, In s closed -> In s (PyDict.keys (positions rm))) ->
  exists rm',
    clean_up now user_trades closed rm = (rm', Ok tt) /\
    PyDict.keys (positions rm')
    = filter (fun k => negb (in_set k closed)) (PyDict.keys (positions rm)).
Proof.
  induction closed as [|s rest IH]; intros rm Hnd Hheld; cbn [clean_up].
  - exists rm. split; [reflexivity|].
    symmetry. apply forallb_filter_id. now apply forallb_forall.
  - inversion Hnd as [|? ? Hs Hrest]; subst.
    assert (Hmem : PyDict.mem s (positions rm) = true)
      by (apply PyDictFacts.mem_In_keys, Hheld; now left).
    apply PyDictFacts.mem_get in Hmem. destruct Hmem as [position Hget].
    rewrite Hget.
    destruct (IH (settle now user_trades s position rm) Hrest) as (rm' & Hrun & Hkeys).
    { intros s' Hs'. rewrite (settle_positions now user_trades s position rm Hget).
      apply In_keys_del. split; [apply Hheld; now right|].
      intros ->. contradiction. }
    exists rm'. split; [exact Hrun|].
    rewrite Hkeys, (settle_positions now user_trades s position rm Hget).
    rewrite PyDictFacts.keys_del, filter_filter.
    apply filter_ext. intros k. rewrite in_set_cons, negb_orb. reflexivity.
Qed.

(** X22. On a well-formed ledger one run of [check_positions] with a
    snapshot of the exchange leaves exactly the tracked positions whose
    symbol has a nonzero exchange position, in the order they had; it adds
    none, whatever the fill requests answer. *)
Theorem check_positions_keeps_active now rows user_trades self :
  PyDict.wf (positions (risk_manager self)) ->
  PyDict.keys (positions (risk_manager
                            (fst (check_positions now (Ok rows) user_trades self))))
  = filter (fun k => in_set k (active_on_aster rows))
      (PyDict.keys (positions (risk_manager self))).
Proof.
  intros Hwf. unfold check_positions.
  set (active := active_on_aster rows).
  destruct (clean_up_keys now user_trades
              (find_closed active (risk_manager self)) (risk_manager self))
    as (rm' & Hrun & Hkeys).
  { unfold find_closed. now apply NoDup_filter. }
  { intros s Hs. now apply find_closed_spec in Hs. }
  rewrite Hrun. cbn [fst risk_manager].
  destruct (update_marks_frame rows rm') as (_ & _ & _ & ->).
  rewrite Hkeys. apply filter_ext_in. intros k Hk.
  destruct (in_set k active) eqn:E.
  - apply negb_true_iff. destruct (in_set k (find_closed _ _)) eqn:E2; [|reflexivity].
    apply in_set_In, find_closed_spec in E2. destruct E2 as [_ Hnot].
    exfalso. apply Hnot. now apply in_set_In.
  - apply negb_false_iff, in_set_In, find_closed_spec. split; [exact Hk|].
    intros Hin. apply in_set_In in Hin. congruence.
Qed.

Lemma check_positions_keeps_active_witness :
  let rm := run (init_default 0 1000)
              [ Open 0 "BTCUSDT" "LONG" 50000 0.01 10 49000 None "scalp";
                Open 1 "ETHUSDT" "SHORT" 3000 0.5 20 3050 None "fade";
                Open 2 "SOLUSDT" "LONG" 100 1 10 95 None "scalp" ] in
  let self := {| risk_manager := rm; dry_run := false |} in
  let rows :=
    [ {| symbol := "SOLUSDT"; positionAmt := 1; markPrice := 101 |};
      {| symbol := "ETHUSDT"; positionAmt := 0; markPrice := 2990 |};
      {| symbol := "BTCUSDT"; positionAmt := 0.01; markPrice := 51000 |} ] in
  PyDict.keys (positions (risk_manager
                            (fst (check_positions 3 (Ok rows)
                                    (fun _ => Raise RequestError) self))))
  = ["BTCUSDT"; "SOLUSDT"].
Proof.
  intros rm self rows.
  rewrite check_positions_keeps_active; [vm_compute; reflexivity|].
  vm_compute. repeat constructor; simpl; intuition discriminate.
Defined.

(** *** What a reconciliation books *)

Lemma drop_position_books s rm :
  trades (drop_position s rm) = trades rm /\
  current_capital (drop_position s rm) = current_capital rm /\
  daily_pnl (drop_position s rm) = daily_pnl rm.
Proof. unfold drop_position. repeat split. Qed.

(** Settling one symbol books nothing, or one trade with the PnL the
    exchange reports. *)
Lemma settle_books now user_trades s position rm :
  let rm' := settle now user_trades s position rm in
  (trades rm' = trades rm /\
   current_capital rm' = current_capital rm /\
   daily_pnl rm' = daily_pnl rm) \/
  exists trade fills,
    user_trades s = Ok fills /\
    Trade.symbol trade = s /\
    Trade.pnl trade = reported_pnl fills /\
    trades rm' = (trades rm ++ [trade])%list /\
    current_capital rm' = current_capital rm + Trade.pnl trade /\
    daily_pnl rm' = daily_pnl rm + Trade.pnl trade.
Proof.
  unfold settle.
  destruct (user_trades s) as [[|first rest]|e] eqn:Hfills.
  - left. apply drop_position_books.
  - fold (reported_pnl (first :: rest)).
    unfold close_position.
    destruct (PyDict.get s (positions rm)) as [held|]; [|left; repeat split].
    destruct (realized_pnl_of held _ (Some (reported_pnl (first :: rest))))
      as [[pnl_ pct]|e] eqn:Hpnl.
    + right. cbn [fst snd]. eexists. exists (first :: rest).
      split; [reflexivity|].
      unfold realized_pnl_of in Hpnl.
      destruct (float_div _ _); [|discriminate]. cbn [bind] in Hpnl.
      injection Hpnl as <- _. repeat split; reflexivity.
    + left. destruct (PyDict.mem s (positions rm)); [apply drop_position_books|];
        repeat split.
  - left. destruct (PyDict.mem s (positions rm)); [apply drop_position_books|];
      repeat split.
Qed.

Lemma clean_up_books now user_trades closed : forall rm,
  let rm' := fst (clean_up now user_trades closed rm) in
  exists booked,
    trades rm' = (trades rm ++ booked)%list /\
    current_capital rm'
    = fold_left PrimFloat.add (map Trade.pnl booked) (current_capital rm) /\
    daily_pnl rm' = fold_left PrimFloat.add (map Trade.pnl booked) (daily_pnl rm) /\
    Forall (booked_from_exchange user_trades closed) booked.
Proof.
  induction closed as [|s rest IH]; intros rm; cbn [clean_up].
  - exists []. cbn. rewrite app_nil_r. repeat split. constructor.
  - destruct (PyDict.get s (positions rm)) as [position|].
    2:{ exists []. cbn. rewrite app_nil_r. repeat split. constructor. }
    destruct (IH (settle now user_trades s position rm))
      as (booked & Ht & Hc & Hd & Hall).
    cbv zeta in *. rewrite Ht, Hc, Hd.
    assert (Hweak : Forall (booked_from_exchange user_trades (s :: rest)) booked).
    { eapply Forall_impl; [|exact Hall].
      intros t [Hin Hfills]. split; [now right | exact Hfills]. }
    destruct (settle_books now user_trades s position rm)
      as [(-> & -> & ->) | (trade & fills & Hfills & Hsym & Hpnl & -> & -> & ->)].
    + exists booked. repeat split; auto.
    + exists (trade :: booked). rewrite <- app_assoc. repeat split.
      constructor; [|exact Hweak].
      split; [left; now rewrite Hsym|].
      exists fills. rewrite Hsym. split; assumption.
Qed.

(** X23. Whatever the exchange answers, [check_positions] only appends to
    the trade history; every trade it appends is for a symbol it reports
    closed and carries the realised PnL summed over the fills the exchange
    returned for that symbol; and the capital and the daily PnL grow by
    exactly those PnLs, added in booking order. *)
Theorem check_positions_books_exchange_pnl now aster_positions user_trades self :
  let r := check_positions now aster_positions user_trades self in
  exists booked,
    trades (risk_manager (fst r)) = (trades (risk_manager self) ++ booked)%list /\
    current_capital (risk_manager (fst r))
    = fold_left PrimFloat.add (map Trade.pnl booked)
        (current_capital (risk_manager self)) /\
    daily_pnl (risk_manager (fst r))
    = fold_left PrimFloat.add (map Trade.pnl booked) (daily_pnl (risk_manager self)) /\
    Forall (booked_from_exchange user_trades (closed_positions (snd r))) booked.
Proof.
  unfold check_positions. destruct aster_positions as [rows|e].
  2:{ exists []. cbn. rewrite app_nil_r. repeat split. constructor. }
  set (closed := find_closed (active_on_aster rows) (risk_manager self)).
  destruct (clean_up_books now user_trades closed (risk_manager self))
    as (booked & Ht & Hc & Hd & Hall).
  cbv zeta in *.
  destruct (clean_up now user_trades closed (risk_manager self)) as [rm' [[]|e]];
    cbn [fst snd risk_manager closed_positions] in *; exists booked.
  - destruct (update_marks_frame rows rm') as (-> & -> & -> & _).
    repeat split; assumption.
  - repeat split; assumption.
Qed.

(** *** Start-up *)

Lemma active_on_aster_cons pos rows :
  active_on_aster (pos :: rows)
  = if neb (positionAmt pos) 0 then symbol pos :: active_on_aster rows
    else active_on_aster rows.
Proof. unfold active_on_aster. cbn [filter]. now destruct (neb _ _). Qed.

(** The sync loop tracks the symbols it held and the active ones, and
    leaves the books alone. *)
Lemma sync_rows_spec clock open_orders rows : forall rm n,
  let rm' := fst (fold_left (sync_row clock open_orders) rows (rm, n)) in
  trades rm' = trades rm /\
  current_capital rm' = current_capital rm /\
  daily_pnl rm' = daily_pnl rm /\
  (PyDict.wf (positions rm) -> PyDict.wf (positions rm')) /\
  forall k, In k (PyDict.keys (positions rm')) <->
            In k (PyDict.keys (positions rm))
            \/ In k (active_on_aster (map to_exchange_position rows)).
Proof.
  induction rows as [|pos rows IH]; intros rm n; cbn [fold_left map].
  - cbn. repeat split; auto. tauto.
  - rewrite active_on_aster_cons. unfold neb.
    cbn [to_exchange_position positionAmt symbol].
    change (sync_row clock open_orders (rm, n) pos)
      with (if info_positionAmt pos =? 0 then (rm, n)
            else (set_positions rm
                    (PyDict.set (info_symbol pos)
                       (recovered_position (clock n) open_orders pos)
                       (positions rm)),
                  S n)).
    destruct (info_positionAmt pos =? 0); cbn [negb]; [apply IH|].
    destruct (IH (set_positions rm
                    (PyDict.set (info_symbol pos)
                       (recovered_position (clock n) open_orders pos)
                       (positions rm))) (S n))
      as (Ht & Hc & Hd & Hwf & Hkeys).
    cbv zeta in *. rewrite Ht, Hc, Hd. repeat split.
    + intros H. apply Hwf. cbn [positions set_positions].
      now apply PyDictFacts.wf_set.
    + rewrite Hkeys. cbn [positions set_positions In].
      intros [Hk|Hk]; [|tauto].
      destruct (PyDict.mem (info_symbol pos) (positions rm)) eqn:E.
      * rewrite PyDictFacts.keys_set_mem in Hk by assumption. tauto.
      * rewrite PyDictFacts.keys_set_new in Hk by assumption.
        apply in_app_or in Hk. cbn in Hk. tauto.
    + rewrite Hkeys. cbn [positions set_positions In].
      intros [Hk|[Hk|Hk]]; [| |tauto]; left.
      * destruct (PyDict.mem (info_symbol pos) (positions rm)) eqn:E.
        -- now rewrite PyDictFacts.keys_set_mem.
        -- rewrite PyDictFacts.keys_set_new by assumption.
           apply in_or_app. now left.
      * subst k. apply PyDictFacts.mem_In_keys, PyDictFacts.mem_get.
        rewrite PyDictFacts.get_set_same. eauto.
Qed.

(** X24. When every tracked symbol is active on the exchange (as on
    start-up, with an empty ledger), [sync_positions_from_exchange] leaves
    the ledger tracking exactly the symbols with a nonzero exchange
    position, without touching the history or the capital, and a
    [check_positions] on the same snapshot right after finds nothing
    closed, cancels nothing and books nothing. *)
Theorem sync_then_check_closes_nothing clock now rows open_orders user_trades self :
  let active := active_on_aster (map to_exchange_position rows) in
  (forall k, In k (PyDict.keys (positions (risk_manager self))) -> In k active) ->
  let synced := sync_positions_from_exchange clock (Ok rows) open_orders self in
  let r := check_positions now (Ok (map to_exchange_position rows)) user_trades synced in
  (forall k, In k (PyDict.keys (positions (risk_manager synced))) <-> In k active) /\
  trades (risk_manager synced) = trades (risk_manager self) /\
  current_capital (risk_manager synced) = current_capital (risk_manager self) /\
  closed_positions (snd r) = [] /\
  cancelled (snd r) = [] /\
  trades (risk_manager (fst r)) = trades (risk_manager self) /\
  current_capital (risk_manager (fst r)) = current_capital (risk_manager self) /\
  PyDict.keys (positions (risk_manager (fst r)))
  = PyDict.keys (positions (risk_manager synced)).
Proof.
  intros active Hheld synced r.
  destruct (sync_rows_spec clock open_orders rows (risk_manager self) O)
    as (Ht & Hc & _ & _ & Hkeys).
  cbv zeta in Ht, Hc, Hkeys.
  assert (Hsynced : forall k, In k (PyDict.keys (positions (risk_manager synced)))
                              <-> In k active).
  { intros k. subst synced. cbn [sync_positions_from_exchange risk_manager].
    rewrite Hkeys. fold active. split; [intros [H|H]; auto | auto]. }
  assert (Hnone : find_closed active (risk_manager synced) = []).
  { unfold find_closed. apply filter_none. intros k Hk.
    apply negb_false_iff, in_set_In, Hsynced, Hk. }
  split; [exact Hsynced|]. split; [exact Ht|]. split; [exact Hc|].
  subst r. unfold check_positions. fold active. rewrite Hnone.
  cbn [clean_up fst snd closed_positions cancelled risk_manager].
  destruct (update_marks_frame (map to_exchange_position rows) (risk_manager synced))
    as (-> & -> & _ & ->).
  split; [reflexivity|]. split.
  - unfold cancel_requests. now destruct (dry_run synced).
  - repeat split; assumption.
Qed.

Lemma sync_then_check_closes_nothing_witness :
  let self := {| risk_manager := init_default 0 1000; dry_run := false |} in
  let rows :=
    [ mkPositionInfo "BTCUSDT" 0.01 50000 50500 10 5 45250;
      mkPositionInfo "ETHUSDT" 0 0 2990 20 0 0;
      mkPositionInfo "SOLUSDT" (-3) 100 99 20 3 104.5 ] in
  let open_orders := fun s =>
    if String.eqb s "BTCUSDT"
    then Ok [ mkOrder (Some "BTCUSDT") "STOP_MARKET" "11";
              mkOrder (Some "BTCUSDT") "LIMIT" "12" ]
    else Raise RequestError in
  let synced := sync_positions_from_exchange (fun k => Z.of_nat k) (Ok rows)
                  open_orders self in
  let r := check_positions 9 (Ok (map to_exchange_position rows))
             (fun _ => Raise RequestError) synced in
  PyDict.keys (positions (risk_manager synced)) = ["BTCUSDT"; "SOLUSDT"] /\
  option_map Position.sl_order_id
    (PyDict.get "BTCUSDT" (positions (risk_manager synced))) = Some (Some "11") /\
  option_map Position.side
    (PyDict.get "SOLUSDT" (positions (risk_manager synced))) = Some "SHORT" /\
  closed_positions (snd r) = [] /\
  cancelled (snd r) = [].
Proof.
  intros self rows open_orders synced r.
  split; [vm_compute; reflexivity|].
  split; [vm_compute; reflexivity|].
  split; [vm_compute; reflexivity|].
  destruct (sync_then_check_closes_nothing (fun k => Z.of_nat k) 9 rows open_orders
              (fun _ => Raise RequestError) self)
    as (_ & _ & _ & H1 & H2 & _).
  - intros k [].
  - split; [exact H1 | exact H2].
Defined.

(** X25. Every cancel request of [cleanup_orphan_orders] is made outside
    dry-run mode, after both listings arrived, for one of the open orders,
    a stop or take-profit order; if that order names a symbol, the symbol
    has no exchange position, and [sync_positions_from_exchange] on the
    same snapshot does not start tracking it.  (An order without a symbol
    is cancelled too, with [None] for the symbol.) *)
Theorem cleanup_spares_tracked clock snapshot open_orders all_orders self request :
  In request (cleanup_orphan_orders snapshot all_orders self) ->
  dry_run self = false /\
  exists rows orders order,
    snapshot = Ok rows /\ all_orders = Ok orders /\ In order orders /\
    request = (order_symbol order, order_id order) /\
    is_protective order = true /\
    forall s, order_symbol order = Some s ->
      ~ In s (active_on_aster (map to_exchange_position rows)) /\
      PyDict.mem s
        (positions (risk_manager
                      (sync_positions_from_exchange clock (Ok rows) open_orders self)))
      = PyDict.mem s (positions (risk_manager self)).
Proof.
  unfold cleanup_orphan_orders.
  destruct snapshot as [rows|e]; [|intros []].
  destruct all_orders as [orders|e]; [|intros []].
  destruct (dry_run self); [intros []|].
  intros Hin. apply in_map_iff in Hin. destruct Hin as (order & Hrequest & Horphan).
  apply filter_In in Horphan. destruct Horphan as [Hin Hcond].
  apply andb_true_iff in Hcond. destruct Hcond as [Hprot Hnot].
  split; [reflexivity|]. exists rows, orders, order.
  split; [reflexivity|]. split; [reflexivity|]. split; [exact Hin|].
  split; [now symmetry|]. split; [exact Hprot|].
  intros s Hs. unfold not_active in Hnot. rewrite Hs in Hnot.
  apply negb_true_iff in Hnot.
  assert (Hinactive : ~ In s (active_on_aster (map to_exchange_position rows))).
  { intros H. apply in_set_In in H. congruence. }
  split; [exact Hinactive|].
  destruct (sync_rows_spec clock open_orders rows (risk_manager self) O)
    as (_ & _ & _ & _ & Hkeys).
  cbv zeta in Hkeys. cbn [sync_positions_from_exchange risk_manager].
  set (synced := fst (fold_left (sync_row clock open_orders) rows
                        (risk_manager self, O))) in *.
  destruct (PyDict.mem s (positions (risk_manager self))) eqn:Hbefore.
  - apply PyDictFacts.mem_In_keys, Hkeys. left.
    now apply PyDictFacts.mem_In_keys.
  - destruct (PyDict.mem s (positions synced)) eqn:Hafter; [|reflexivity].
    apply PyDictFacts.mem_In_keys, Hkeys in Hafter.
    destruct Hafter as [Hheld|Hactive]; [|contradiction].
    apply PyDictFacts.mem_In_keys in Hheld. congruence.
Qed.

(** BTCUSDT is held on the exchange, ETHUSDT is not; one stop order has no
    symbol. *)
Lemma cleanup_spares_tracked_witness :
  let self := {| risk_manager := init_default 0 1000; dry_run := false |} in
  let rows :=
    [ mkPositionInfo "BTCUSDT" 0.01 50000 50500 10 5 45250;
      mkPositionInfo "ETHUSDT" 0 0 2990 20 0 0 ] in
  let all_orders :=
    Ok [ mkOrder (Some "BTCUSDT") "STOP_MARKET" "11";
         mkOrder (Some "ETHUSDT") "TAKE_PROFIT_MARKET" "21";
         mkOrder (Some "ETHUSDT") "LIMIT" "22";
         mkOrder None "STOP_MARKET" "31" ] in
  cleanup_orphan_orders (Ok rows) all_orders self
  = [(Some "ETHUSDT", "21"); (None, "31")] /\
  PyDict.mem "ETHUSDT"
    (positions (risk_manager
                  (sync_positions_from_exchange (fun k => Z.of_nat k) (Ok rows)
                     (fun _ => Raise RequestError) self)))
  = false.
Proof.
  intros self rows all_orders. split; [vm_compute; reflexivity|].
  destruct (cleanup_spares_tracked (fun k => Z.of_nat k) (Ok rows)
              (fun _ => Raise RequestError) all_orders self (Some "ETHUSDT", "21"))
    as (_ & rows' & orders & order & Hrows & _ & _ & Hrequest & _ & Hsymbol).
  - vm_compute. now left.
  - injection Hrows as <-. injection Hrequest as Hs _.
    destruct (Hsymbol "ETHUSDT" (eq_sym Hs)) as [_ ->]. reflexivity.
Defined.

End StartupFacts.

(** ** Executing a signal *)

Module ExecutionFacts.

Import Py risk_manager trading_bot.
Local Open Scope string_scope.
Local Open Scope float_scope.

Lemma same_terms_refl p : same_terms p p.
Proof. unfold same_terms. repeat split. Qed.

Lemma same_terms_trans p q r : same_terms p q -> same_terms q r -> same_terms p r.
Proof. unfold same_terms. intuition congruence. Qed.

Lemma order_ids_amended_refl s rm : order_ids_amended s rm rm.
Proof.
  unfold order_ids_amended. repeat split.
  intros p H. exists p. split; [exact H | apply same_terms_refl].
Qed.

(** Setting an order id on the held position changes nothing else. *)
Lemma amend_position_amended s f rm0 rm :
  (forall p, same_terms (f p) p) ->
  order_ids_amended s rm0 rm ->
  order_ids_amended s rm0 (amend_position s f rm).
Proof.
  intros Hf H. unfold amend_position.
  destruct (PyDict.get s (positions rm)) as [p0|] eqn:Hget; [|exact H].
  destruct H as (Ht & Hc & Hk & Hp). unfold order_ids_amended.
  cbn [trades current_capital positions set_positions].
  split; [exact Ht|]. split; [exact Hc|]. split.
  - intros k Hne. rewrite PyDictFacts.get_set_other by congruence. now apply Hk.
  - intros p H. destruct (Hp p H) as (p1 & H1 & Hs1).
    assert (p1 = p0) by congruence. subst p1.
    exists (f p0). split; [apply PyDictFacts.get_set_same|].
    exact (same_terms_trans _ _ _ (Hf p0) Hs1).
Qed.

Lemma place_protective_orders_frame exchange s signal self :
  let r := place_protective_orders exchange s signal self in
  order_ids_amended s (risk_manager self) (fst r) /\
  (dry_run self = true -> snd r = []) /\
  (forall request, In request (snd r) ->
     request = StopOrder \/ request = TakeProfitOrder).
Proof.
  assert (Hsl : forall id p, same_terms (set_sl_order_id id p) p)
    by (intros; unfold same_terms; repeat split).
  assert (Htp : forall id p, same_terms (set_tp_order_id id p) p)
    by (intros; unfold same_terms; repeat split).
  unfold place_protective_orders.
  destruct (dry_run self); cbn [negb andb fst snd].
  - rewrite andb_false_r. cbn [fst snd].
    split; [apply order_ids_amended_refl|]. split; [reflexivity | intros request []].
  - rewrite andb_true_r.
    set (rm1 := match stop_order exchange with
                | Ok (Some id) => amend_position s (set_sl_order_id id) (risk_manager self)
                | _ => risk_manager self
                end).
    assert (Hfirst : order_ids_amended s (risk_manager self) rm1).
    { subst rm1. destruct (stop_order exchange) as [[id|]|e];
        [apply amend_position_amended; [apply Hsl|] | |];
        apply order_ids_amended_refl. }
    destruct (match signal_take_profit signal with
              | Some tp => float_truthy tp
              | None => false
              end); cbn [fst snd].
    + split; [|split; [discriminate | intros request [<-|[<-|[]]]; auto]].
      destruct (take_profit_order exchange) as [[id|]|e];
        [apply amend_position_amended; [apply Htp|] | |]; exact Hfirst.
    + split; [exact Hfirst|]. split; [discriminate | intros request [<-|[]]; auto].
Qed.

Lemma can_open_position_books now s rm :
  trades (fst (can_open_position now s rm)) = trades rm /\
  current_capital (fst (can_open_position now s rm)) = current_capital rm /\
  positions (fst (can_open_position now s rm)) = positions rm.
Proof.
  rewrite RiskFacts.can_open_position_state.
  destruct (LedgerFacts.reset_daily_stats_books now rm) as (-> & -> & _).
  now rewrite RiskFacts.reset_daily_stats_positions.
Qed.

(** X26. When [execute_signal] answers [False] the ledger holds the
    positions, the history and the capital it held before, and the only
    requests that can have gone to the exchange are the leverage change
    and the market order, both outside dry-run mode only: the market order
    is placed before the ledger's own checks in [open_position], so a
    refusal there comes after it. *)
Theorem execute_signal_refused now now' exchange s signal strategy_name self :
  let r := execute_signal now now' exchange s signal strategy_name self in
  snd r = false ->
  positions (risk_manager (fst (fst r))) = positions (risk_manager self) /\
  trades (risk_manager (fst (fst r))) = trades (risk_manager self) /\
  current_capital (risk_manager (fst (fst r))) = current_capital (risk_manager self) /\
  forall request, In request (snd (fst r)) ->
    dry_run self = false /\ (request = ChangeLeverage \/ request = MarketOrder).
Proof.
  unfold execute_signal.
  destruct (can_open_position_books now s (risk_manager self)) as (Ht & Hc & Hp).
  destruct (can_open_position now s (risk_manager self)) as [rm allowed].
  cbn [fst] in Ht, Hc, Hp.
  assert (Hnone : positions rm = positions (risk_manager self) /\
                  trades rm = trades (risk_manager self) /\
                  current_capital rm = current_capital (risk_manager self) /\
                  forall request, In request (@nil Request) ->
                    dry_run self = false /\
                    (request = ChangeLeverage \/ request = MarketOrder))
    by (repeat split; auto; contradiction).
  destruct allowed; cbn [negb]; [|intros _; exact Hnone].
  destruct (ticker_price exchange) as [current_price|e]; [|intros _; exact Hnone].
  destruct (sizing exchange) as [[quantity|e]|]; try (intros _; exact Hnone).
  assert (Hsent : forall request,
            In request (if dry_run self then [] else [ChangeLeverage; MarketOrder]) ->
            dry_run self = false /\
            (request = ChangeLeverage \/ request = MarketOrder)).
  { destruct (dry_run self); [intros request []|].
    intros request [<-|[<-|[]]]; auto. }
  destruct (if dry_run self then Ok tt else market_order exchange) as [[]|e];
    [|intros _; cbn [fst snd risk_manager];
      refine (conj _ (conj _ (conj _ Hsent))); assumption].
  destruct (LedgerFacts.open_position_books now' s (action signal) current_price
              quantity (signal_leverage signal) (signal_stop_loss signal)
              (signal_take_profit signal) strategy_name rm) as (Ht' & Hc' & _).
  destruct (RiskFacts.open_position_cases now' s (action signal) current_price
              quantity (signal_leverage signal) (signal_stop_loss signal)
              (signal_take_profit signal) strategy_name rm)
    as [(H1 & Hp' & _) | [(x & _ & H1 & Hp' & _) | (liq & _ & _ & _ & H1 & _)]];
    cbv zeta in *;
    destruct (open_position _ _ _ _ _ _ _ _ _ _) as [rm' [[p|]|e]];
    cbn [fst snd] in *; try discriminate.
  - intros _. cbn [fst snd risk_manager].
    refine (conj _ (conj _ (conj _ Hsent))); congruence.
  - intros _. cbn [fst snd risk_manager].
    refine (conj _ (conj _ (conj _ Hsent))); congruence.
  - destruct (place_protective_orders _ _ _ _). discriminate.
Qed.

Lemma execute_signal_refused_witness :
  let self := {| risk_manager := init_default 0 1000; dry_run := false |} in
  let exchange :=
    {| ticker_price := Ok 50000; sizing := Some (Ok 0.01);
       change_leverage := Ok tt; market_order := Ok tt;
       stop_order := Ok (Some "11"); take_profit_order := Ok (Some "12") |} in
  let signal := mkTradeSignal "LONG" 50000 45000 10 (Some 51000) in
  let r := execute_signal 1 2 exchange "BTCUSDT" signal "scalp" self in
  snd r = false /\
  snd (fst r) = [ChangeLeverage; MarketOrder] /\
  positions (risk_manager (fst (fst r))) = PyDict.empty.
Proof.
  intros self exchange signal r.
  split; [vm_compute; reflexivity|]. split; [vm_compute; reflexivity|].
  exact (proj1 (execute_signal_refused 1 2 exchange "BTCUSDT" signal "scalp" self
                  ltac:(vm_compute; reflexivity))).
Defined.

(** X27. When [execute_signal] answers [True], the symbol was not held
    before and is held now, with the side, stop and target of the signal,
    the ticker price as entry price, the sized quantity and the strategy
    name; the stop is inside the liquidation price computed for that entry
    price; no other position and no trade has changed; and outside dry-run
    mode the requests began with the leverage change, the market order and
    the stop order, in that order. *)
Theorem execute_signal_accepted now now' exchange s signal strategy_name self :
  let r := execute_signal now now' exchange s signal strategy_name self in
  snd r = true ->
  exists current_price quantity liquidation_price position,
    ticker_price exchange = Ok current_price /\
    sizing exchange = Some (Ok quantity) /\
    PyDict.mem s (positions (risk_manager self)) = false /\
    PyDict.get s (positions (risk_manager (fst (fst r)))) = Some position /\
    same_terms position
      (new_position now' s (action signal) current_price quantity
         (signal_leverage signal) (signal_stop_loss signal)
         (signal_take_profit signal) strategy_name liquidation_price) /\
    bracket_safe position /\
    (forall k, k <> s ->
       PyDict.get k (positions (risk_manager (fst (fst r))))
       = PyDict.get k (positions (risk_manager self))) /\
    trades (risk_manager (fst (fst r))) = trades (risk_manager self) /\
    (dry_run self = false ->
     exists protective,
       snd (fst r) = ([ChangeLeverage; MarketOrder; StopOrder] ++ protective)%list).
Proof.
  unfold execute_signal.
  destruct (can_open_position_books now s (risk_manager self)) as (Ht & Hc & Hp).
  destruct (can_open_position now s (risk_manager self)) as [rm allowed].
  cbn [fst] in Ht, Hc, Hp.
  destruct allowed; cbn [negb]; [|discriminate].
  destruct (ticker_price exchange) as [current_price|e]; [|discriminate].
  destruct (sizing exchange) as [[quantity|e]|]; try discriminate.
  destruct (if dry_run self then Ok tt else market_order exchange) as [[]|e];
    [|discriminate].
  destruct (LedgerFacts.open_position_books now' s (action signal) current_price
              quantity (signal_leverage signal) (signal_stop_loss signal)
              (signal_take_profit signal) strategy_name rm) as (Ht' & _).
  destruct (RiskFacts.open_position_cases now' s (action signal) current_price
              quantity (signal_leverage signal) (signal_stop_loss signal)
              (signal_take_profit signal) strategy_name rm)
    as [(H1 & _) | [(x & _ & H1 & _) | (liq & Hgate & Hliq & Hstop & H1 & Hp' & _)]];
    cbv zeta in *;
    destruct (open_position _ _ _ _ _ _ _ _ _ _) as [rm' [[p|]|e]];
    cbn [fst snd] in *; try discriminate.
  apply LedgerFacts.can_open_position_true in Hgate. destruct Hgate as [_ Hnew].
  pose proof (place_protective_orders_frame exchange s signal
                {| risk_manager := rm'; dry_run := dry_run self |}) as Hframe.
  destruct (place_protective_orders exchange s signal
              {| risk_manager := rm'; dry_run := dry_run self |}) as [rm'' protective]
    eqn:Hplace.
  cbv zeta in Hframe. cbn [fst snd risk_manager dry_run] in Hframe |- *.
  destruct Hframe as ((Ht'' & _ & Hk & Hheld) & _ & Hkind).
  intros _.
  destruct (Hheld (new_position now' s (action signal) current_price quantity
                     (signal_leverage signal) (signal_stop_loss signal)
                     (signal_take_profit signal) strategy_name liq))
    as (position & Hget & Hsame).
  { rewrite Hp'. apply PyDictFacts.get_set_same. }
  exists current_price, quantity, liq, position.
  split; [reflexivity|]. split; [reflexivity|].
  split; [now rewrite <- Hp|]. split; [exact Hget|]. split; [exact Hsame|].
  split; [|split; [|split]].
  - destruct Hsame as (_ & Hside & Hentry & _ & Hlev & Hsl & _ & _ & Hl & _).
    exists (signal_stop_loss signal), liq.
    rewrite Hsl, Hl, Hentry, Hlev, Hside. cbn. repeat split; assumption.
  - intros k Hne. rewrite Hk by assumption. rewrite Hp', <- Hp.
    apply PyDictFacts.get_set_other. congruence.
  - now rewrite Ht'', Ht', Ht.
  - intros Hlive. revert Hplace. unfold place_protective_orders.
    cbn [dry_run risk_manager]. rewrite Hlive. cbn [negb].
    rewrite andb_true_r.
    destruct (match signal_take_profit signal with
              | Some tp => float_truthy tp
              | None => false
              end); intros [= _ <-]; eexists; reflexivity.
Qed.

Lemma execute_signal_accepted_witness :
  let self := {| risk_manager := init_default 0 1000; dry_run := false |} in
  let exchange :=
    {| ticker_price := Ok 50000; sizing := Some (Ok 0.01);
       change_leverage := Raise RequestError; market_order := Ok tt;
       stop_order := Ok (Some "11"); take_profit_order := Raise RequestError |} in
  let signal := mkTradeSignal "LONG" 50010 49000 10 (Some 51000) in
  let r := execute_signal 1 2 exchange "BTCUSDT" signal "scalp" self in
  snd (fst r) = [ChangeLeverage; MarketOrder; StopOrder; TakeProfitOrder] /\
  option_map Position.sl_order_id
    (PyDict.get "BTCUSDT" (positions (risk_manager (fst (fst r))))) = Some (Some "11") /\
  exists position,
    PyDict.get "BTCUSDT" (positions (risk_manager (fst (fst r)))) = Some position /\
    bracket_safe position.
Proof.
  intros self exchange signal r.
  split; [vm_compute; reflexivity|]. split; [vm_compute; reflexivity|].
  destruct (execute_signal_accepted 1 2 exchange "BTCUSDT" signal "scalp" self
              ltac:(vm_compute; reflexivity))
    as (_ & _ & _ & position & _ & _ & _ & Hget & _ & Hsafe & _).
  exists position. split; assumption.
Defined.

(** X28. In dry-run mode [execute_signal] makes no request of the
    exchange, whatever it answers. *)
Theorem execute_signal_dry_run now now' exchange s signal strategy_name self :
  dry_run self = true ->
  snd (fst (execute_signal now now' exchange s signal strategy_name self)) = [].
Proof.
  intros Hdry. unfold execute_signal.
  destruct (can_open_position now s (risk_manager self)) as [rm allowed].
  destruct allowed; cbn [negb]; [|reflexivity].
  destruct (ticker_price exchange) as [current_price|e]; [|reflexivity].
  destruct (sizing exchange) as [[quantity|e]|]; try reflexivity.
  rewrite Hdry.
  destruct (open_position _ _ _ _ _ _ _ _ _ _) as [rm' [[p|]|e]]; try reflexivity.
  pose proof (place_protective_orders_frame exchange s signal
                {| risk_manager := rm'; dry_run := true |}) as (_ & Hnone & _).
  destruct (place_protective_orders _ _ _ _) as [rm'' protective].
  cbn [fst snd] in *. now rewrite Hnone.
Qed.

Lemma execute_signal_dry_run_witness :
  let self := {| risk_manager := init_default 0 1000; dry_run := true |} in
  let exchange :=
    {| ticker_price := Ok 50000; sizing := Some (Ok 0.01);
       change_leverage := Ok tt; market_order := Ok tt;
       stop_order := Ok (Some "11"); take_profit_order := Ok (Some "12") |} in
  let signal := mkTradeSignal "LONG" 50010 49000 10 (Some 51000) in
  let r := execute_signal 1 2 exchange "BTCUSDT" signal "scalp" self in
  snd r = true /\ snd (fst r) = [] /\
  PyDict.keys (positions (risk_manager (fst (fst r)))) = ["BTCUSDT"].
Proof.
  intros self exchange signal r.
  split; [vm_compute; reflexivity|].
  split; [apply execute_signal_dry_run; reflexivity | vm_compute; reflexivity].
Defined.

End ExecutionFacts.
